(** * Hyperactive: the optimizer base class and the random search loop

    A shallow embedding of [hyperactive/base_optimizer.py] and
    [hyperactive/random_search.py].  Python objects that the optimizer
    mutates become explicit state, exceptions become the [Raise] branch of
    [result], and the collaborators that live in other modules (candidates,
    positioners, the concrete optimizer's step, the model library, the
    pseudo-random generators) are grouped in one record of externals.  What
    the code relies on of Python and its libraries is written out: true
    division of integers, [argsort], [Pool.map], [str.rsplit].  Of the
    public interface, [fit], [predict] and [score] are embedded; [export],
    which only writes a file, is not. *)

From Stdlib Require Import String.
From Stdlib Require Import ZArith List Bool Lia Permutation SpecFloat.
From Stdlib Require Import Ascii Sorted.
Import ListNotations.
Local Open Scope Z_scope.

(** ** Exceptions and results *)

(** The Python exceptions that can travel through the optimizer.
    [External] stands for whatever a collaborator (the scoring function,
    the model library) raises. *)
Inductive exn : Type :=
| IndexError
| ValueError
| ZeroDivisionError
| OverflowError
| AttributeError
| UnboundLocalError
| External (what : string)
| EvaluationError (at_position : list Z) (cause : exn)
| JobFailure (job_id : Z) (cause : exn).

(** Modelled from the spec: the two wrappers [EvaluationError] and
    [JobFailure] of the error taxonomy are not classes of the source; they
    are constructors of [exn] only so that statements can speak about them. *)
Definition is_EvaluationError (e : exn) : bool :=
  match e with EvaluationError _ _ => true | _ => false end.

Definition is_JobFailure (e : exn) : bool :=
  match e with JobFailure _ _ => true | _ => false end.

Inductive result (A : Type) : Type :=
| Ok (a : A)
| Raise (e : exn).
Arguments Ok {A} a.
Arguments Raise {A} e.

Definition is_Ok {A} (r : result A) : bool :=
  match r with Ok _ => true | Raise _ => false end.

(** ** Python helpers *)

(** [range(n)] *)
Definition py_range (n : Z) : list Z := map Z.of_nat (seq 0 (Z.to_nat n)).

(** [len(l)] *)
Definition len {A} (l : list A) : Z := Z.of_nat (length l).

(** [l[i]] on a Python list: negative indices count from the end, anything
    out of range raises [IndexError]. *)
Definition getitem {A} (l : list A) (i : Z) : result A :=
  let j := if i <? 0 then len l + i else i in
  if j <? 0 then Raise IndexError
  else match nth_error l (Z.to_nat j) with
       | Some a => Ok a
       | None => Raise IndexError
       end.

(** ** Training data *)

Record ndarray : Type := mk_ndarray { arr_id : nat; arr_rows : list (list Z) }.

(** What a caller may pass as [X] or [y].  Every object carries an identity;
    a pandas object also carries the array that its [.values] returns. *)
Inductive data : Type :=
| DataFrame (id : nat) (values : ndarray)
| Series (id : nat) (values : ndarray)
| Array (a : ndarray)
| PyList (id : nat) (rows : list (list Z)).

(** [isinstance(d, pd.core.frame.DataFrame)] *)
Definition is_DataFrame (d : data) : bool :=
  match d with DataFrame _ _ => true | _ => false end.

(** [d.values] *)
Definition get_values (d : data) : result data :=
  match d with
  | DataFrame _ v | Series _ v => Ok (Array v)
  | Array _ | PyList _ _ => Raise AttributeError
  end.

(** [BaseOptimizer._check_data]: both tests look at [X]; the second one
    sees the value [X] has after the first. *)
Definition _check_data (X y : data) : result (data * data) :=
  match (if is_DataFrame X then get_values X else Ok X) with
  | Raise e => Raise e
  | Ok X1 =>
      match (if is_DataFrame X1 then get_values y else Ok y) with
      | Raise e => Raise e
      | Ok y1 => Ok (X1, y1)
      end
  end.

(** What [_check_data] makes of [X]. *)
Definition converted (X : data) : data :=
  match X with
  | DataFrame _ v => Array v
  | _ => X
  end.

(** ** Division of Python integers *)

(** [a / b] on two [int]s is true division: the quotient is rounded once, to
    the nearest binary64 value (ties to even).  The rounding is the one of the
    standard library's IEEE 754 specification; an integer enters it as the
    mantissa of a number with exponent 0. *)
Definition truediv (a b : Z) : result spec_float :=
  match a, b with
  | _, Z0 => Raise ZeroDivisionError
  | Z0, _ => Ok (S754_zero (b <? 0))
  | _, _ =>
      match SFdiv 53 1024
              (S754_finite (a <? 0) (Z.to_pos (Z.abs a)) 0)
              (S754_finite (b <? 0) (Z.to_pos (Z.abs b)) 0) with
      | S754_infinity _ => Raise OverflowError
      | q => Ok q
      end
  end.

(** The integer part of [m * 2^e], for [m >= 0]. *)
Definition truncate_scaled (m e : Z) : Z :=
  if 0 <=? e then m * 2 ^ e else m / 2 ^ (- e).

(** [int(x)] on a float: truncation toward zero. *)
Definition int_of_float (x : spec_float) : result Z :=
  match x with
  | S754_zero _ => Ok 0
  | S754_finite s m e =>
      let v := truncate_scaled (Zpos m) e in
      Ok (if s then - v else v)
  | S754_infinity _ => Raise OverflowError
  | S754_nan => Raise ValueError
  end.

(** [a % b] on two [int]s: the remainder has the sign of [b]. *)
Definition py_mod (a b : Z) : result Z :=
  if b =? 0 then Raise ZeroDivisionError else Ok (a mod b).

(** ** The optimizer object *)

(** [self._config_], of which the optimizer reads [model_type] and reads and
    writes [n_jobs]. *)
Record Config : Type := mk_Config { model_type : string; n_jobs : Z }.

(** The keyword arguments built by [_tqdm_dict] and the progress bar
    [self.p_bar] that [tqdm.tqdm] makes from them. *)
Record tqdm_args : Type := mk_tqdm_args {
  iterable : list Z; desc : string * Z; position_ : Z; leave : bool }.

Record progress_bar : Type := mk_progress_bar { bar_args : tqdm_args; bar_n : Z }.

Section Optimizer.

(** The type of a fitted or unfitted model object of the model library. *)
Variable model : Type.

Record BaseOptimizer : Type := mk_BaseOptimizer {
  n_iter : Z;
  metric : string;
  verbosity : Z;
  random_state : option Z;
  model_list : list string;
  n_models : Z;
  _config_ : Config;
  _n_process_range : list Z;
  p_bar : option progress_bar;
  score_best_ : option Z;
  model_best : option model
}.

(** [BaseOptimizer.__init__], from the keys of [search_config] and from the
    [Config] object as [get_model_type] and [set_n_jobs] leave it. *)
Definition __init__ (search_config_keys : list string) (n_iter : Z)
    (metric : string) (verbosity : Z) (random_state : option Z)
    (config : Config) : BaseOptimizer :=
  {| n_iter := n_iter;
     metric := metric;
     verbosity := verbosity;
     random_state := random_state;
     model_list := search_config_keys;
     n_models := len search_config_keys;
     _config_ := config;
     _n_process_range := py_range (n_jobs config);
     p_bar := None;
     score_best_ := None;
     model_best := None |}.

(** [BaseOptimizer._set_n_steps] *)
Definition _set_n_steps (self : BaseOptimizer) (nth_process : Z) : result Z :=
  match truediv (n_iter self) (n_jobs (_config_ self)) with
  | Raise e => Raise e
  | Ok q =>
      match int_of_float q with
      | Raise e => Raise e
      | Ok n_steps =>
          match py_mod (n_iter self) (n_jobs (_config_ self)) with
          | Raise e => Raise e
          | Ok remain =>
              Ok (if nth_process <? remain then n_steps + 1 else n_steps)
          end
      end
  end.

End Optimizer.

Arguments n_iter {model}.
Arguments metric {model}.
Arguments verbosity {model}.
Arguments random_state {model}.
Arguments model_list {model}.
Arguments n_models {model}.
Arguments _config_ {model}.
Arguments _n_process_range {model}.
Arguments p_bar {model}.
Arguments score_best_ {model}.
Arguments model_best {model}.
Arguments _set_n_steps {model}.

(** ** Candidates, positioners and random generators *)

Definition position : Type := list Z.

(** The attributes of a candidate object that the optimizers read or assign;
    [cand_rest] is everything else the object holds (search space, model
    wrapper, memory).  A score, a float in the source, is an integer here:
    the optimizers only compare scores. *)
Record Candidate (CI : Type) : Type := mk_Candidate {
  nth_process : Z;
  pos : position;
  score : Z;
  pos_best : position;
  score_best : Z;
  cand_rest : CI
}.
Arguments mk_Candidate {CI}.
Arguments nth_process {CI}.
Arguments pos {CI}.
Arguments score {CI}.
Arguments pos_best {CI}.
Arguments score_best {CI}.
Arguments cand_rest {CI}.

Record Positioner (PI : Type) : Type := mk_Positioner {
  pos_current : position;
  score_current : Z;
  pos_new : position;
  score_new : Z;
  positioner_rest : PI
}.
Arguments mk_Positioner {PI}.
Arguments pos_current {PI}.
Arguments score_current {PI}.
Arguments pos_new {PI}.
Arguments score_new {PI}.
Arguments positioner_rest {PI}.

(** The three process-wide generators that [_set_random_seed] seeds. *)
Inductive generator_name : Type := PyRandom | NumpyRandom | ScipyRandom.

Record generators (G : Type) : Type := mk_generators {
  py_random : G;
  np_random : G;
  scipy_random : G
}.
Arguments mk_generators {G}.
Arguments py_random {G}.
Arguments np_random {G}.
Arguments scipy_random {G}.

(** A collaborator runs inside one process: it may draw from the generators
    and it may raise; it neither prints nor assigns attributes of the
    optimizer. *)
Definition Ext (G A : Type) : Type := generators G -> result A * generators G.

(** ** The collaborators outside the two modules

    Everything the optimizers call but do not define.  The constructor
    arguments that are the same for every job of one optimizer (search
    configuration, metric, cv, warm start, memory, scatter init) are part of
    the collaborator. *)
Record Externals : Type := mk_Externals {
  G : Type;
  CI : Type;
  PI : Type;
  model : Type;
  start_point : Type;
  para : Type;
  (** the state of a generator after [seed(s)]; seeding is taken to accept
      every integer *)
  seed : Z -> G;
  (** [random.Random._randbelow(n)] *)
  _randbelow : Z -> G -> Z * G;
  (** [MlCandidate(nth_process, ..., search_config_key)] *)
  MlCandidate : Z -> string -> Ext G (Candidate CI);
  (** [DlCandidate(nth_process, ...)] *)
  DlCandidate : Z -> Ext G (Candidate CI);
  (** [_cand_._init_._set_start_pos(nth_process, X, y)] *)
  _set_start_pos : Candidate CI -> Z -> data -> data -> Ext G position;
  (** the scoring of one position, [_cand_.eval_pos(pos, X, y)]: the score
      and what the candidate remembers afterwards *)
  eval_pos : CI -> position -> data -> data -> Ext G (Z * CI);
  (** [self.initializer], set by the concrete optimizer *)
  initializer :
    option (Candidate CI -> data -> data -> Ext G (Candidate CI * Positioner PI));
  (** [self._iterate(i, _cand_, _p_, X, y)], defined by the concrete optimizer *)
  _iterate :
    Z -> Candidate CI -> Positioner PI -> data -> data ->
    Ext G (Candidate CI * Positioner PI);
  (** [_cand_._get_warm_start()] *)
  _get_warm_start : Candidate CI -> result start_point;
  (** [_cand_._space_.pos2para(pos)] *)
  pos2para : CI -> position -> result para;
  (** [_cand_._model_._create_model(para)] *)
  _create_model : CI -> para -> result model;
  (** [model.fit(X, y)] *)
  model_fit : model -> data -> data -> Ext G model;
  (** [_cand_._space_.get_random_position()] *)
  get_random_position : CI -> Ext G position;
  (** [_init_search] as the random search inherits it from [.base]: it
      returns the candidate alone *)
  base_init_search : Z -> data -> data -> Ext G (Candidate CI);
  (** the order in which the tasks of the process pool finish *)
  completion_order : list nat
}.

(** ** numpy: [argsort] and indexing with a list of indices *)

(** [np.argsort] with its default kind sorts an array of at most 16 elements
    by insertion: the index array starts as [0, 1, ..] and each index in turn
    moves left past the indices whose key is strictly greater.  The sorted
    prefix is kept reversed here, so that the scan starts at its right end. *)
Fixpoint insert_from_right (v : list Z) (vi : nat) (rev_prefix : list nat)
    : list nat :=
  match rev_prefix with
  | [] => [vi]
  | pk :: rest =>
      if nth vi v 0 <? nth pk v 0
      then pk :: insert_from_right v vi rest
      else vi :: rev_prefix
  end.

Definition argsort (v : list Z) : list nat :=
  rev (fold_left (fun acc vi => insert_from_right v vi acc)
         (seq 0 (length v)) []).

(** [a[idx]] for a list of indices [idx] *)
Fixpoint take {A} (a : list A) (idx : list nat) : result (list A) :=
  match idx with
  | [] => Ok []
  | i :: rest =>
      match nth_error a i with
      | None => Raise IndexError
      | Some x =>
          match take a rest with
          | Ok xs => Ok (x :: xs)
          | Raise e => Raise e
          end
      end
  end.

(** [BaseOptimizer._sort_for_best] *)
Definition _sort_for_best {A} (sort : list A) (sort_by : list Z)
    : result (list A * list Z) :=
  let index_best := rev (argsort sort_by) in
  match take sort index_best with
  | Raise e => Raise e
  | Ok sort_sorted =>
      match take sort_by index_best with
      | Raise e => Raise e
      | Ok sort_by_sorted => Ok (sort_sorted, sort_by_sorted)
      end
  end.

(** The reversed [argsort] of the first [k] keys. *)
Definition descending (v : list Z) (k : nat) : list nat :=
  fold_left (fun acc vi => insert_from_right v vi acc) (seq 0 k) [].



(** ** multiprocessing: what [Pool.map] reports *)

(** The exception that [Pool.map] re-raises is the one of the task that
    failed first, in the order in which the tasks finished. *)
Fixpoint first_raised {A} (order : list nat) (rs : list (result A)) : option exn :=
  match order with
  | [] => None
  | k :: rest =>
      match nth_error rs k with
      | Some (Raise e) => Some e
      | _ => first_raised rest rs
      end
  end.

Fixpoint values {A} (rs : list (result A)) : list A :=
  match rs with
  | [] => []
  | Ok a :: rest => a :: values rest
  | Raise _ :: rest => values rest
  end.

(** ** Processes, effects and the optimizer monad *)

Section WithExternals.

Variable E : Externals.

Abbreviation cand := (Candidate (CI E)).
Abbreviation positioner := (Positioner (PI E)).

(** What [print] writes. *)
Inductive output : Type :=
| NotEnoughJobs (diff : Z)
| MetricScore (metric : string) (score : Z)
| StartPointLine (sp : start_point E)
| StartPointsHeader.

(** What [Observed] records of a candidate after a step of the random
    search. *)
Record observation : Type := mk_observation {
  obs_pos : position;
  obs_score : Z;
  obs_pos_best : position;
  obs_score_best : Z
}.

(** The effects of a run, in order.  [Seeded], [Printed], [PoolCreated] and
    [PoolMapped] are calls the code makes; [SearchStarted], [Iterated] and
    [Observed] are ghost marks put where a search starts, where a loop body
    starts and where an iteration of the random search ends. *)
Inductive event : Type :=
| Seeded (g : generator_name) (s : Z)
| Printed (o : output)
| PoolCreated (processes : Z)
| PoolMapped (ids : list Z)
| SearchStarted (in_worker : bool) (nth_process : Z)
| Iterated (nth_process : Z) (i : Z)
| Observed (nth_process : Z) (o : observation).

(** One process: its copy of the optimizer object, its generators, and
    whether it is a worker of the pool. *)
Record Process : Type := mk_Process {
  self : BaseOptimizer (model E);
  gens : generators (G E);
  in_worker : bool
}.

(** A computation runs in a process, returns or raises, leaves the process
    in a new state and lists the effects it had. *)
Definition M (A : Type) : Type := Process -> result A * Process * list event.

Definition outcome {A} (x : result A * Process * list event) : result A :=
  fst (fst x).

Definition final {A} (x : result A * Process * list event) : Process :=
  snd (fst x).

Definition events {A} (x : result A * Process * list event) : list event :=
  snd x.

Definition ret {A} (a : A) : M A := fun w => (Ok a, w, []).

Definition raise {A} (e : exn) : M A := fun w => (Raise e, w, []).

Definition bind {A B} (m : M A) (k : A -> M B) : M B :=
  fun w => match m w with
           | (Ok a, w', t) =>
               match k a w' with
               | (r, w'', t') => (r, w'', t ++ t')
               end
           | (Raise e, w', t) => (Raise e, w', t)
           end.

Notation "x <- m ;; k" := (bind m (fun x => k))
  (at level 61, m at next level, right associativity).
Notation "' p <- m ;; k" := (bind m (fun x => match x with p => k end))
  (at level 61, p pattern, m at next level, right associativity).
Notation "m ;;; k" := (bind m (fun _ => k))
  (at level 61, right associativity).

Definition of_result {A} (r : result A) : M A := fun w => (r, w, []).

(** Running a collaborator in the current process. *)
Definition call {A} (c : Ext (G E) A) : M A :=
  fun w => let (r, g) := c (gens w) in
           (r, mk_Process (self w) g (in_worker w), []).

Definition get_self : M (BaseOptimizer (model E)) := fun w => (Ok (self w), w, []).

Definition set_self (o : BaseOptimizer (model E)) : M unit :=
  fun w => (Ok tt, mk_Process o (gens w) (in_worker w), []).

Definition emit (ev : event) : M unit := fun w => (Ok tt, w, [ev]).

Definition print (o : output) : M unit := emit (Printed o).

Definition when (b : bool) (m : M unit) : M unit := if b then m else ret tt.

(** [for x in l: acc = body(x, acc)] *)
Fixpoint for_each {A S} (l : list A) (body : A -> S -> M S) (acc : S) : M S :=
  match l with
  | [] => ret acc
  | x :: l' => acc' <- body x acc ;; for_each l' body acc'
  end.

(** Seeding one generator: [random.seed(s)], [np.random.seed(s)],
    [scipy.random.seed(s)]. *)
Definition seed_generator (g : generator_name) (s : Z) : M unit :=
  fun w =>
    let gs := gens w in
    let gs' :=
      match g with
      | PyRandom => mk_generators (seed E s) (np_random gs) (scipy_random gs)
      | NumpyRandom => mk_generators (py_random gs) (seed E s) (scipy_random gs)
      | ScipyRandom => mk_generators (py_random gs) (np_random gs) (seed E s)
      end in
    (Ok tt, mk_Process (self w) gs' (in_worker w), [Seeded g s]).

(** [random.choice(l)] *)
Definition random_choice {A} (l : list A) : M A :=
  fun w =>
    if len l =? 0 then (Raise IndexError, w, [])
    else
      let gs := gens w in
      let (i, g') := _randbelow E (len l) (py_random gs) in
      (getitem l i,
       mk_Process (self w) (mk_generators g' (np_random gs) (scipy_random gs))
         (in_worker w),
       []).

(** Truth value of [self.random_state]: [None] and [0] are false. *)
Definition truthy (o : option Z) : bool :=
  match o with
  | Some r => negb (r =? 0)
  | None => false
  end.

(** [int(self.random_state)] *)
Definition int_of (o : option Z) : M Z :=
  match o with
  | Some r => ret r
  | None => raise ValueError
  end.

(** ** [BaseOptimizer] *)

(** [BaseOptimizer._tqdm_dict] *)
Definition _tqdm_dict (o : BaseOptimizer (model E)) (c : cand) : tqdm_args :=
  {| iterable := py_range (n_iter o);
     desc := ("Search "%string, nth_process c);
     position_ := nth_process c;
     leave := false |}.

(** [BaseOptimizer._set_random_seed] *)
Definition _set_random_seed (thread : Z) : M unit :=
  o <- get_self ;;
  if truthy (random_state o) then
    rand <- int_of (random_state o) ;;
    seed_generator PyRandom (rand + thread) ;;;
    seed_generator NumpyRandom (rand + thread) ;;;
    seed_generator ScipyRandom (rand + thread)
  else
    let rand := 0 in
    seed_generator PyRandom (rand + thread) ;;;
    seed_generator NumpyRandom (rand + thread) ;;;
    seed_generator ScipyRandom (rand + thread).

(** [BaseOptimizer._get_sklearn_model] *)
Definition _get_sklearn_model (nth_process : Z) : M string :=
  o <- get_self ;;
  if n_models o >? n_jobs (_config_ o) then
    let diff := n_models o - n_jobs (_config_ o) in
    when (nth_process =? 0) (print (NotEnoughJobs diff)) ;;;
    of_result (getitem (model_list o) nth_process)
  else if nth_process <? n_models o then
    of_result (getitem (model_list o) nth_process)
  else
    random_choice (model_list o).

(** [BaseOptimizer._show_progress_bar] *)
Definition _show_progress_bar (o : BaseOptimizer (model E)) : bool :=
  if (String.eqb (model_type (_config_ o)) "keras"
      || String.eqb (model_type (_config_ o)) "torch")%bool
  then false
  else if verbosity o >? 0 then true else false.

(** Assignments to attributes of [self]. *)
Definition set_p_bar (b : option progress_bar) : M unit :=
  o <- get_self ;;
  set_self (mk_BaseOptimizer (model E) (n_iter o) (metric o) (verbosity o)
              (random_state o) (model_list o) (n_models o) (_config_ o)
              (_n_process_range o) b (score_best_ o) (model_best o)).

Definition set_n_jobs (n : Z) : M unit :=
  o <- get_self ;;
  set_self (mk_BaseOptimizer (model E) (n_iter o) (metric o) (verbosity o)
              (random_state o) (model_list o) (n_models o)
              (mk_Config (model_type (_config_ o)) n)
              (_n_process_range o) (p_bar o) (score_best_ o) (model_best o)).

Definition set_score_best (sc : Z) : M unit :=
  o <- get_self ;;
  set_self (mk_BaseOptimizer (model E) (n_iter o) (metric o) (verbosity o)
              (random_state o) (model_list o) (n_models o) (_config_ o)
              (_n_process_range o) (p_bar o) (Some sc) (model_best o)).

Definition set_model_best (m : model E) : M unit :=
  o <- get_self ;;
  set_self (mk_BaseOptimizer (model E) (n_iter o) (metric o) (verbosity o)
              (random_state o) (model_list o) (n_models o) (_config_ o)
              (_n_process_range o) (p_bar o) (score_best_ o) (Some m)).

(** [self.p_bar.update(1)] *)
Definition p_bar_update : M unit :=
  o <- get_self ;;
  match p_bar o with
  | Some b => set_p_bar (Some (mk_progress_bar (bar_args b) (bar_n b + 1)))
  | None => raise AttributeError
  end.

(** The branches of [_init_search] that bind [_cand_]; for another model type
    the name stays unbound. *)
Definition bind_candidate (nth : Z) : M (option cand) :=
  o <- get_self ;;
  if (String.eqb (model_type (_config_ o)) "sklearn"
      || String.eqb (model_type (_config_ o)) "xgboost")%bool then
    search_config_key <- _get_sklearn_model nth ;;
    c <- call (MlCandidate E nth search_config_key) ;;
    ret (Some c)
  else if String.eqb (model_type (_config_ o)) "keras" then
    c <- call (DlCandidate E nth) ;;
    ret (Some c)
  else ret None.

(** [BaseOptimizer._init_search].  A name that no branch has bound
    ([_cand_] for an unknown model type, [_p_] without an initializer)
    raises [UnboundLocalError] where it is read. *)
Definition _init_search (nth : Z) (X y : data) : M (cand * positioner) :=
  _set_random_seed nth ;;;
  bound_cand <- bind_candidate nth ;;
  match bound_cand with
  | None => raise UnboundLocalError
  | Some c =>
      pos0 <- call (_set_start_pos E c nth X y) ;;
      ' (score0, rest) <- call (eval_pos E (cand_rest c) pos0 X y) ;;
      let c := mk_Candidate (nth_process c) (pos c) (score c) pos0 score0 rest in
      bound_p <-
        match initializer E with
        | Some init =>
            ' (c', p) <- call (init c X y) ;;
            ret (c', Some p)
        | None => ret (c, None)
        end ;;
      let (c, p) := bound_p in
      o <- get_self ;;
      when (_show_progress_bar o)
           (set_p_bar (Some (mk_progress_bar (_tqdm_dict o c) 0))) ;;;
      match p with
      | Some p => ret (c, p)
      | None => raise UnboundLocalError
      end
  end.


(** [BaseOptimizer._update_pos] *)
Definition _update_pos (c : cand) (p : positioner) : cand * positioner :=
  (mk_Candidate (nth_process c) (pos c) (score c) (pos_new p) (score_new p)
     (cand_rest c),
   mk_Positioner (pos_new p) (score_new p) (pos_new p) (score_new p)
     (positioner_rest p)).

(** The body of the loop of [BaseOptimizer.search] *)
Definition search_step (nth : Z) (X y : data) (i : Z) (cp : cand * positioner)
    : M (cand * positioner) :=
  emit (Iterated nth i) ;;;
  cp' <- call (_iterate E i (fst cp) (snd cp) X y) ;;
  o <- get_self ;;
  when (_show_progress_bar o) p_bar_update ;;;
  ret cp'.

(** [BaseOptimizer.search] *)
Definition search (nth : Z) (X y : data) : M cand :=
  worker <- (fun w => (Ok (in_worker w), w, [])) ;;
  emit (SearchStarted worker nth) ;;;
  cp <- _init_search nth X y ;;
  o <- get_self ;;
  cp <- for_each (py_range (n_iter o)) (search_step nth X y) cp ;;
  ret (fst cp).

(** [multiprocessing.Pool(processes)] *)
Definition Pool (processes : Z) : M unit :=
  if processes <? 1 then raise ValueError else emit (PoolCreated processes).

(** [pool.map(f, ids)]: every task runs in a worker process, on a copy of
    the caller's state; the caller gets the values in the order of [ids], or
    the exception of the task that failed first.  What the workers did shows
    in the caller only as effects, listed here task by task. *)
Definition pool_map {A} (f : Z -> M A) (ids : list Z) : M (list A) :=
  fun w =>
    let runs := map (fun id => f id (mk_Process (self w) (gens w) true)) ids in
    let effects := PoolMapped ids :: concat (map events runs) in
    match first_raised (completion_order E ++ seq 0 (length ids))
            (map outcome runs) with
    | Some e => (Raise e, w, effects)
    | None => (Ok (values (map outcome runs)), w, effects)
    end.

(** [BaseOptimizer._search_multiprocessing] *)
Definition _search_multiprocessing (X y : data) : M (list cand) :=
  o <- get_self ;;
  Pool (n_jobs (_config_ o)) ;;;
  pool_map (fun nth => search nth X y) (_n_process_range o).

(** [BaseOptimizer._run_one_job] *)
Definition _run_one_job (X y : data) : M unit :=
  c <- search 0 X y ;;
  start_point <- of_result (_get_warm_start E c) ;;
  set_score_best (score_best c) ;;;
  para <- of_result (pos2para E (cand_rest c) (pos_best c)) ;;
  m <- of_result (_create_model E (cand_rest c) para) ;;
  set_model_best m ;;;
  o <- get_self ;;
  when (negb (verbosity o =? 0))
       (print (MetricScore (metric o) (score_best c)) ;;;
        print (StartPointLine start_point)).

(** The body of the first loop of [BaseOptimizer._run_multiple_jobs]: one
    more entry in each of the three lists. *)
Definition collect_job (c : cand)
    (acc : list (start_point E) * list Z * list (model E))
    : M (list (start_point E) * list Z * list (model E)) :=
  let '(start_point_list, score_best_list, model_best_list) := acc in
  start_point <- of_result (_get_warm_start E c) ;;
  para <- of_result (pos2para E (cand_rest c) (pos_best c)) ;;
  model_best <- of_result (_create_model E (cand_rest c) para) ;;
  ret (start_point_list ++ [start_point],
       score_best_list ++ [score_best c],
       model_best_list ++ [model_best]).

(** The body of its second loop: the two lines printed for one job. *)
Definition print_job (o : BaseOptimizer (model E)) (line : start_point E * Z)
    (_ : unit) : M unit :=
  print (MetricScore (metric o) (snd line)) ;;;
  print (StartPointLine (fst line)).

(** [BaseOptimizer._run_multiple_jobs] after the pool has returned: the
    three lists, the two sorts, the report and the winner. *)
Definition reduce_jobs (_cand_list : list cand) : M unit :=
  lists <- for_each _cand_list collect_job ([], [], []) ;;
  let '(start_point_list, score_best_list, model_best_list) := lists in
  sorted1 <- of_result (_sort_for_best start_point_list score_best_list) ;;
  sorted2 <- of_result (_sort_for_best model_best_list score_best_list) ;;
  let start_point_sorted := fst sorted1 in
  let model_best_sorted := fst sorted2 in
  let score_best_sorted := snd sorted2 in
  o <- get_self ;;
  when (negb (verbosity o =? 0))
       (print StartPointsHeader ;;;
        for_each (combine start_point_sorted score_best_sorted) (print_job o) tt) ;;;
  best_score <- of_result (getitem score_best_sorted 0) ;;
  set_score_best best_score ;;;
  best_model <- of_result (getitem model_best_sorted 0) ;;
  set_model_best best_model.

(** [BaseOptimizer._run_multiple_jobs] *)
Definition _run_multiple_jobs (X y : data) : M unit :=
  _cand_list <- _search_multiprocessing X y ;;
  reduce_jobs _cand_list.

(** [BaseOptimizer.fit] *)
Definition fit (X y : data) : M unit :=
  Xy <- of_result (_check_data X y) ;;
  let (X, y) := Xy in
  o <- get_self ;;
  when (String.eqb (model_type (_config_ o)) "keras") (set_n_jobs 1) ;;;
  o <- get_self ;;
  (if n_jobs (_config_ o) =? 1 then _run_one_job X y
   else _run_multiple_jobs X y) ;;;
  o <- get_self ;;
  match model_best o with
  | None => raise AttributeError
  | Some m =>
      fitted <- call (model_fit E m X y) ;;
      set_model_best fitted
  end.

(** ** [RandomSearchOptimizer] *)

(** Modelled from the spec: [_cand_.eval(X, y)], a method of the candidate
    module, which is not under src.  The candidate's current position is
    scored and the score is kept in [_cand_.score]; the best position and the
    best score are left as they are. *)
Definition cand_eval (c : cand) (X y : data) : M cand :=
  ' (sc, rest) <- call (eval_pos E (cand_rest c) (pos c) X y) ;;
  ret (mk_Candidate (nth_process c) (pos c) sc (pos_best c) (score_best c) rest).

(** [RandomSearchOptimizer._move] *)
Definition _move (c : cand) : M cand :=
  p <- call (get_random_position E (cand_rest c)) ;;
  ret (mk_Candidate (nth_process c) p (score c) (pos_best c) (score_best c)
         (cand_rest c)).

Definition observe (nth : Z) (c : cand) : M unit :=
  emit (Observed nth (mk_observation (pos c) (score c) (pos_best c) (score_best c))).

(** The body of the loop of [RandomSearchOptimizer.search] *)
Definition random_search_step (nth : Z) (X y : data) (i : Z) (c : cand) : M cand :=
  c <- _move c ;;
  c <- cand_eval c X y ;;
  let c :=
    if score c >? score_best c
    then mk_Candidate (nth_process c) (pos c) (score c) (pos c) (score c)
           (cand_rest c)
    else c in
  observe nth c ;;;
  ret c.

(** [RandomSearchOptimizer.search], with [_tqdm_dict] as
    [base_optimizer.py] has it: the loop runs over [range(self.n_iter)]. *)
Definition RandomSearchOptimizer_search (nth : Z) (X y : data) : M cand :=
  c <- call (base_init_search E nth X y) ;;
  c <- cand_eval c X y ;;
  let c := mk_Candidate (nth_process c) (pos c) (score c) (pos c) (score c)
             (cand_rest c) in
  observe nth c ;;;
  o <- get_self ;;
  for_each (iterable (_tqdm_dict o c)) (random_search_step nth X y) c.

End WithExternals.

Arguments Seeded {E}.
Arguments Printed {E}.
Arguments PoolCreated {E}.
Arguments PoolMapped {E}.
Arguments SearchStarted {E}.
Arguments Iterated {E}.
Arguments Observed {E}.
Arguments NotEnoughJobs {E}.
Arguments MetricScore {E}.
Arguments StartPointLine {E}.
Arguments StartPointsHeader {E}.
Arguments mk_Process {E}.
Arguments self {E}.
Arguments gens {E}.
Arguments in_worker {E}.
Arguments outcome {E A}.
Arguments final {E A}.
Arguments events {E A}.

(** ** Reading a list of effects *)

(** The loop indices of the iterations that job [nth] started. *)
Definition iterations_of {E} (nth : Z) (t : list (event E)) : list Z :=
  flat_map (fun ev => match ev with
                      | Iterated k i => if k =? nth then [i] else []
                      | _ => []
                      end) t.

(** The number of iterations started, whatever the job. *)
Definition iterations_total {E} (t : list (event E)) : Z :=
  len (flat_map (fun ev => match ev with Iterated _ _ => [tt] | _ => [] end) t).

(** The reports of dropped models, each with the number it gives. *)
Definition dropped_reports {E} (t : list (event E)) : list Z :=
  flat_map (fun ev => match ev with
                      | Printed (NotEnoughJobs diff) => [diff]
                      | _ => []
                      end) t.

(** The searches started: in a pool worker or not, and the job id. *)
Definition searches_started {E} (t : list (event E)) : list (bool * Z) :=
  flat_map (fun ev => match ev with
                      | SearchStarted worker nth => [(worker, nth)]
                      | _ => []
                      end) t.

(** The uses of the process pool: its size, the job ids mapped. *)
Definition pool_uses {E} (t : list (event E)) : list (Z + list Z) :=
  flat_map (fun ev => match ev with
                      | PoolCreated n => [inl n]
                      | PoolMapped ids => [inr ids]
                      | _ => []
                      end) t.

(** The seeds given to the generators. *)
Definition seedings {E} (t : list (event E)) : list (generator_name * Z) :=
  flat_map (fun ev => match ev with Seeded g s => [(g, s)] | _ => [] end) t.

(** What the random search of job [nth] observed, step by step. *)
Definition observations {E} (nth : Z) (t : list (event E)) : list observation :=
  flat_map (fun ev => match ev with
                      | Observed k o => if k =? nth then [o] else []
                      | _ => []
                      end) t.

(** The share of [n_iter] that the spec gives job [k] of [N]:
    [floor(n_iter/N)], plus one for the first [n_iter mod N] jobs. *)
Definition apportioned (n_iter N k : Z) : Z :=
  n_iter / N + (if k <? n_iter mod N then 1 else 0).

Definition sumZ (l : list Z) : Z := fold_right Z.add 0 l.

(** The seed that [_set_random_seed] starts from: [self.random_state], or
    0 when there is none. *)
Definition base_seed {model} (o : BaseOptimizer model) : Z :=
  match random_state o with
  | Some r => r
  | None => 0
  end.

(** The three seedings of one call of [_set_random_seed]. *)
Definition seed_events {E} (s : Z) : list (event E) :=
  [Seeded PyRandom s; Seeded NumpyRandom s; Seeded ScipyRandom s].

(** The model types whose candidates are made from a key of the model list. *)
Definition is_ml {model} (o : BaseOptimizer model) : bool :=
  (String.eqb (model_type (_config_ o)) "sklearn"
   || String.eqb (model_type (_config_ o)) "xgboost")%bool.

(** What job [nth] prints about dropped models. *)
Definition report_events {E} (o : BaseOptimizer (model E)) (nth : Z) : list (event E) :=
  if (is_ml o && (n_models o >? n_jobs (_config_ o)) && (nth =? 0))%bool
  then [Printed (NotEnoughJobs (n_models o - n_jobs (_config_ o)))]
  else [].

(** The optimizer with another progress bar. *)
Definition with_p_bar {model} (o : BaseOptimizer model) (b : option progress_bar)
    : BaseOptimizer model :=
  mk_BaseOptimizer model (n_iter o) (metric o) (verbosity o) (random_state o)
    (model_list o) (n_models o) (_config_ o) (_n_process_range o) b
    (score_best_ o) (model_best o).

(** The prints of [_run_one_job] and [_run_multiple_jobs]: scores and start
    points. *)
Definition is_result_print {E} (ev : event E) : bool :=
  match ev with
  | Printed (MetricScore _ _) | Printed (StartPointLine _) | Printed StartPointsHeader => true
  | _ => false
  end.

(** What the caller configured, as opposed to what a run assigns. *)
Definition settings {model} (o : BaseOptimizer model) : BaseOptimizer model :=
  mk_BaseOptimizer model (n_iter o) (metric o) (verbosity o) (random_state o)
    (model_list o) (n_models o) (_config_ o) (_n_process_range o) None None None.

(** The process in which [pool.map] runs a task of the caller [w]. *)
Definition worker_of {E} (w : Process E) : Process E :=
  mk_Process (self w) (gens w) true.

(** The process after [self._config_.n_jobs = n]. *)
Definition with_n_jobs {E} (w : Process E) (n : Z) : Process E :=
  final (set_n_jobs E n w).

(** What [_run_one_job] and [_run_multiple_jobs] take from the candidate
    of a finished job: start point, best score, best model. *)
Definition job_result (E : Externals) (c : Candidate (CI E))
    : result (start_point E * Z * model E) :=
  match _get_warm_start E c with
  | Raise e => Raise e
  | Ok sp =>
      match pos2para E (cand_rest c) (pos_best c) with
      | Raise e => Raise e
      | Ok pa =>
          match _create_model E (cand_rest c) pa with
          | Raise e => Raise e
          | Ok m => Ok (sp, score_best c, m)
          end
      end
  end.



(** What [fit] runs once the data is converted and the keras rule is
    applied: one job in the caller, or the pool. *)
Definition fit_run (E : Externals) (X y : data) (w : Process E)
    : result unit * Process E * list (event E) :=
  let w0 := if String.eqb (model_type (_config_ (self w))) "keras"
            then with_n_jobs w 1 else w in
  if n_jobs (_config_ (self w0)) =? 1
  then _run_one_job E (converted X) y w0
  else _run_multiple_jobs E (converted X) y w0.

(** ** A small instance of the collaborators

    One generator state is a counter, a model is the position it was made
    for with a flag that tells whether it has been fitted, and the concrete
    optimizer climbs: iteration [i] of job [k] scores the position [[k; i+1]]
    and keeps it when it is strictly better. *)
Definition toy (scoring : position -> result Z) (order : list nat) : Externals :=
  {| G := Z;
     CI := unit;
     PI := unit;
     model := position * bool;
     start_point := position;
     para := position;
     seed := fun s => s;
     _randbelow := fun n g => (g mod n, g + 1);
     MlCandidate := fun nth _ gs => (Ok (mk_Candidate nth [] 0 [] 0 tt), gs);
     DlCandidate := fun nth gs => (Ok (mk_Candidate nth [] 0 [] 0 tt), gs);
     _set_start_pos := fun _ nth _ _ gs => (Ok [nth], gs);
     eval_pos := fun ci p _ _ gs =>
       (match scoring p with Ok sc => Ok (sc, ci) | Raise e => Raise e end, gs);
     initializer := Some (fun c _ _ gs =>
       (Ok (c, mk_Positioner (pos_best c) (score_best c) (pos_best c)
                 (score_best c) tt), gs));
     _iterate := fun i c p _ _ gs =>
       (match scoring [nth_process c; i + 1] with
        | Raise e => Raise e
        | Ok sc =>
            if sc >? score_best c
            then Ok (mk_Candidate (nth_process c) (pos c) (score c)
                       [nth_process c; i + 1] sc tt,
                     mk_Positioner [nth_process c; i + 1] sc
                       [nth_process c; i + 1] sc tt)
            else Ok (c, p)
        end, gs);
     _get_warm_start := fun c => Ok (pos_best c);
     pos2para := fun _ p => Ok p;
     _create_model := fun _ p => Ok (p, false);
     model_fit := fun m _ _ gs => (Ok (fst m, true), gs);
     get_random_position := fun _ gs =>
       (Ok [py_random gs mod 4],
        mk_generators (py_random gs + 1) (np_random gs) (scipy_random gs));
     base_init_search := fun nth _ _ gs => (Ok (mk_Candidate nth [nth] 0 [] 0 tt), gs);
     completion_order := order |}.

(** The score of a position in the examples: the sum of its indices. *)
Definition sum_score (p : position) : result Z := Ok (sumZ p).

(** A scoring function that rejects one position. *)
Definition failing_at (bad : position) (p : position) : result Z :=
  if list_eq_dec Z.eq_dec p bad then Raise (External "invalid configuration")
  else Ok (sumZ p).

Definition no_data : data := Array (mk_ndarray 0 []).

(** A fresh caller process around an optimizer. *)
Definition caller {E} (o : BaseOptimizer (model E)) (g : G E) : Process E :=
  mk_Process o (mk_generators g g g) false.

(** Two finished jobs with the same best score, at different positions. *)
Definition job0_tied : Candidate unit := mk_Candidate 0 [] 0 [0; 5] 5 tt.
Definition job1_tied : Candidate unit := mk_Candidate 1 [] 0 [1; 4] 5 tt.
Definition job2_worse : Candidate unit := mk_Candidate 2 [] 0 [2; 1] 3 tt.

(** The optimizer of the examples: four models, three job slots. *)
Definition four_models : list string :=
  ["sklearn.a"; "sklearn.b"; "sklearn.c"; "sklearn.d"]%string.

Definition three_jobs (E : Externals) (n_iter : Z) : BaseOptimizer (model E) :=
  __init__ (model E) four_models n_iter "accuracy" 1 None (mk_Config "sklearn" 3).

(** ** Importing a model class *)

(** [s.rsplit(".", 1)]: the text before the last dot and the text after it.
    For a string without a dot Python returns the one-element list [[s]],
    which is [None] here. *)
Fixpoint rsplit_dot (s : string) : option (string * string) :=
  match s with
  | EmptyString => None
  | String c rest =>
      match rsplit_dot rest with
      | Some (before, after) => Some (String c before, after)
      | None => if Ascii.eqb c "."%char then Some (EmptyString, rest) else None
      end
  end.


Section Importing.

(** Module objects, and what [getattr] finds in them. *)
Variable module_object : Type.
Variable attribute : Type.

(** [importlib.import_module(name)] *)
Variable import_module : string -> result module_object.

(** [getattr(module, name)] *)
Variable getattr : module_object -> string -> result attribute.

(** [BaseOptimizer._get_model]: unpacking a one-element list into two names
    raises [ValueError]. *)
Definition _get_model (model : string) : result attribute :=
  match rsplit_dot model with
  | None => Raise ValueError
  | Some (module_str, model_str) =>
      match import_module module_str with
      | Raise e => Raise e
      | Ok module => getattr module model_str
      end
  end.

End Importing.

(** ** Using the model that [fit] found *)

Section Using.

Variable model : Type.

(** What the model library's [predict], [score] and [evaluate] return; an
    evaluation is indexed with [[1]]. *)
Variable prediction : Type.
Variable score_value : Type.
Variable evaluation : Type.
Variable model_predict : model -> data -> result prediction.
Variable model_score : model -> data -> data -> result score_value.
Variable model_evaluate : model -> data -> data -> result evaluation.
Variable evaluation_item : evaluation -> Z -> result score_value.

(** [BaseOptimizer.predict]; [self.model_best] exists once a run has
    assigned it. *)
Definition predict (self : BaseOptimizer model) (X_test : data)
    : result prediction :=
  match model_best self with
  | None => Raise AttributeError
  | Some m => model_predict m X_test
  end.

(** [BaseOptimizer.score]; a function that ends without [return] returns
    [None]. *)
Definition BaseOptimizer_score (self : BaseOptimizer model) (X_test y_test : data)
    : result (option score_value) :=
  if (String.eqb (model_type (_config_ self)) "sklearn"
      || String.eqb (model_type (_config_ self)) "xgboost")%bool then
    match model_best self with
    | None => Raise AttributeError
    | Some m =>
        match model_score m X_test y_test with
        | Raise e => Raise e
        | Ok s => Ok (Some s)
        end
    end
  else if String.eqb (model_type (_config_ self)) "keras" then
    match model_best self with
    | None => Raise AttributeError
    | Some m =>
        match model_evaluate m X_test y_test with
        | Raise e => Raise e
        | Ok ev =>
            match evaluation_item ev 1 with
            | Raise e => Raise e
            | Ok s => Ok (Some s)
            end
        end
    end
  else Ok None.

End Using.

Arguments predict {model prediction}.
Arguments BaseOptimizer_score {model score_value evaluation}.

(** ** More readers of effects *)

(** What [print] wrote, in order. *)
Definition printed {E} (t : list (event E)) : list (output E) :=
  flat_map (fun ev => match ev with Printed o => [o] | _ => [] end) t.

(** The two lines that [_run_multiple_jobs] prints for one job. *)
Definition report_lines {E} (metric : string) (line : start_point E * Z)
    : list (event E) :=
  [Printed (MetricScore metric (snd line)); Printed (StartPointLine (fst line))].

(** The optimizer after [self.score_best = sc] and after
    [self.model_best = m]. *)
Definition with_score_best {model} (o : BaseOptimizer model) (sc : Z)
    : BaseOptimizer model :=
  mk_BaseOptimizer model (n_iter o) (metric o) (verbosity o) (random_state o)
    (model_list o) (n_models o) (_config_ o) (_n_process_range o) (p_bar o)
    (Some sc) (model_best o).

Definition with_model_best {model} (o : BaseOptimizer model) (m : model)
    : BaseOptimizer model :=
  mk_BaseOptimizer model (n_iter o) (metric o) (verbosity o) (random_state o)
    (model_list o) (n_models o) (_config_ o) (_n_process_range o) (p_bar o)
    (score_best_ o) (Some m).

(** The process whose generators are all in the state that [seed(s)]
    leaves. *)
Definition seeded {E} (w : Process E) (s : Z) : Process E :=
  mk_Process (self w) (mk_generators (seed E s) (seed E s) (seed E s))
    (in_worker w).


(** The prints of [_run_one_job] for a start point and a score, and the
    prints of the report of [_run_multiple_jobs] for the sorted lines. *)
Definition result_of (E : Externals) (o : BaseOptimizer (model E))
    (sp : start_point E) (sc : Z) : list (event E) :=
  if verbosity o =? 0 then [] else report_lines (metric o) (sp, sc).

Definition report_of (E : Externals) (o : BaseOptimizer (model E))
    (lines : list (start_point E * Z)) : list (event E) :=
  if verbosity o =? 0 then []
  else Printed StartPointsHeader :: flat_map (report_lines (metric o)) lines.

(** The only prints of [t] are reports of dropped models. *)
Definition only_reports {E} (t : list (event E)) : Prop :=
  printed t = map NotEnoughJobs (dropped_reports t).

(** The optimizer with another verbosity. *)
Definition with_verbosity {model} (o : BaseOptimizer model) (v : Z)
    : BaseOptimizer model :=
  mk_BaseOptimizer model (n_iter o) (metric o) v (random_state o) (model_list o)
    (n_models o) (_config_ o) (_n_process_range o) (p_bar o) (score_best_ o)
    (model_best o).

(** The optimizer without what concerns the display only: its verbosity and
    its progress bar. *)
Definition undisplayed {model} (o : BaseOptimizer model) : BaseOptimizer model :=
  mk_BaseOptimizer model (n_iter o) (metric o) 0 (random_state o) (model_list o)
    (n_models o) (_config_ o) (_n_process_range o) None (score_best_ o)
    (model_best o).

(** A process that shows a progress bar has one. *)
Definition bar_ok {E} (w : Process E) : Prop :=
  _show_progress_bar E (self w) = true -> exists b, p_bar (self w) = Some b.

(** The effects of a run without the prints of results. *)
Definition without_results {E} (t : list (event E)) : list (event E) :=
  filter (fun ev => negb (is_result_print ev)) t.

(** What two runs have in common when they find the same. *)
Definition same_found {E A} (x1 x2 : result A * Process E * list (event E)) : Prop :=
  outcome x1 = outcome x2 /\
  without_results (events x1) = without_results (events x2) /\
  gens (final x1) = gens (final x2) /\
  undisplayed (self (final x1)) = undisplayed (self (final x2)) /\
  in_worker (final x1) = in_worker (final x2).

(** ** More instances for the examples *)

(** The collaborators [E] with another [_create_model], and with another
    [model.fit]. *)
Definition with_create_model (E : Externals)
    (f : CI E -> para E -> result (model E)) : Externals :=
  {| G := G E; CI := CI E; PI := PI E; model := model E;
     start_point := start_point E; para := para E;
     seed := seed E; _randbelow := _randbelow E;
     MlCandidate := MlCandidate E; DlCandidate := DlCandidate E;
     _set_start_pos := _set_start_pos E; eval_pos := eval_pos E;
     initializer := initializer E; _iterate := _iterate E;
     _get_warm_start := _get_warm_start E; pos2para := pos2para E;
     _create_model := f; model_fit := model_fit E;
     get_random_position := get_random_position E;
     base_init_search := base_init_search E;
     completion_order := completion_order E |}.

Definition with_model_fit (E : Externals)
    (f : model E -> data -> data -> Ext (G E) (model E)) : Externals :=
  {| G := G E; CI := CI E; PI := PI E; model := model E;
     start_point := start_point E; para := para E;
     seed := seed E; _randbelow := _randbelow E;
     MlCandidate := MlCandidate E; DlCandidate := DlCandidate E;
     _set_start_pos := _set_start_pos E; eval_pos := eval_pos E;
     initializer := initializer E; _iterate := _iterate E;
     _get_warm_start := _get_warm_start E; pos2para := pos2para E;
     _create_model := _create_model E; model_fit := f;
     get_random_position := get_random_position E;
     base_init_search := base_init_search E;
     completion_order := completion_order E |}.

(** A model library that cannot build the model. *)
Definition unbuildable : Externals :=
  with_create_model (toy sum_score [])
    (fun _ _ => Raise (External "cannot build the model")).

(** A model whose fitting draws from the generator: the fitted model shows
    the state in which [random] was. *)
Definition drawing_fit : Externals :=
  with_model_fit (toy sum_score [])
    (fun m _ _ gs => (Ok (py_random gs :: fst m, true), gs)).


(** The optimizer of the examples with one job slot. *)
Definition one_job (E : Externals) (n_iter : Z) : BaseOptimizer (model E) :=
  __init__ (model E) four_models n_iter "accuracy" 1 None (mk_Config "sklearn" 1).

(** An importer that knows one module, with one class in it. *)
Definition toy_import (name : string) : result unit :=
  if String.eqb name "sklearn.ensemble" then Ok tt
  else Raise (External "ModuleNotFoundError").

Definition toy_getattr (_ : unit) (name : string) : result nat :=
  if String.eqb name "RandomForestClassifier" then Ok 7%nat else Raise AttributeError.

(** A model library for [predict] and [score]: the prediction is the
    position the model was made for, the score its sum. *)
Definition toy_predict (m : position * bool) (_ : data) : result position :=
  if snd m then Ok (fst m) else Raise (External "NotFittedError").

Definition toy_score (m : position * bool) (_ _ : data) : result Z :=
  if snd m then Ok (sumZ (fst m)) else Raise (External "NotFittedError").

Definition toy_evaluate (m : position * bool) (_ _ : data) : result (list Z) :=
  if snd m then Ok [0; sumZ (fst m)] else Raise (External "NotFittedError").



(** * Properties *)

(** ** Data conversion *)

Lemma get_values_not_DataFrame (d d' : data) :
  get_values d = Ok d' -> is_DataFrame d' = false.
Proof.
  destruct d; simpl; intros H; inversion H; reflexivity.
Qed.

(** C8: the conversion step returns [y] itself for every input pair, also
    when [y] is a DataFrame, and replaces a DataFrame [X] by [X.values]. *)
Theorem check_data_keeps_y (X y : data) :
  exists X1,
    _check_data X y = Ok (X1, y) /\
    (forall id v, X = DataFrame id v -> X1 = Array v) /\
    (is_DataFrame X = false -> X1 = X).
Proof.
  unfold _check_data.
  destruct X as [id v | id v | a | id rows]; simpl;
    eexists; (split; [reflexivity | split; [intros ? ? H; inversion H; reflexivity | intros H; try reflexivity; discriminate]]).
Qed.


Lemma check_data_converted (X y : data) : _check_data X y = Ok (converted X, y).
Proof. destruct X; reflexivity. Qed.

(** ** Rounding of an integer quotient to binary64 *)

(** The number of binary digits, as the logarithm has it. *)
Lemma digits2_pos_size p : digits2_pos p = Pos.size p.
Proof. induction p; simpl; congruence. Qed.

Lemma Zdigits2_log2 m : 0 < m -> Zdigits2 m = Z.log2 m + 1.
Proof.
  destruct m as [|p|p]; try lia. intros _. simpl.
  rewrite digits2_pos_size. destruct p; simpl; lia.
Qed.

Lemma Zdigits2_unique m d : 2 ^ (d - 1) <= m < 2 ^ d -> 1 <= d -> Zdigits2 m = d.
Proof.
  intros H Hd. assert (0 < m) by (pose proof (Z.pow_pos_nonneg 2 (d-1)); lia).
  rewrite Zdigits2_log2 by lia.
  assert (Z.log2 m = d - 1); [|lia].
  apply Z.log2_unique; [lia|]. replace (Z.succ (d-1)) with d by lia. lia.
Qed.

(** One step of the right shift: the mantissa halves, the bit shifted out
    becomes the round bit and the old round bit joins the sticky bit. *)
Lemma shr_1_spec m r s : 0 <= m ->
  shr_1 (Build_shr_record m r s) = Build_shr_record (m / 2) (Z.odd m) (r || s).
Proof.
  intros Hm. rewrite <- Z.div2_div.
  destruct m as [|[p|p|]|p]; try lia; reflexivity.
Qed.

(** Where the quotient lies between two consecutive mantissas, read from the
    remainder [r] of the division by [b]. *)
Lemma new_location_spec b r : 0 <= r < b ->
  new_location b r = if r =? 0 then loc_Exact else loc_Inexact (2 * r ?= b).
Proof.
  intros H. unfold new_location, new_location_even, new_location_odd.
  destruct (Z.even b) eqn:Eb; destruct (r =? 0) eqn:Er; try reflexivity.
  f_equal.
  assert (Z.odd b = true) by (rewrite <- Z.negb_even, Eb; reflexivity).
  apply Z.odd_spec in H0. destruct H0 as [k Hk].
  destruct (2 * r + 1 ?= b) eqn:C1; destruct (2 * r ?= b) eqn:C2; try reflexivity;
  rewrite ?Z.compare_lt_iff, ?Z.compare_gt_iff, ?Z.compare_eq_iff in *; lia.
Qed.

Lemma fexp_normal x : -1021 <= x -> fexp 53 1024 x = x - 53.
Proof. intros H. unfold fexp, emin. lia. Qed.

Lemma loc_of_record_of_loc m l : loc_of_shr_record (shr_record_of_loc m l) = l.
Proof. destruct l as [|[| |]]; reflexivity. Qed.

Lemma shr_m_record_of_loc m l : shr_m (shr_record_of_loc m l) = m.
Proof. destruct l as [|[| |]]; reflexivity. Qed.

Lemma rne_range m l : m <= round_nearest_even m l <= m + 1.
Proof. destruct l as [|[| |]]; simpl; try lia. destruct (Z.even m); lia. Qed.

Lemma shr_fexp_53 m e l : 2 ^ 52 <= m < 2 ^ 53 -> -1074 <= e ->
  shr_fexp 53 1024 m e l = (shr_record_of_loc m l, e).
Proof.
  intros Hm He. unfold shr_fexp.
  rewrite (Zdigits2_unique m 53) by (simpl; lia).
  rewrite fexp_normal by lia.
  replace (53 + e - 53 - e) with 0 by lia. reflexivity.
Qed.

Lemma shr_fexp_54 m e l : 2 ^ 53 <= m < 2 ^ 54 -> -1074 <= e ->
  shr_fexp 53 1024 m e l = (shr_1 (shr_record_of_loc m l), e + 1).
Proof.
  intros Hm He. unfold shr_fexp.
  rewrite (Zdigits2_unique m 54) by (simpl; lia).
  rewrite fexp_normal by lia.
  replace (54 + e - 53 - e) with 1 by lia. reflexivity.
Qed.

(** The second normalisation of [binary_round_aux]: a mantissa that the
    rounding has carried to [2^53] is shifted once more; the value, and so
    its integer part, stays the same. *)
Lemma finish_round m2 e : 2 ^ 52 <= m2 <= 2 ^ 53 -> -1074 <= e <= 900 ->
  exists m3 e3,
    (let '(mrs, e'') := shr_fexp 53 1024 m2 e loc_Exact in
     match shr_m mrs with
     | Z0 => S754_zero false
     | Zpos m => if Z.leb e'' (Z.sub 1024 53) then S754_finite false m e'' else S754_infinity false
     | _ => S754_nan
     end) = S754_finite false m3 e3 /\ truncate_scaled (Zpos m3) e3 = truncate_scaled m2 e.
Proof.
  intros Hm He.
  destruct (Z.eq_dec m2 (2 ^ 53)) as [->|Hne].
  - rewrite shr_fexp_54 by (simpl; lia). simpl shr_m.
    exists (4503599627370496%positive), (e + 1). split.
    + replace (e + 1 <=? 1024 - 53) with true by (symmetry; apply Z.leb_le; lia). reflexivity.
    + unfold truncate_scaled. destruct (0 <=? e + 1) eqn:E1; destruct (0 <=? e) eqn:E2;
        rewrite ?Z.leb_le, ?Z.leb_gt in *.
      * rewrite Z.pow_add_r by lia. change (Z.pos 4503599627370496) with (2 ^ 52). lia.
      * assert (e = -1) by lia. subst e. reflexivity.
      * lia.
      * change (Z.pos 4503599627370496) with (2 ^ 52).
        replace (- e) with (1 + - (e + 1)) by lia. rewrite Z.pow_add_r by lia.
        change (2 ^ 53) with (2 ^ 1 * 2 ^ 52).
        rewrite Z.div_mul_cancel_l; try lia.
  - rewrite shr_fexp_53 by lia. simpl shr_m.
    destruct m2 as [|p|p]; try (simpl in Hm; lia).
    exists p, e. split; [|reflexivity].
    replace (e <=? 1024 - 53) with true by (symmetry; apply Z.leb_le; lia). reflexivity.
Qed.

(** Rounding up does not reach the next integer: if [m] is the mantissa of
    [a / b] scaled by [2^E], with a remainder of at least one half, and [a]
    is below [2^53], then [m + 1] has the same integer part as [m]. *)
Lemma no_carry a b E m rho2 :
  1 <= b -> a < 2 ^ 53 -> 0 <= E -> 2 ^ 52 <= m ->
  2 * (a * 2 ^ E) = 2 * (m * b) + rho2 -> b <= rho2 < 2 * b ->
  (m + 1) / 2 ^ E = m / 2 ^ E.
Proof.
  intros Hb Ha HE Hm Heq Hrho.
  assert (HP : 0 < 2 ^ E) by (apply Z.pow_pos_nonneg; lia).
  pose proof (Z.div_mod m (2 ^ E) ltac:(lia)) as Hdm.
  pose proof (Z.mod_pos_bound m (2 ^ E) HP) as Hmod.
  set (k := m / 2 ^ E) in *. set (t := m mod 2 ^ E) in *.
  destruct (Z.eq_dec (t + 1) (2 ^ E)) as [Ht|Ht].
  - exfalso.
    assert (H1 : 2 * b - rho2 = 2 * 2 ^ E * ((k + 1) * b - a)) by nia.
    assert (H2 : 1 <= (k + 1) * b - a) by nia.
    assert (H3 : 2 * 2 ^ E <= b) by nia.
    nia.
  - symmetry. apply Z.div_unique with (t + 1); lia.
Qed.


Lemma div_div_pow a b s : 0 < b -> 0 <= s -> (a * 2 ^ s) / b / 2 ^ s = a / b.
Proof.
  intros Hb Hs. assert (0 < 2 ^ s) by (apply Z.pow_pos_nonneg; lia).
  rewrite Z.div_div by lia.
  rewrite Z.div_mul_cancel_r by lia. reflexivity.
Qed.

Lemma round_up_cases m l : round_nearest_even m l = m \/
  (round_nearest_even m l = m + 1 /\ (l = loc_Inexact Eq \/ l = loc_Inexact Gt)).
Proof.
  destruct l as [|[| |]]; simpl; auto. destruct (Z.even m); auto.
Qed.


(** ** The apportioning of the iteration budget *)


Lemma sumZ_app (l1 l2 : list Z) : sumZ (l1 ++ l2) = sumZ l1 + sumZ l2.
Proof. induction l1 as [|x l1 IH]; simpl; [reflexivity|]. rewrite IH. lia. Qed.

Lemma py_range_succ (n : nat) :
  py_range (Z.of_nat (S n)) = py_range (Z.of_nat n) ++ [Z.of_nat n].
Proof.
  unfold py_range. rewrite !Nat2Z.id. rewrite seq_S, map_app. reflexivity.
Qed.

Lemma length_py_range (n : Z) : length (py_range n) = Z.to_nat n.
Proof. unfold py_range. rewrite length_map, length_seq. reflexivity. Qed.

Lemma In_py_range (n k : Z) : In k (py_range n) <-> 0 <= k < n.
Proof.
  unfold py_range. rewrite in_map_iff. split.
  - intros (i & <- & Hi). apply in_seq in Hi. lia.
  - intros H. exists (Z.to_nat k). split; [lia|]. apply in_seq. lia.
Qed.

(** The shares of the first [m] jobs add up to [m] floors plus one per job
    below the remainder. *)
Lemma sum_shares (q r : Z) (m : nat) :
  0 <= r ->
  sumZ (map (fun k => q + (if k <? r then 1 else 0)) (py_range (Z.of_nat m)))
  = Z.of_nat m * q + Z.min (Z.of_nat m) r.
Proof.
  intros Hr. induction m as [|m IH].
  - simpl. lia.
  - rewrite py_range_succ, map_app, sumZ_app, IH. simpl sumZ.
    destruct (Z.of_nat m <? r) eqn:C; [apply Z.ltb_lt in C | apply Z.ltb_ge in C]; lia.
Qed.

Lemma sum_apportioned (n N : Z) :
  1 <= N -> sumZ (map (apportioned n N) (py_range N)) = n.
Proof.
  intros HN. unfold apportioned.
  pose proof (Z.mod_pos_bound n N ltac:(lia)) as Hm.
  pose proof (sum_shares (n / N) (n mod N) (Z.to_nat N) ltac:(lia)) as Hs.
  rewrite Z2Nat.id in Hs by lia. rewrite Hs.
  pose proof (Z.div_mod n N ltac:(lia)). lia.
Qed.


(** True division rounds as binary64 does: [1 / 10] is the double
    [0x3FB999999999999A], [7 / -2] is [-3.5], and [2^53 + 1] loses its last
    bit. *)
Example truediv_one_tenth :
  truediv 1 10 = Ok (S754_finite false 7205759403792794 (-56)).
Proof. vm_compute. reflexivity. Qed.

Example truediv_negative :
  truediv 7 (-2) = Ok (S754_finite true 7881299347898368 (-51)) /\
  int_of_float (S754_finite true 7881299347898368 (-51)) = Ok (-3).
Proof. vm_compute. split; reflexivity. Qed.

Example truediv_above_2_53 :
  truediv 9007199254740993 1 = Ok (S754_finite false 4503599627370496 1).
Proof. vm_compute. reflexivity. Qed.

(** The two examples of the budget rule: 10 over 3 jobs and 7 over 4. *)
Example set_n_steps_10_3 :
  map (_set_n_steps (__init__ unit [] 10 "accuracy" 1 None (mk_Config "sklearn" 3)))
      (py_range 3) = [Ok 4; Ok 3; Ok 3].
Proof. vm_compute. reflexivity. Qed.

Example set_n_steps_7_4 :
  map (_set_n_steps (__init__ unit [] 7 "accuracy" 1 None (mk_Config "sklearn" 4)))
      (py_range 4) = [Ok 2; Ok 2; Ok 2; Ok 1].
Proof. vm_compute. reflexivity. Qed.



(** ** Effects of the steps of a search *)

Lemma with_p_bar_same {model} (o : BaseOptimizer model) : with_p_bar o (p_bar o) = o.
Proof. destruct o; reflexivity. Qed.

Lemma with_p_bar_twice {model} (o : BaseOptimizer model) b b' :
  with_p_bar (with_p_bar o b) b' = with_p_bar o b'.
Proof. reflexivity. Qed.

Lemma set_random_seed_effect (E : Externals) (thread : Z) (w : Process E) :
  _set_random_seed E thread w
  = (Ok tt,
     mk_Process (self w)
       (mk_generators (seed E (base_seed (self w) + thread))
          (seed E (base_seed (self w) + thread))
          (seed E (base_seed (self w) + thread)))
       (in_worker w),
     seed_events (base_seed (self w) + thread)).
Proof.
  unfold _set_random_seed, base_seed, bind, get_self, truthy, int_of.
  destruct (random_state (self w)) as [r|]; simpl.
  - destruct (r =? 0) eqn:Hr; simpl; [apply Z.eqb_eq in Hr; subst r|]; reflexivity.
  - reflexivity.
Qed.

(** Case analysis on whatever the goal still matches on. *)
Ltac split_match :=
  match goal with
  | |- context [match ?x with _ => _ end] =>
      lazymatch x with
      | context [match _ with _ => _ end] => fail
      | _ => destruct x eqn:?
      end
  end.

Ltac run_m :=
  unfold bind, ret, raise, of_result, call, get_self, set_self, emit, print, when;
  simpl.

Lemma get_sklearn_model_effect (E : Externals) (nth : Z) (w : Process E) :
  events (_get_sklearn_model E nth w)
  = (if ((n_models (self w) >? n_jobs (_config_ (self w))) && (nth =? 0))%bool
     then [Printed (NotEnoughJobs (n_models (self w) - n_jobs (_config_ (self w))))]
     else []) /\
  self (final (_get_sklearn_model E nth w)) = self w /\
  in_worker (final (_get_sklearn_model E nth w)) = in_worker w.
Proof.
  unfold _get_sklearn_model, random_choice. run_m.
  repeat (split_match; simpl); auto.
Qed.

Ltac done_effect w :=
  simpl; rewrite ?app_nil_r; repeat split; auto; try congruence;
  try (eexists; reflexivity);
  try (exists (p_bar (self w)); rewrite with_p_bar_same; congruence).

Lemma bind_candidate_effect (E : Externals) (nth : Z) (w : Process E) r w' t :
  bind_candidate E nth w = (r, w', t) ->
  t = report_events (self w) nth /\ self w' = self w /\ in_worker w' = in_worker w.
Proof.
  unfold bind_candidate. unfold bind at 1. unfold get_self at 1.
  unfold report_events, is_ml. cbv beta.
  destruct (String.eqb (model_type (_config_ (self w))) "sklearn"
            || String.eqb (model_type (_config_ (self w))) "xgboost")%bool eqn:Hml.
  - unfold bind at 1.
    pose proof (get_sklearn_model_effect E nth w) as (Hev & Hself & Hwk).
    destruct (_get_sklearn_model E nth w) as [[r1 w2] t1].
    unfold events, final in *. simpl in Hev, Hself, Hwk. subst t1.
    destruct r1 as [key|e]; simpl.
    2:{ intros H; inversion H; subst. rewrite ?app_nil_r. auto. }
    run_m.
    repeat (split_match; simpl); intros H; inversion H; subst;
      rewrite ?app_nil_r; auto.
  - simpl. run_m.
    repeat (split_match; simpl); intros H; inversion H; subst; auto.
Qed.

Lemma init_search_effect (E : Externals) (nth : Z) (X y : data) (w : Process E)
    r w' t :
  _init_search E nth X y w = (r, w', t) ->
  t = seed_events (base_seed (self w) + nth) ++ report_events (self w) nth /\
  in_worker w' = in_worker w /\
  exists b, self w' = with_p_bar (self w) b.
Proof.
  unfold _init_search. unfold bind at 1. rewrite set_random_seed_effect.
  unfold bind at 1.
  set (w1 := mk_Process _ _ _).
  destruct (bind_candidate E nth w1) as [[r1 w2] t1] eqn:Hbc.
  apply bind_candidate_effect in Hbc. destruct Hbc as (-> & Hself & Hwk).
  replace (self w1) with (self w) in * by reflexivity.
  replace (in_worker w1) with (in_worker w) in * by reflexivity.
  destruct r1 as [[c|]|e].
  - run_m. unfold set_p_bar, p_bar_update. run_m.
    repeat (split_match; simpl); intros H; inversion H; subst; rewrite ?Hself;
      done_effect w.
  - run_m. intros H; inversion H; subst. rewrite ?Hself. done_effect w.
  - intros H; inversion H; subst. rewrite ?Hself. done_effect w.
Qed.

Lemma search_step_effect (E : Externals) (nth : Z) (X y : data) (i : Z) cp
    (w : Process E) r w' t :
  search_step E nth X y i cp w = (r, w', t) ->
  t = [Iterated nth i] /\
  in_worker w' = in_worker w /\
  exists b, self w' = with_p_bar (self w) b.
Proof.
  unfold search_step. run_m. unfold p_bar_update, set_p_bar. run_m.
  repeat (split_match; simpl); intros H; inversion H; subst; done_effect w.
Qed.

Lemma for_each_cons (E : Externals) {A S} (x : A) (l : list A)
    (body : A -> S -> M E S) (acc : S) (w : Process E) :
  for_each E (x :: l) body acc w
  = match body x acc w with
    | (Ok acc', w', t) =>
        match for_each E l body acc' w' with
        | (r, w'', t') => (r, w'', t ++ t')
        end
    | (Raise e, w', t) => (Raise e, w', t)
    end.
Proof. reflexivity. Qed.

Lemma search_loop_effect (E : Externals) (nth : Z) (X y : data) (l : list Z) :
  forall cp (w : Process E) r w' t,
    for_each E l (search_step E nth X y) cp w = (r, w', t) ->
    exists j, (j <= length l)%nat /\
      t = map (Iterated nth) (firstn j l) /\
      (is_Ok r = true -> j = length l) /\
      in_worker w' = in_worker w /\
      exists b, self w' = with_p_bar (self w) b.
Proof.
  induction l as [|i l IH]; intros cp w r w' t.
  - simpl. unfold ret. intros H; inversion H; subst.
    exists 0%nat. done_effect w'.
  - rewrite for_each_cons.
    destruct (search_step E nth X y i cp w) as [[r1 w1] t1] eqn:Hstep.
    apply search_step_effect in Hstep. destruct Hstep as (-> & Hwk & b1 & Hself).
    destruct r1 as [cp1|e].
    + destruct (for_each E l (search_step E nth X y) cp1 w1) as [[r2 w2] t2] eqn:Hrest.
      apply IH in Hrest. destruct Hrest as (j & Hj & -> & Hok & Hwk2 & b2 & Hself2).
      intros H; inversion H; subst.
      exists (S j). simpl. split; [lia|]. split; [reflexivity|].
      split; [intros Hr; rewrite (Hok Hr); reflexivity|].
      split; [congruence|].
      exists b2. rewrite Hself2, Hself. reflexivity.
    + intros H; inversion H; subst.
      exists 1%nat. simpl. rewrite ?firstn_O.
      split; [lia|]. split; [reflexivity|]. split; [discriminate|].
      split; [exact Hwk|]. exists b1. exact Hself.
Qed.

Lemma n_iter_with_p_bar {model} (o : BaseOptimizer model) b :
  n_iter (with_p_bar o b) = n_iter o.
Proof. reflexivity. Qed.

(** What a search does besides calling its collaborators: it seeds the
    generators from its job id, job 0 reports dropped models, and the loop
    starts its iterations in order; a search that returns has started all
    of them. *)
Lemma search_effect (E : Externals) (nth : Z) (X y : data) (w : Process E) r w' t :
  search E nth X y w = (r, w', t) ->
  exists j, (j <= length (py_range (n_iter (self w))))%nat /\
    t = SearchStarted (in_worker w) nth
        :: seed_events (base_seed (self w) + nth)
        ++ report_events (self w) nth
        ++ map (Iterated nth) (firstn j (py_range (n_iter (self w)))) /\
    (is_Ok r = true -> j = length (py_range (n_iter (self w)))) /\
    in_worker w' = in_worker w /\
    exists b, self w' = with_p_bar (self w) b.
Proof.
  unfold search. unfold bind at 1. unfold bind at 1. unfold emit at 1.
  unfold bind at 1.
  destruct (_init_search E nth X y w) as [[r1 w1] t1] eqn:Hinit.
  apply init_search_effect in Hinit. destruct Hinit as (-> & Hwk & b1 & Hself).
  destruct r1 as [cp|e].
  - unfold bind at 1. unfold get_self at 1. unfold bind at 1.
    destruct (for_each E (py_range (n_iter (self w1))) (search_step E nth X y) cp w1)
      as [[r2 w2] t2] eqn:Hloop.
    apply search_loop_effect in Hloop.
    destruct Hloop as (j & Hj & -> & Hok & Hwk2 & b2 & Hself2).
    rewrite Hself, n_iter_with_p_bar in *.
    destruct r2 as [cp2|e]; unfold ret; simpl; intros H; inversion H; subst;
      exists j; rewrite ?app_nil_r, <- ?app_assoc; simpl;
      (split; [exact Hj|]; split; [reflexivity|]; split; [exact Hok|];
       split; [congruence|]; exists b2; rewrite Hself2; reflexivity).
  - intros H; inversion H; subst. exists 0%nat. simpl.
    rewrite ?app_nil_r. split; [lia|]. split; [reflexivity|].
    split; [discriminate|]. split; [exact Hwk|]. exists b1. exact Hself.
Qed.

(** ** Reading the effects of a search *)

Lemma seedings_app {E} (t1 t2 : list (event E)) :
  seedings (t1 ++ t2) = seedings t1 ++ seedings t2.
Proof. apply flat_map_app. Qed.

Lemma seedings_report {E} (o : BaseOptimizer (model E)) nth :
  seedings (report_events o nth) = [].
Proof. unfold report_events. destruct (_ && _ && _)%bool; reflexivity. Qed.

Lemma seedings_iterated {E} nth (l : list Z) :
  seedings (map (@Iterated E nth) l) = [].
Proof. induction l; simpl; auto. Qed.

(** ** Seeding of a job *)



(** ** Effects of a whole run *)

Lemma settings_with_p_bar {model} (o : BaseOptimizer model) b :
  settings (with_p_bar o b) = settings o.
Proof. reflexivity. Qed.

Lemma run_one_job_effect (E : Externals) (X y : data) (w : Process E) :
  forall r1 w1 t1, search E 0 X y w = (r1, w1, t1) ->
  match r1 with
  | Raise e => _run_one_job E X y w = (Raise e, w1, t1)
  | Ok c =>
      exists r w' t2,
        _run_one_job E X y w = (r, w', t1 ++ t2) /\
        forallb is_result_print t2 = true /\
        settings (self w') = settings (self w1) /\
        in_worker w' = in_worker w1
  end.
Proof.
  intros r1 w1 t1 Hs.
  destruct r1 as [c|e]; unfold _run_one_job; unfold bind at 1; rewrite Hs;
    [|reflexivity].
  run_m. unfold set_score_best, set_model_best. run_m.
  repeat (split_match; simpl); do 3 eexists; (split; [reflexivity|]); simpl; auto.
Qed.

(** ** The order that [argsort] produces *)

Lemma insert_from_right_perm (v : list Z) (vi : nat) (l : list nat) :
  Permutation (insert_from_right v vi l) (vi :: l).
Proof.
  induction l as [|pk rest IH]; simpl; [reflexivity|].
  destruct (nth vi v 0 <? nth pk v 0); [|reflexivity].
  rewrite IH. apply perm_swap.
Qed.

Lemma descending_succ (v : list Z) (k : nat) :
  descending v (S k) = insert_from_right v k (descending v k).
Proof.
  unfold descending. rewrite seq_S, fold_left_app. reflexivity.
Qed.

Lemma descending_perm (v : list Z) (k : nat) :
  Permutation (descending v k) (seq 0 k).
Proof.
  induction k as [|k IH]; [reflexivity|].
  rewrite descending_succ, insert_from_right_perm, IH, seq_S.
  simpl. apply Permutation_cons_append.
Qed.


Lemma rev_argsort (v : list Z) : rev (argsort v) = descending v (length v).
Proof. unfold argsort. apply rev_involutive. Qed.




(** ** The reduction over the jobs *)

Lemma collect_job_effect (E : Externals) c acc (w : Process E) r w' t :
  collect_job E c acc w = (r, w', t) -> w' = w /\ t = [].
Proof.
  unfold collect_job. destruct acc as [[sps scs] ms]. run_m.
  repeat (split_match; simpl); intros H; inversion H; auto.
Qed.

Lemma collect_jobs_effect (E : Externals) (cands : list (Candidate (CI E))) :
  forall acc (w : Process E) r w' t,
    for_each E cands (collect_job E) acc w = (r, w', t) -> w' = w /\ t = [].
Proof.
  induction cands as [|c cands IH]; intros acc w r w' t.
  - simpl. unfold ret. intros H; inversion H; auto.
  - rewrite for_each_cons.
    destruct (collect_job E c acc w) as [[r1 w1] t1] eqn:H1.
    apply collect_job_effect in H1. destruct H1 as [-> ->].
    destruct r1 as [acc1|e].
    + destruct (for_each E cands (collect_job E) acc1 w) as [[r2 w2] t2] eqn:H2.
      apply IH in H2. destruct H2 as [-> ->].
      intros H; inversion H; auto.
    + intros H; inversion H; auto.
Qed.


Lemma print_jobs_effect (E : Externals) (o : BaseOptimizer (model E)) lines :
  forall (w : Process E),
    exists t, for_each E lines (print_job E o) tt w = (Ok tt, w, t) /\
              forallb is_result_print t = true.
Proof.
  induction lines as [|line lines IH]; intros w.
  - exists []. auto.
  - destruct (IH w) as (t & Ht & Hp). rewrite for_each_cons.
    unfold print_job at 1. run_m. rewrite Ht. eexists. split; [reflexivity|].
    simpl. exact Hp.
Qed.

Lemma reduce_jobs_effect (E : Externals) cands (w : Process E) r w' t :
  reduce_jobs E cands w = (r, w', t) ->
  forallb is_result_print t = true /\
  settings (self w') = settings (self w) /\
  in_worker w' = in_worker w.
Proof.
  unfold reduce_jobs. unfold bind at 1.
  destruct (for_each E cands (collect_job E) ([], [], []) w) as [[r1 w1] t1] eqn:H1.
  apply collect_jobs_effect in H1. destruct H1 as [-> ->].
  destruct r1 as [[[sps scs] ms]|e]; [|intros H; inversion H; auto].
  run_m. unfold set_score_best, set_model_best. run_m.
  destruct (_sort_for_best sps scs) as [sorted1|]; [|intros H; inversion H; auto].
  destruct (_sort_for_best ms scs) as [sorted2|]; [|intros H; inversion H; auto].
  destruct (negb (verbosity (self w) =? 0)).
  - destruct (print_jobs_effect E (self w) (combine (fst sorted1) (snd sorted2)) w)
      as (tp & Htp & Hp).
    rewrite Htp.
    repeat (split_match; simpl); intros H; inversion H; subst;
      rewrite ?app_nil_r; simpl; auto.
  - repeat (split_match; simpl); intros H; inversion H; subst; simpl; auto.
Qed.

Lemma getitem_0_cons {A} (x : A) (l : list A) : getitem (x :: l) 0 = Ok x.
Proof. reflexivity. Qed.

Opaque for_each.


Transparent for_each.







(** ** Models for the jobs *)

Lemma getitem_in_range {A} (l : list A) (i : Z) :
  0 <= i < len l -> exists a, getitem l i = Ok a /\ nth_error l (Z.to_nat i) = Some a.
Proof.
  intros Hi. unfold getitem, len in *.
  replace (i <? 0) with false by (symmetry; apply Z.ltb_ge; lia).
  replace (i <? 0) with false by (symmetry; apply Z.ltb_ge; lia).
  destruct (nth_error l (Z.to_nat i)) as [a|] eqn:Ha.
  - exists a. auto.
  - apply nth_error_None in Ha. lia.
Qed.



Example spare_job_model :
  let E := toy sum_score [] in
  let keys := ["sklearn.a"; "sklearn.b"]%string in
  let w := caller (__init__ (model E) keys 10 "accuracy" 1 None (mk_Config "sklearn" 4)) 5 in
  outcome (_get_sklearn_model E 3 w) = Ok "sklearn.b"%string.
Proof. reflexivity. Qed.

(** ** The dispatch of the jobs *)

Lemma search_multiprocessing_unfold (E : Externals) (X y : data) (w : Process E) :
  _search_multiprocessing E X y w
  = if n_jobs (_config_ (self w)) <? 1 then (Raise ValueError, w, [])
    else
      let ids := _n_process_range (self w) in
      let runs := map (fun nth => search E nth X y (worker_of w)) ids in
      (match first_raised (completion_order E ++ seq 0 (length ids))
               (map outcome runs) with
       | Some e => Raise e
       | None => Ok (values (map outcome runs))
       end,
       w,
       PoolCreated (n_jobs (_config_ (self w))) :: PoolMapped ids
         :: concat (map events runs)).
Proof.
  unfold _search_multiprocessing, Pool, pool_map, worker_of. run_m.
  destruct (n_jobs (_config_ (self w)) <? 1); [reflexivity|]. simpl.
  destruct (first_raised _ _); reflexivity.
Qed.

Lemma run_multiple_jobs_effect (E : Externals) (X y : data) (w : Process E) :
  forall r1 w1 t1, _search_multiprocessing E X y w = (r1, w1, t1) ->
  w1 = w /\
  match r1 with
  | Raise e => _run_multiple_jobs E X y w = (Raise e, w, t1)
  | Ok cands =>
      exists r w' t2,
        reduce_jobs E cands w = (r, w', t2) /\
        _run_multiple_jobs E X y w = (r, w', t1 ++ t2) /\
        forallb is_result_print t2 = true /\
        settings (self w') = settings (self w) /\
        in_worker w' = in_worker w
  end.
Proof.
  intros r1 w1 t1 H.
  assert (w1 = w).
  { rewrite search_multiprocessing_unfold in H.
    destruct (n_jobs (_config_ (self w)) <? 1); simpl in H; inversion H; auto. }
  subst w1. split; [reflexivity|].
  unfold _run_multiple_jobs, bind. rewrite H.
  destruct r1 as [cands|e]; [|reflexivity].
  destruct (reduce_jobs E cands w) as [[r w'] t2] eqn:Hred.
  apply reduce_jobs_effect in Hred. destruct Hred as (Hp & Hset & Hwk).
  exists r, w', t2. auto.
Qed.

(** [fit] converts the data, dispatches in a process where [n_jobs] is 1
    for keras, and has no effects besides those of the run it dispatches. *)
Lemma fit_effect (E : Externals) (X y : data) (w : Process E) r w' t :
  fit E X y w = (r, w', t) ->
  exists r1 w1,
    (let w0 := if String.eqb (model_type (_config_ (self w))) "keras"
               then with_n_jobs w 1 else w in
     if n_jobs (_config_ (self w0)) =? 1
     then _run_one_job E (converted X) y w0
     else _run_multiple_jobs E (converted X) y w0) = (r1, w1, t) /\
    settings (self w') = settings (self w1) /\
    match r1 with
    | Raise e => r = Raise e /\ w' = w1
    | Ok _ => True
    end.
Proof.
  unfold fit. unfold bind at 1. unfold of_result at 1.
  rewrite check_data_converted.
  unfold bind at 1. unfold get_self at 1. unfold bind at 1. cbv zeta.
  remember (if String.eqb (model_type (_config_ (self w))) "keras"
            then with_n_jobs w 1 else w) as w0 eqn:Hw0.
  assert (Hwhen : when E (String.eqb (model_type (_config_ (self w))) "keras")
                    (set_n_jobs E 1) w = (Ok tt, w0, [])).
  { subst w0. unfold when, with_n_jobs.
    destruct (String.eqb (model_type (_config_ (self w))) "keras"); reflexivity. }
  rewrite Hwhen. unfold bind at 1. unfold get_self at 1. unfold bind at 1.
  cbv beta. clear Hwhen Hw0.
  remember (if n_jobs (_config_ (self w0)) =? 1
            then _run_one_job E (converted X) y w0
            else _run_multiple_jobs E (converted X) y w0) as run eqn:Hr.
  assert (Hrun : (if n_jobs (_config_ (self w0)) =? 1
                  then _run_one_job E (converted X) y
                  else _run_multiple_jobs E (converted X) y) w0 = run).
  { subst run. destruct (n_jobs (_config_ (self w0)) =? 1); reflexivity. }
  rewrite Hrun. clear Hrun Hr. destruct run as [[r1 w1] t1].
  destruct r1 as [[]|e].
  - run_m. unfold set_model_best. run_m.
    repeat (split_match; simpl); intros H; inversion H; subst; rewrite ?app_nil_r;
      do 2 eexists; (split; [reflexivity|]); auto.
  - intros H; inversion H; subst. do 2 eexists. auto.
Qed.

(** ** Reading the effects of a run *)

Lemma result_prints_unread {E} (t : list (event E)) :
  forallb is_result_print t = true ->
  searches_started t = [] /\ pool_uses t = [] /\ dropped_reports t = [] /\
  iterations_total t = 0 /\ forall k, iterations_of k t = [].
Proof.
  induction t as [|ev t IH]; intros H.
  - repeat split.
  - simpl in H. apply andb_true_iff in H. destruct H as [Hev Ht].
    destruct (IH Ht) as (H1 & H2 & H3 & H4 & H5).
    unfold searches_started, pool_uses, dropped_reports, iterations_total,
      iterations_of in *.
    destruct ev as [| [| | |] | | | | |]; try discriminate; simpl; auto.
Qed.

Lemma iterated_unread {E} nth (l : list Z) :
  searches_started (map (@Iterated E nth) l) = [] /\
  pool_uses (map (@Iterated E nth) l) = [] /\
  dropped_reports (map (@Iterated E nth) l) = [] /\
  iterations_total (map (@Iterated E nth) l) = len l /\
  forall k, iterations_of k (map (@Iterated E nth) l) = if k =? nth then l else [].
Proof.
  unfold searches_started, pool_uses, dropped_reports, iterations_total, iterations_of, len.
  induction l as [|i l (H1 & H2 & H3 & H4 & H5)].
  - repeat split. intros k. simpl. destruct (k =? nth); reflexivity.
  - cbn [map flat_map app]. split; [exact H1|]. split; [exact H2|].
    split; [exact H3|]. split.
    + cbn [length]. rewrite !Nat2Z.inj_succ, H4. reflexivity.
    + intros k. rewrite H5. rewrite (Z.eqb_sym nth k).
      destruct (k =? nth); reflexivity.
Qed.

Lemma report_unread {E} (o : BaseOptimizer (model E)) nth :
  searches_started (report_events o nth) = [] /\
  pool_uses (report_events o nth) = [] /\
  iterations_total (report_events o nth) = 0 /\
  forall k, iterations_of k (report_events o nth) = [].
Proof.
  unfold report_events. destruct (_ && _ && _)%bool; repeat split.
Qed.

(** What there is to read in the effects of one search. *)
Lemma search_reads (E : Externals) (nth : Z) (X y : data) (w : Process E) r w' t :
  search E nth X y w = (r, w', t) ->
  searches_started t = [(in_worker w, nth)] /\
  pool_uses t = [] /\
  dropped_reports t = dropped_reports (report_events (self w) nth) /\
  (is_Ok r = true ->
   iterations_total t = len (py_range (n_iter (self w))) /\
   forall k, iterations_of k t = if k =? nth then py_range (n_iter (self w)) else []) /\
  settings (self w') = settings (self w) /\
  in_worker w' = in_worker w.
Proof.
  intros H. apply search_effect in H.
  destruct H as (j & Hj & -> & Hok & Hwk & b & Hself).
  destruct (iterated_unread (E:=E) nth (firstn j (py_range (n_iter (self w)))))
    as (I1 & I2 & I3 & I4 & I5).
  destruct (report_unread (self w) nth) as (R1 & R2 & R3 & R4).
  unfold searches_started, pool_uses, dropped_reports, iterations_total,
    iterations_of, len in *.
  simpl. rewrite !flat_map_app.
  rewrite ?I1, ?I2, ?I3, ?R1, ?R2, ?app_nil_r.
  split; [reflexivity|]. split; [reflexivity|]. split; [reflexivity|].
  split; [|split; [rewrite Hself; reflexivity | exact Hwk]].
  intros Hr. split.
  - rewrite length_app. rewrite Nat2Z.inj_add, R3, I4, (Hok Hr), firstn_all.
    reflexivity.
  - intros k. rewrite flat_map_app, R4, I5, (Hok Hr), firstn_all. reflexivity.
Qed.

Lemma run_one_job_reads (E : Externals) (X y : data) (w : Process E) r w' t :
  _run_one_job E X y w = (r, w', t) ->
  searches_started t = [(in_worker w, 0)] /\
  pool_uses t = [] /\
  dropped_reports t = dropped_reports (report_events (self w) 0) /\
  settings (self w') = settings (self w).
Proof.
  intros H.
  destruct (search E 0 X y w) as [[r1 w1] t1] eqn:Hs.
  pose proof (run_one_job_effect E X y w r1 w1 t1 Hs) as Hrun.
  apply search_reads in Hs. destruct Hs as (S1 & S2 & S3 & _ & S5 & _).
  destruct r1 as [c|e].
  - destruct Hrun as (r2 & w2 & t2 & Heq & Hp & Hset & _).
    rewrite Heq in H. inversion H; subst.
    destruct (result_prints_unread t2 Hp) as (P1 & P2 & P3 & _).
    unfold searches_started, pool_uses, dropped_reports in *.
    rewrite !flat_map_app, S1, S2, S3, P1, P2, P3, !app_nil_r.
    repeat split; auto. congruence.
  - rewrite Hrun in H. inversion H; subst. auto.
Qed.

(** What there is to read in the effects of the tasks of a pool, all run
    from the worker process [ww]. *)
Lemma pool_reads (E : Externals) (X y : data) (ww : Process E) (ids : list Z) :
  searches_started (concat (map (fun nth => events (search E nth X y ww)) ids))
  = map (fun nth => (in_worker ww, nth)) ids /\
  pool_uses (concat (map (fun nth => events (search E nth X y ww)) ids)) = [] /\
  dropped_reports (concat (map (fun nth => events (search E nth X y ww)) ids))
  = flat_map (fun nth => dropped_reports (report_events (self ww) nth)) ids /\
  ((forall nth, In nth ids -> is_Ok (outcome (search E nth X y ww)) = true) ->
   iterations_total (concat (map (fun nth => events (search E nth X y ww)) ids))
   = len ids * len (py_range (n_iter (self ww))) /\
   forall k,
     iterations_of k (concat (map (fun nth => events (search E nth X y ww)) ids))
     = flat_map (fun nth => if k =? nth then py_range (n_iter (self ww)) else []) ids).
Proof.
  induction ids as [|nth ids (I1 & I2 & I3 & I4)].
  - simpl. repeat split; auto.
  - destruct (search E nth X y ww) as [[r w'] t] eqn:Hs.
    pose proof (search_reads E nth X y ww r w' t Hs) as (S1 & S2 & S3 & S4 & _).
    cbn [map concat flat_map]. rewrite Hs. unfold events at 1 3 5 7 9. cbn [snd].
    unfold searches_started, pool_uses, dropped_reports, iterations_total,
      iterations_of, len in *.
    rewrite !flat_map_app, S1, S2, S3, I1, I2, I3.
    split; [reflexivity|]. split; [reflexivity|]. split; [reflexivity|].
    intros Hok.
    destruct S4 as [T1 T2].
    { specialize (Hok nth (or_introl eq_refl)). rewrite Hs in Hok. exact Hok. }
    destruct I4 as [J1 J2]; [intros; apply Hok; right; auto|].
    split.
    + rewrite length_app, Nat2Z.inj_add, T1, J1. cbn [length].
      rewrite Nat2Z.inj_succ. lia.
    + intros k. rewrite flat_map_app, T2, J2. reflexivity.
Qed.

Lemma run_multiple_jobs_reads (E : Externals) (X y : data) (w : Process E) r w' t :
  _run_multiple_jobs E X y w = (r, w', t) ->
  1 <= n_jobs (_config_ (self w)) ->
  pool_uses t = [inl (n_jobs (_config_ (self w))); inr (_n_process_range (self w))] /\
  searches_started t = map (fun nth => (true, nth)) (_n_process_range (self w)) /\
  dropped_reports t
  = flat_map (fun nth => dropped_reports (report_events (self w) nth))
      (_n_process_range (self w)) /\
  settings (self w') = settings (self w).
Proof.
  intros H Hn.
  destruct (_search_multiprocessing E X y w) as [[r1 w1] t1] eqn:Hpool.
  pose proof (run_multiple_jobs_effect E X y w r1 w1 t1 Hpool) as [-> Hrun].
  rewrite search_multiprocessing_unfold in Hpool.
  replace (n_jobs (_config_ (self w)) <? 1) with false in Hpool
    by (symmetry; apply Z.ltb_ge; lia).
  cbv zeta in Hpool. injection Hpool as _ Ht1.
  destruct (pool_reads E X y (worker_of w) (_n_process_range (self w)))
    as (P1 & P2 & P3 & _).
  assert (Hreads :
    pool_uses t1 = [inl (n_jobs (_config_ (self w))); inr (_n_process_range (self w))] /\
    searches_started t1 = map (fun nth => (true, nth)) (_n_process_range (self w)) /\
    dropped_reports t1
    = flat_map (fun nth => dropped_reports (report_events (self w) nth))
        (_n_process_range (self w))).
  { subst t1. unfold pool_uses, searches_started, dropped_reports in *.
    cbn [flat_map app]. rewrite !map_map. rewrite P1, P2, P3. auto. }
  destruct Hreads as (R1 & R2 & R3).
  destruct r1 as [cands|e].
  - destruct Hrun as (r2 & w2 & t2 & _ & Heq & Hp & Hset & _).
    rewrite Heq in H. inversion H; subst r w' t.
    destruct (result_prints_unread t2 Hp) as (Q1 & Q2 & Q3 & _).
    unfold pool_uses, searches_started, dropped_reports in *.
    rewrite !flat_map_app, R1, R2, R3, Q1, Q2, Q3, !app_nil_r. auto.
  - rewrite Hrun in H. inversion H; subst. auto.
Qed.

Lemma settings_config {model} (o o' : BaseOptimizer model) :
  settings o = settings o' -> _config_ o = _config_ o'.
Proof.
  intros H. apply (f_equal (@_config_ model)) in H. exact H.
Qed.

(** C10: for the model type "keras", [fit] sets [n_jobs] to 1 before it
    dispatches, so that one search, of job 0, runs in the calling process and
    no pool is made, whatever [n_jobs] was; for another model type, [n_jobs]
    equal to 1 gives the same, and [n_jobs] greater than 1 makes a pool of
    [n_jobs] processes, maps the job ids [0 .. n_jobs-1] over it and runs
    each search in a worker. *)
Theorem fit_dispatch (E : Externals) (X y : data) (w : Process E) :
  (String.eqb (model_type (_config_ (self w))) "keras" = true ->
   searches_started (events (fit E X y w)) = [(in_worker w, 0)] /\
   pool_uses (events (fit E X y w)) = [] /\
   n_jobs (_config_ (self (final (fit E X y w)))) = 1) /\
  (String.eqb (model_type (_config_ (self w))) "keras" = false ->
   n_jobs (_config_ (self w)) = 1 ->
   searches_started (events (fit E X y w)) = [(in_worker w, 0)] /\
   pool_uses (events (fit E X y w)) = []) /\
  (String.eqb (model_type (_config_ (self w))) "keras" = false ->
   1 < n_jobs (_config_ (self w)) ->
   _n_process_range (self w) = py_range (n_jobs (_config_ (self w))) ->
   pool_uses (events (fit E X y w))
   = [inl (n_jobs (_config_ (self w))); inr (py_range (n_jobs (_config_ (self w))))] /\
   searches_started (events (fit E X y w))
   = map (fun nth => (true, nth)) (py_range (n_jobs (_config_ (self w))))).
Proof.
  destruct (fit E X y w) as [[r w'] t] eqn:Hfit.
  apply fit_effect in Hfit. destruct Hfit as (r1 & w1 & Hrun & Hset & _).
  unfold events, final. cbn [fst snd]. cbv zeta in Hrun.
  split; [|split].
  - intros Hk. rewrite Hk in Hrun.
    change (n_jobs (_config_ (self (with_n_jobs w 1)))) with 1 in Hrun.
    simpl in Hrun. apply run_one_job_reads in Hrun.
    destruct Hrun as (S1 & S2 & _ & S4).
    split; [exact S1|]. split; [exact S2|].
    rewrite (settings_config _ _ Hset), (settings_config _ _ S4). reflexivity.
  - intros Hk Hn. rewrite Hk, Hn in Hrun. simpl in Hrun.
    apply run_one_job_reads in Hrun. destruct Hrun as (S1 & S2 & _). auto.
  - intros Hk Hn Hrange. rewrite Hk in Hrun.
    replace (n_jobs (_config_ (self w)) =? 1) with false in Hrun
      by (symmetry; apply Z.eqb_neq; lia).
    apply run_multiple_jobs_reads in Hrun; [|lia].
    destruct Hrun as (S1 & S2 & _). rewrite Hrange in *. auto.
Qed.

Lemma fit_dispatch_witness :
  let E := toy sum_score [] in
  let keras := caller (__init__ (model E) ["keras.model"%string] 4 "accuracy" 0 None
                         (mk_Config "keras" 8)) 0 in
  let one := caller (__init__ (model E) four_models 4 "accuracy" 1 None
                       (mk_Config "sklearn" 1)) 0 in
  let three := caller (three_jobs E 4) 0 in
  (searches_started (events (fit E no_data no_data keras)) = [(false, 0)] /\
   pool_uses (events (fit E no_data no_data keras)) = [] /\
   n_jobs (_config_ (self (final (fit E no_data no_data keras)))) = 1) /\
  (searches_started (events (fit E no_data no_data one)) = [(false, 0)] /\
   pool_uses (events (fit E no_data no_data one)) = []) /\
  (pool_uses (events (fit E no_data no_data three)) = [inl 3; inr [0; 1; 2]] /\
   searches_started (events (fit E no_data no_data three))
   = [(true, 0); (true, 1); (true, 2)]).
Proof.
  intros E keras one three.
  split; [|split].
  - apply (proj1 (fit_dispatch E no_data no_data keras)). reflexivity.
  - apply (proj1 (proj2 (fit_dispatch E no_data no_data one))); reflexivity.
  - apply (proj2 (proj2 (fit_dispatch E no_data no_data three))); reflexivity.
Defined.

(** ** More models than job slots *)






(** ** Iterations of the jobs of a parallel run *)

Lemma first_raised_none {A} (order : list nat) (rs : list (result A)) :
  first_raised order rs = None ->
  forall k e, In k order -> nth_error rs k <> Some (Raise e).
Proof.
  induction order as [|k0 order IH]; intros H k e Hin; [destruct Hin|].
  simpl in H. destruct Hin as [->|Hin].
  - destruct (nth_error rs k) as [[a|e']|]; try discriminate; congruence.
  - destruct (nth_error rs k0) as [[a|e']|]; try discriminate; apply IH; auto.
Qed.

Lemma first_raised_app {A} (o1 o2 : list nat) (rs : list (result A)) :
  first_raised (o1 ++ o2) rs = None -> first_raised o2 rs = None.
Proof.
  induction o1 as [|k o1 IH]; simpl; [auto|].
  destruct (nth_error rs k) as [[a|e]|]; try discriminate; auto.
Qed.

(** [Pool.map] returns only when every task has returned. *)
Lemma pool_all_ok {A} (order : list nat) (rs : list (result A)) :
  first_raised (order ++ seq 0 (length rs)) rs = None ->
  forall r, In r rs -> is_Ok r = true.
Proof.
  intros H r Hin. apply first_raised_app in H.
  destruct r as [a|e]; [reflexivity|]. exfalso.
  apply In_nth_error in Hin. destruct Hin as (k & Hk).
  apply (first_raised_none _ _ H k e); [|exact Hk].
  apply in_seq. split; [lia|]. simpl. apply nth_error_Some. congruence.
Qed.

Lemma len_py_range (n : Z) : 0 <= n -> len (py_range n) = n.
Proof. intros H. unfold len. rewrite length_py_range. lia. Qed.

Lemma select_job {A} (l : list A) (k : Z) (m : nat) :
  flat_map (fun nth => if k =? nth then l else []) (py_range (Z.of_nat m))
  = if ((0 <=? k) && (k <? Z.of_nat m))%bool then l else [].
Proof.
  induction m as [|m IH].
  - simpl. destruct (0 <=? k) eqn:C1; destruct (k <? 0) eqn:C2; try reflexivity.
    apply Z.leb_le in C1. apply Z.ltb_lt in C2. lia.
  - rewrite py_range_succ, flat_map_app, IH. cbn [flat_map]. rewrite app_nil_r.
    destruct (0 <=? k) eqn:C1; cbn [andb];
      destruct (k <? Z.of_nat m) eqn:C2; destruct (k =? Z.of_nat m) eqn:C3;
      destruct (k <? Z.of_nat (S m)) eqn:C4;
      rewrite ?Z.leb_le, ?Z.leb_gt, ?Z.ltb_lt, ?Z.ltb_ge, ?Z.eqb_eq, ?Z.eqb_neq in *;
      rewrite ?app_nil_r; try reflexivity; lia.
Qed.

(** C1, as the code has it: in a parallel run that returns, the loop of
    every job [0 .. N-1] runs the iterations [0 .. n_iter-1], all of the
    budget and not a share of it, so that the jobs together run
    [N * n_iter] iterations. *)
Theorem every_job_runs_the_whole_budget (E : Externals) (X y : data)
    (w : Process E) cands w' t :
  _search_multiprocessing E X y w = (Ok cands, w', t) ->
  _n_process_range (self w) = py_range (n_jobs (_config_ (self w))) ->
  0 <= n_iter (self w) ->
  (forall k, 0 <= k < n_jobs (_config_ (self w)) ->
     iterations_of k t = py_range (n_iter (self w))) /\
  iterations_total t = n_jobs (_config_ (self w)) * n_iter (self w).
Proof.
  intros H Hrange Hn. rewrite search_multiprocessing_unfold in H.
  destruct (n_jobs (_config_ (self w)) <? 1) eqn:HN; [discriminate|].
  apply Z.ltb_ge in HN. cbv zeta in H. rewrite Hrange in H.
  set (ids := py_range (n_jobs (_config_ (self w)))) in *.
  set (runs := map (fun nth => search E nth X y (worker_of w)) ids) in *.
  destruct (first_raised (completion_order E ++ seq 0 (length ids)) (map outcome runs))
    eqn:Hfirst; [discriminate|].
  injection H as _ _ Ht.
  assert (Hok : forall nth, In nth ids ->
                  is_Ok (outcome (search E nth X y (worker_of w))) = true).
  { intros nth Hin.
    apply (pool_all_ok (completion_order E) (map outcome runs)).
    - unfold runs. rewrite !length_map. exact Hfirst.
    - unfold runs. rewrite map_map. apply in_map_iff. exists nth. auto. }
  destruct (pool_reads E X y (worker_of w) ids) as (_ & _ & _ & P4).
  destruct (P4 Hok) as [T1 T2].
  subst t. unfold runs. rewrite map_map.
  unfold iterations_of, iterations_total in *. cbn [flat_map app].
  split.
  - intros k Hk. rewrite T2. unfold ids.
    replace (n_jobs (_config_ (self w)))
      with (Z.of_nat (Z.to_nat (n_jobs (_config_ (self w))))) at 1 by lia.
    rewrite select_job.
    replace (0 <=? k) with true by (symmetry; apply Z.leb_le; lia).
    replace (k <? Z.of_nat (Z.to_nat (n_jobs (_config_ (self w))))) with true
      by (symmetry; apply Z.ltb_lt; lia).
    reflexivity.
  - rewrite T1. unfold ids. change (self (worker_of w)) with (self w).
    rewrite !len_py_range by lia. reflexivity.
Qed.

Lemma every_job_runs_the_whole_budget_witness :
  let E := toy sum_score [] in
  let w := caller (three_jobs E 10) 0 in
  let run := _search_multiprocessing E no_data no_data w in
  is_Ok (outcome run) = true /\
  (forall k, 0 <= k < 3 -> iterations_of k (events run) = py_range 10) /\
  iterations_total (events run) = 3 * 10.
Proof.
  intros E w run. split; [reflexivity|].
  apply (every_job_runs_the_whole_budget E no_data no_data w
           (values (map outcome (map (fun nth => search E nth no_data no_data (worker_of w))
                                   [0; 1; 2])))
           w (events run)).
  - vm_compute. reflexivity.
  - reflexivity.
  - vm_compute. discriminate.
Defined.

(** C1 as stated fails: of a budget of 10 iterations over 3 jobs the share
    of job 0 is 4, but its loop runs 10 iterations, and the three jobs run 30
    in all. *)
Lemma jobs_do_not_share_the_budget :
  let E := toy sum_score [] in
  let w := caller (three_jobs E 10) 0 in
  let run := _search_multiprocessing E no_data no_data w in
  is_Ok (outcome run) = true /\
  _set_n_steps (self w) 0 = Ok 4 /\
  len (iterations_of 0 (events run)) = 10 /\
  len (iterations_of 0 (events run)) <> 4 /\
  iterations_total (events run) = 30 /\
  iterations_total (events run) <> n_iter (self w).
Proof.
  vm_compute. repeat split; discriminate.
Qed.

(** ** The best score of a random search *)

(** [_update_pos] itself does not compare: it makes the positioner's new
    position and score the best ones, whatever the best score was; the
    comparison is left to its caller. *)
Lemma update_pos_overwrites (E : Externals) (c : Candidate (CI E))
    (p : Positioner (PI E)) :
  score_best (fst (_update_pos E c p)) = score_new p /\
  pos_best (fst (_update_pos E c p)) = pos_new p /\
  score_current (snd (_update_pos E c p)) = score_new p /\
  pos_current (snd (_update_pos E c p)) = pos_new p.
Proof. repeat split. Qed.










(** A random search whose collaborators never raise returns. *)
Lemma random_search_returns (E : Externals) (nth : Z) (X y : data) (w : Process E) :
  (forall g, is_Ok (fst (base_init_search E nth X y g)) = true) ->
  (forall ci p g, is_Ok (fst (eval_pos E ci p X y g)) = true) ->
  (forall ci g, is_Ok (fst (get_random_position E ci g)) = true) ->
  is_Ok (outcome (RandomSearchOptimizer_search E nth X y w)) = true.
Proof.
  intros Hinit Heval Hmove.
  assert (Hloop : forall l c w0,
            is_Ok (outcome (for_each E l (random_search_step E nth X y) c w0)) = true).
  { induction l as [|i l IH]; intros c w0; [reflexivity|].
    rewrite for_each_cons.
    unfold random_search_step at 1, _move, cand_eval, observe. run_m.
    specialize (Hmove (cand_rest c) (gens w0)).
    destruct (get_random_position E (cand_rest c) (gens w0)) as [[p|e] g1];
      [|discriminate]. simpl.
    specialize (Heval (cand_rest c) p g1).
    destruct (eval_pos E (cand_rest c) p X y g1) as [[[sc rest]|e] g2];
      [|discriminate]. simpl.
    match goal with
    | |- context [for_each E l ?body ?c1 ?w1] =>
        specialize (IH c1 w1); destruct (for_each E l body c1 w1) as [[r2 w2] t2]
    end.
    exact IH. }
  unfold RandomSearchOptimizer_search, cand_eval, observe. run_m.
  specialize (Hinit (gens w)).
  destruct (base_init_search E nth X y (gens w)) as [[c0|e] g0]; [|discriminate].
  simpl.
  specialize (Heval (cand_rest c0) (pos c0) g0).
  destruct (eval_pos E (cand_rest c0) (pos c0) X y g0) as [[[sc rest]|e] g1];
    [|discriminate]. simpl.
  match goal with
  | |- context [for_each E ?l ?body ?c1 ?w1] =>
      specialize (Hloop l c1 w1); destruct (for_each E l body c1 w1) as [[r2 w2] t2]
  end.
  exact Hloop.
Qed.

Example random_search_observations :
  let E := toy sum_score [] in
  let run := RandomSearchOptimizer_search E 1 no_data no_data (caller (three_jobs E 3) 6) in
  map (fun o => (obs_score o, obs_score_best o, obs_pos_best o))
      (observations 1 (events run))
  = [(1, 1, [1]); (2, 2, [2]); (3, 3, [3]); (0, 3, [3])] /\
  is_Ok (outcome run) = true.
Proof. vm_compute. split; reflexivity. Qed.

(** ** Exceptions of the collaborators *)

Lemma search_unfold (E : Externals) (nth : Z) (X y : data) (w : Process E) :
  search E nth X y w
  = match _init_search E nth X y w with
    | (Ok cp, w1, t1) =>
        match for_each E (py_range (n_iter (self w1))) (search_step E nth X y) cp w1 with
        | (Ok cp', w2, t2) =>
            (Ok (fst cp'), w2, SearchStarted (in_worker w) nth :: t1 ++ t2)
        | (Raise e, w2, t2) =>
            (Raise e, w2, SearchStarted (in_worker w) nth :: t1 ++ t2)
        end
    | (Raise e, w1, t1) => (Raise e, w1, SearchStarted (in_worker w) nth :: t1)
    end.
Proof.
  unfold search. unfold bind at 1. unfold bind at 1. unfold emit at 1.
  unfold bind at 1.
  destruct (_init_search E nth X y w) as [[[cp|e] w1] t1]; [|reflexivity].
  unfold bind at 1. unfold get_self at 1. unfold bind at 1.
  destruct (for_each E (py_range (n_iter (self w1))) (search_step E nth X y) cp w1)
    as [[[cp'|e] w2] t2]; unfold ret; simpl; rewrite ?app_nil_r; reflexivity.
Qed.

Lemma for_each_app (E : Externals) {A S} (l1 l2 : list A) (body : A -> S -> M E S) :
  forall (acc : S) (w : Process E),
    for_each E (l1 ++ l2) body acc w
    = match for_each E l1 body acc w with
      | (Ok acc', w', t) =>
          match for_each E l2 body acc' w' with
          | (r, w'', t') => (r, w'', t ++ t')
          end
      | (Raise e, w', t) => (Raise e, w', t)
      end.
Proof.
  induction l1 as [|x l1 IH]; intros acc w.
  - simpl. unfold ret. destruct (for_each E l2 body acc w) as [[r w''] t']. reflexivity.
  - simpl app. rewrite !for_each_cons.
    destruct (body x acc w) as [[[acc1|e] w1] t1]; [|reflexivity].
    rewrite IH.
    destruct (for_each E l1 body acc1 w1) as [[[acc2|e] w2] t2]; [|reflexivity].
    destruct (for_each E l2 body acc2 w2) as [[r w3] t3].
    rewrite app_assoc. reflexivity.
Qed.

Lemma search_step_raises (E : Externals) (nth : Z) (X y : data) (i : Z) cp
    (w : Process E) e g' :
  _iterate E i (fst cp) (snd cp) X y (gens w) = (Raise e, g') ->
  search_step E nth X y i cp w
  = (Raise e, mk_Process (self w) g' (in_worker w), [Iterated nth i]).
Proof.
  intros H. unfold search_step. run_m. rewrite H. reflexivity.
Qed.

Lemma first_raised_from {A} (order : list nat) (rs : list (result A)) e :
  first_raised order rs = Some e -> exists j, nth_error rs j = Some (Raise e).
Proof.
  induction order as [|k order IH]; [discriminate|]. simpl.
  destruct (nth_error rs k) as [[a|e']|] eqn:Hk; auto.
  intros H. injection H as <-. exists k. exact Hk.
Qed.

(** [Pool.map] raises as soon as one task has raised, and what it raises is
    the exception of one of the tasks. *)
Lemma pool_reports_a_failure {A} (order : list nat) (rs : list (result A)) :
  (exists r, In r rs /\ is_Ok r = false) ->
  exists j e, first_raised (order ++ seq 0 (length rs)) rs = Some e /\
              nth_error rs j = Some (Raise e).
Proof.
  intros (r & Hin & Hr).
  destruct (first_raised (order ++ seq 0 (length rs)) rs) as [e|] eqn:Hf.
  - destruct (first_raised_from _ _ _ Hf) as (j & Hj). exists j, e. auto.
  - rewrite (pool_all_ok order rs Hf r Hin) in Hr. discriminate.
Qed.

(** C6, as the code has it: an exception of the scoring function is not
    absorbed and not wrapped.  Raised for the start position, or by the
    optimizer's step at an iteration the loop has reached, it leaves
    [search] as it is and the loop starts no further iteration; with one
    job slot [_run_one_job] raises it; with several, [_run_multiple_jobs]
    raises the exception of one of the failed jobs, as it is, and assigns
    no best score or model; [fit] raises what the run raised. *)
Theorem scoring_failure_propagates_unwrapped (E : Externals) (X y : data) :
  (forall nth (w : Process E) c w2 t2 p0 g3 e g4,
     bind_candidate E nth (final (_set_random_seed E nth w)) = (Ok (Some c), w2, t2) ->
     _set_start_pos E c nth X y (gens w2) = (Ok p0, g3) ->
     eval_pos E (cand_rest c) p0 X y g3 = (Raise e, g4) ->
     outcome (search E nth X y w) = Raise e /\
     iterations_of nth (events (search E nth X y w)) = []) /\
  (forall nth (w : Process E) cp0 w1 t1 l1 i l2 cp w2 t2 e g',
     _init_search E nth X y w = (Ok cp0, w1, t1) ->
     py_range (n_iter (self w1)) = l1 ++ i :: l2 ->
     for_each E l1 (search_step E nth X y) cp0 w1 = (Ok cp, w2, t2) ->
     _iterate E i (fst cp) (snd cp) X y (gens w2) = (Raise e, g') ->
     outcome (search E nth X y w) = Raise e /\
     iterations_of nth (events (search E nth X y w)) = l1 ++ [i]) /\
  (forall (w : Process E) e,
     outcome (search E 0 X y w) = Raise e ->
     outcome (_run_one_job E X y w) = Raise e /\
     score_best_ (self (final (_run_one_job E X y w))) = score_best_ (self w) /\
     model_best (self (final (_run_one_job E X y w))) = model_best (self w)) /\
  (forall (w : Process E),
     1 <= n_jobs (_config_ (self w)) ->
     (exists k, In k (_n_process_range (self w)) /\
                is_Ok (outcome (search E k X y (worker_of w))) = false) ->
     exists k e,
       In k (_n_process_range (self w)) /\
       outcome (search E k X y (worker_of w)) = Raise e /\
       outcome (_run_multiple_jobs E X y w) = Raise e /\
       final (_run_multiple_jobs E X y w) = w) /\
  (forall (w : Process E) e,
     outcome (fit_run E X y w) = Raise e ->
     outcome (fit E X y w) = Raise e /\
     final (fit E X y w) = final (fit_run E X y w)).
Proof.
  split; [|split; [|split; [|split]]].
  - intros nth w c w2 t2 p0 g3 e g4 Hbc Hpos Heval.
    assert (Hinit : exists w1 t1, _init_search E nth X y w = (Raise e, w1, t1)).
    { unfold _init_search. unfold bind at 1.
      destruct (_set_random_seed E nth w) as [[[[]|e0] ws] ts] eqn:Hseed.
      2:{ rewrite set_random_seed_effect in Hseed. discriminate. }
      unfold final in Hbc. cbn [fst snd] in Hbc.
      unfold bind at 1. rewrite Hbc.
      unfold bind at 1. unfold call at 1. rewrite Hpos.
      unfold bind at 1. unfold call at 1. cbn [gens]. rewrite Heval.
      do 2 eexists. reflexivity. }
    destruct Hinit as (w1 & t1 & Hinit).
    rewrite search_unfold, Hinit. unfold outcome, events. cbn [fst snd].
    split; [reflexivity|].
    apply init_search_effect in Hinit. destruct Hinit as (-> & _).
    destruct (report_unread (self w) nth) as (_ & _ & _ & R).
    unfold iterations_of in *. cbn [flat_map app]. rewrite flat_map_app, R.
    reflexivity.
  - intros nth w cp0 w1 t1 l1 i l2 cp w2 t2 e g' Hinit Hrange Hloop Hiter.
    rewrite search_unfold, Hinit, Hrange, for_each_app, Hloop, for_each_cons.
    rewrite (search_step_raises E nth X y i cp w2 e g' Hiter).
    unfold outcome, events. cbn [fst snd]. split; [reflexivity|].
    apply init_search_effect in Hinit. destruct Hinit as (-> & _).
    apply search_loop_effect in Hloop.
    destruct Hloop as (j & _ & -> & Hj & _). rewrite (Hj eq_refl), firstn_all.
    destruct (report_unread (self w) nth) as (_ & _ & _ & R).
    destruct (iterated_unread (E:=E) nth l1) as (_ & _ & _ & _ & I5).
    unfold iterations_of in *. cbn [flat_map app].
    rewrite !flat_map_app, R, I5, Z.eqb_refl. cbn [flat_map app].
    rewrite Z.eqb_refl. reflexivity.
  - intros w e Hs.
    destruct (search E 0 X y w) as [[r1 w1] t1] eqn:Hsearch.
    unfold outcome in Hs. cbn [fst] in Hs. subst r1.
    pose proof (run_one_job_effect E X y w _ _ _ Hsearch) as Hrun. cbv beta iota in Hrun.
    rewrite Hrun. unfold outcome, final. cbn [fst snd].
    apply search_effect in Hsearch. destruct Hsearch as (j & _ & _ & _ & _ & b & Hself).
    rewrite Hself. auto.
  - intros w HN (k0 & Hk0 & Hfail).
    set (ids := _n_process_range (self w)) in *.
    set (rs := map outcome (map (fun nth => search E nth X y (worker_of w)) ids)).
    destruct (pool_reports_a_failure (completion_order E) rs) as (j & e & Hfirst & Hj).
    { exists (outcome (search E k0 X y (worker_of w))). split; [|exact Hfail].
      unfold rs. rewrite map_map. apply in_map_iff. exists k0. auto. }
    unfold rs in Hj. rewrite map_map in Hj. rewrite nth_error_map in Hj.
    destruct (nth_error ids j) as [k|] eqn:Hk; [|discriminate].
    simpl in Hj. injection Hj as Hj.
    exists k, e. split; [eapply nth_error_In; eauto|]. split; [exact Hj|].
    assert (Hpool : exists t, _search_multiprocessing E X y w = (Raise e, w, t)).
    { rewrite search_multiprocessing_unfold.
      replace (n_jobs (_config_ (self w)) <? 1) with false
        by (symmetry; apply Z.ltb_ge; lia).
      cbv zeta. fold ids. fold rs.
      replace (length ids) with (length rs) by (unfold rs; rewrite !length_map; reflexivity).
      rewrite Hfirst. eexists. reflexivity. }
    destruct Hpool as (t & Hpool).
    pose proof (run_multiple_jobs_effect E X y w _ _ _ Hpool) as [_ Hrun].
    cbv beta iota in Hrun. rewrite Hrun. auto.
  - intros w e Hrun.
    destruct (fit E X y w) as [[r w'] t] eqn:Hfit.
    apply fit_effect in Hfit. destruct Hfit as (r1 & w1 & Heq & _ & Hcase).
    change (fit_run E X y w = (r1, w1, t)) in Heq.
    rewrite Heq in *. unfold outcome, final in *. cbn [fst snd] in *. subst r1.
    destruct Hcase as [-> ->]. auto.
Qed.

Lemma scoring_failure_propagates_unwrapped_witness :
  let E := toy (failing_at [1; 3]) [] in
  let w := caller (three_jobs E 10) 0 in
  (outcome (search E 1 no_data no_data (worker_of w))
   = Raise (External "invalid configuration") /\
   iterations_of 1 (events (search E 1 no_data no_data (worker_of w))) = [0; 1] ++ [2]) /\
  (exists k e,
     In k (_n_process_range (self w)) /\
     outcome (search E k no_data no_data (worker_of w)) = Raise e /\
     outcome (_run_multiple_jobs E no_data no_data w) = Raise e /\
     final (_run_multiple_jobs E no_data no_data w) = w) /\
  (outcome (fit E no_data no_data w) = Raise (External "invalid configuration") /\
   final (fit E no_data no_data w) = final (fit_run E no_data no_data w)).
Proof.
  intros E w.
  pose proof (scoring_failure_propagates_unwrapped E no_data no_data)
    as (_ & Hstep & _ & Hpool & Hfit).
  split; [|split].
  - eapply (Hstep 1 (worker_of w) _ _ _ [0; 1] 2 [3; 4; 5; 6; 7; 8; 9]).
    + vm_compute. reflexivity.
    + vm_compute. reflexivity.
    + vm_compute. reflexivity.
    + vm_compute. reflexivity.
  - apply (Hpool w).
    + vm_compute. discriminate.
    + exists 1. split; [right; left; reflexivity | vm_compute; reflexivity].
  - apply (Hfit w). vm_compute. reflexivity.
Defined.

(** C6 as stated fails: the scoring function rejects the position [[1; 3]],
    which job 1 reaches in its third iteration; the search of job 1 raises
    that exception and no [EvaluationError], and [fit] raises it and no
    [JobFailure]. *)
Lemma scoring_failure_is_not_wrapped :
  let E := toy (failing_at [1; 3]) [] in
  let w := caller (three_jobs E 10) 0 in
  failing_at [1; 3] [1; 3] = Raise (External "invalid configuration") /\
  outcome (search E 1 no_data no_data (worker_of w))
  = Raise (External "invalid configuration") /\
  (forall p cause, outcome (search E 1 no_data no_data (worker_of w))
                   <> Raise (EvaluationError p cause)) /\
  outcome (fit E no_data no_data w) = Raise (External "invalid configuration") /\
  (forall job cause, outcome (fit E no_data no_data w) <> Raise (JobFailure job cause)).
Proof.
  vm_compute. repeat split; intros; discriminate.
Qed.


(** * Further properties *)

(** ** The order of [_sort_for_best] *)




Lemma In_descending (v : list Z) (k j : nat) : In j (descending v k) <-> (j < k)%nat.
Proof.
  split; intros H.
  - apply (Permutation_in _ (descending_perm v k)) in H. apply in_seq in H. lia.
  - apply (Permutation_in _ (Permutation_sym (descending_perm v k))).
    apply in_seq. lia.
Qed.


Lemma take_nth {A} (d : A) (a : list A) (idx : list nat) :
  (forall i, In i idx -> (i < length a)%nat) ->
  take a idx = Ok (map (fun i => nth i a d) idx).
Proof.
  induction idx as [|i idx IH]; intros H; simpl; [reflexivity|].
  destruct (nth_error a i) as [x|] eqn:Hi.
  - rewrite IH by (intros; apply H; right; assumption).
    rewrite (nth_error_nth _ _ d Hi). reflexivity.
  - apply nth_error_None in Hi. specialize (H i (or_introl eq_refl)). lia.
Qed.

Lemma take_raises {A} (a : list A) (idx : list nat) e :
  take a idx = Raise e ->
  e = IndexError /\ exists i, In i idx /\ (length a <= i)%nat.
Proof.
  induction idx as [|i idx IH]; simpl; [discriminate|].
  destruct (nth_error a i) as [x|] eqn:Hi.
  - destruct (take a idx) as [xs|e'] eqn:Ht; [discriminate|].
    intros H. injection H as <-. destruct (IH eq_refl) as (-> & j & Hj & Hlen).
    split; [reflexivity|]. exists j. auto.
  - intros H. injection H as <-. split; [reflexivity|].
    exists i. split; [left; reflexivity|]. apply nth_error_None. exact Hi.
Qed.

Lemma map_nth_seq {A} (d : A) (l : list A) :
  map (fun i => nth i l d) (seq 0 (length l)) = l.
Proof.
  induction l as [|x l IH]; [reflexivity|].
  simpl. f_equal. rewrite <- seq_shift, map_map. exact IH.
Qed.




(** The result of [_sort_for_best] through its index list. *)
Lemma sort_for_best_indices {A} (d : A) (sort : list A) (sort_by : list Z) :
  (length sort_by <= length sort)%nat ->
  _sort_for_best sort sort_by
  = Ok (map (fun i => nth i sort d) (descending sort_by (length sort_by)),
        map (fun i => nth i sort_by 0) (descending sort_by (length sort_by))).
Proof.
  intros Hlen. unfold _sort_for_best. rewrite rev_argsort.
  rewrite (take_nth d), (take_nth 0); [reflexivity| |];
    intros i Hi; apply In_descending in Hi; lia.
Qed.



Example sort_for_best_example :
  _sort_for_best ["a"; "b"; "c"; "d"]%string [3; 7; 3; 5]
  = Ok (["b"; "d"; "c"; "a"]%string, [7; 5; 3; 3]).
Proof. reflexivity. Qed.

(** X2: What [_sort_for_best] does with lists of different lengths: a [sort]
    that is too short raises [IndexError], of a [sort] that is too long the
    items without a key are left out. *)
Theorem sort_for_best_unequal_lengths {A} (sort : list A) (sort_by : list Z) :
  ((length sort < length sort_by)%nat ->
   _sort_for_best sort sort_by = Raise IndexError) /\
  ((length sort_by <= length sort)%nat ->
   _sort_for_best sort sort_by
   = _sort_for_best (firstn (length sort_by) sort) sort_by).
Proof.
  split; intros Hlen.
  - unfold _sort_for_best. rewrite rev_argsort.
    destruct (take sort (descending sort_by (length sort_by))) as [xs|e] eqn:Ht.
    + exfalso.
      assert (Hin : In (length sort) (descending sort_by (length sort_by)))
        by (apply In_descending; exact Hlen).
      clear Hlen. revert xs Ht Hin.
      induction (descending sort_by (length sort_by)) as [|i idx IH]; intros xs Ht Hin;
        [destruct Hin|].
      simpl in Ht. destruct (nth_error sort i) as [x|] eqn:Hi; [|discriminate].
      destruct (take sort idx) as [xs'|] eqn:Ht'; [|discriminate].
      destruct Hin as [->|Hin]; [|eauto].
      assert (length sort < length sort)%nat by (apply nth_error_Some; congruence). lia.
    + apply take_raises in Ht. destruct Ht as [-> _]. reflexivity.
  - destruct sort as [|d sort'] eqn:Hsort.
    + destruct sort_by; [reflexivity|simpl in Hlen; lia].
    + rewrite <- Hsort in *.
      rewrite (sort_for_best_indices d) by exact Hlen.
      rewrite (sort_for_best_indices d) by (rewrite length_firstn; lia).
      f_equal. f_equal. apply map_ext_in. intros i Hi. apply In_descending in Hi.
      rewrite <- (firstn_skipn (length sort_by) sort) at 1.
      apply app_nth1. rewrite length_firstn. lia.
Qed.

Lemma sort_for_best_unequal_lengths_witness :
  _sort_for_best ["a"]%string [3; 7] = Raise IndexError /\
  _sort_for_best ["a"; "b"; "c"]%string [3; 7]
  = _sort_for_best (firstn (length [3; 7]) ["a"; "b"; "c"]%string) [3; 7].
Proof.
  split.
  - apply (proj1 (sort_for_best_unequal_lengths ["a"]%string [3; 7])). simpl. lia.
  - apply (proj2 (sort_for_best_unequal_lengths ["a"; "b"; "c"]%string [3; 7])).
    simpl. lia.
Defined.

(** ** The reduction of [_run_multiple_jobs], step by step *)

Lemma print_jobs_exact (E : Externals) (o : BaseOptimizer (model E)) lines :
  forall (w : Process E),
    for_each E lines (print_job E o) tt w
    = (Ok tt, w, flat_map (report_lines (metric o)) lines).
Proof.
  induction lines as [|line lines IH]; intros w; [reflexivity|].
  rewrite for_each_cons. unfold print_job at 1. run_m. rewrite IH. reflexivity.
Qed.

Lemma collect_jobs_pure (E : Externals) (cands : list (Candidate (CI E))) :
  forall acc (w w0 : Process E),
    for_each E cands (collect_job E) acc w
    = (outcome (for_each E cands (collect_job E) acc w0), w, []).
Proof.
  induction cands as [|c cands IH]; intros acc w w0; [reflexivity|].
  rewrite !for_each_cons.
  assert (H : exists r, forall w1 : Process E, collect_job E c acc w1 = (r, w1, [])).
  { unfold collect_job. destruct acc as [[sps scs] ms]. run_m.
    destruct (_get_warm_start E c); [|eexists; reflexivity].
    destruct (pos2para E (cand_rest c) (pos_best c)) as [pa|]; [|eexists; reflexivity].
    destruct (_create_model E (cand_rest c) pa); eexists; reflexivity. }
  destruct H as (r & H). rewrite (H w), (H w0).
  destruct r as [acc1|e]; [|reflexivity].
  rewrite (IH acc1 w w0).
  destruct (for_each E cands (collect_job E) acc1 w0) as [[r2 w2] t2] eqn:H2.
  rewrite (IH acc1 w0 w0) in H2. inversion H2; subst. reflexivity.
Qed.

Lemma reduce_jobs_unfold (E : Externals) cands (w : Process E) :
  reduce_jobs E cands w
  = match outcome (for_each E cands (collect_job E) ([], [], []) w) with
    | Raise e => (Raise e, w, [])
    | Ok (sps, scs, ms) =>
        match _sort_for_best sps scs with
        | Raise e => (Raise e, w, [])
        | Ok s1 =>
            match _sort_for_best ms scs with
            | Raise e => (Raise e, w, [])
            | Ok s2 =>
                let t := report_of E (self w) (combine (fst s1) (snd s2)) in
                match getitem (snd s2) 0 with
                | Raise e => (Raise e, w, t)
                | Ok bs =>
                    match getitem (fst s2) 0 with
                    | Raise e =>
                        (Raise e,
                         mk_Process (with_score_best (self w) bs) (gens w) (in_worker w),
                         t)
                    | Ok bm =>
                        (Ok tt,
                         mk_Process (with_model_best (with_score_best (self w) bs) bm)
                           (gens w) (in_worker w),
                         t)
                    end
                end
            end
        end
    end.
Proof.
  unfold reduce_jobs. unfold bind at 1.
  rewrite (collect_jobs_pure E cands _ w w).
  destruct (outcome (for_each E cands (collect_job E) ([], [], []) w))
    as [[[sps scs] ms]|e]; [|reflexivity].
  run_m. unfold set_score_best, set_model_best. run_m.
  destruct (_sort_for_best sps scs) as [s1|]; [|reflexivity].
  destruct (_sort_for_best ms scs) as [s2|]; [|reflexivity].
  unfold report_of.
  destruct (verbosity (self w) =? 0); simpl.
  - destruct (getitem (snd s2) 0); [|destruct w; reflexivity].
    destruct (getitem (fst s2) 0); reflexivity.
  - rewrite print_jobs_exact.
    destruct (getitem (snd s2) 0); simpl; [|rewrite ?app_nil_r; destruct w; reflexivity].
    destruct (getitem (fst s2) 0); simpl; rewrite ?app_nil_r; reflexivity.
Qed.

(** ** [_run_one_job] and [fit], step by step *)

Lemma run_one_job_unfold (E : Externals) (X y : data) (w : Process E) :
  _run_one_job E X y w
  = match search E 0 X y w with
    | (Raise e, w1, t1) => (Raise e, w1, t1)
    | (Ok c, w1, t1) =>
        match _get_warm_start E c with
        | Raise e => (Raise e, w1, t1)
        | Ok sp =>
            let o2 := with_score_best (self w1) (score_best c) in
            match pos2para E (cand_rest c) (pos_best c) with
            | Raise e => (Raise e, mk_Process o2 (gens w1) (in_worker w1), t1)
            | Ok pa =>
                match _create_model E (cand_rest c) pa with
                | Raise e => (Raise e, mk_Process o2 (gens w1) (in_worker w1), t1)
                | Ok m =>
                    (Ok tt,
                     mk_Process (with_model_best o2 m) (gens w1) (in_worker w1),
                     t1 ++ result_of E (self w1) sp (score_best c))
                end
            end
        end
    end.
Proof.
  unfold _run_one_job. unfold bind at 1.
  destruct (search E 0 X y w) as [[[c|e] w1] t1]; [|reflexivity].
  run_m. unfold set_score_best, set_model_best. run_m.
  destruct (_get_warm_start E c) as [sp|]; [|rewrite app_nil_r; destruct w1; reflexivity].
  simpl.
  destruct (pos2para E (cand_rest c) (pos_best c)) as [pa|];
    [|rewrite app_nil_r; reflexivity].
  simpl.
  destruct (_create_model E (cand_rest c) pa) as [m|];
    [|rewrite app_nil_r; reflexivity].
  simpl. unfold result_of, report_lines.
  destruct (verbosity (self w1) =? 0); reflexivity.
Qed.

Lemma fit_unfold (E : Externals) (X y : data) (w : Process E) :
  fit E X y w
  = match fit_run E X y w with
    | (Raise e, w1, t) => (Raise e, w1, t)
    | (Ok _, w1, t) =>
        match model_best (self w1) with
        | None => (Raise AttributeError, w1, t)
        | Some m =>
            match model_fit E m (converted X) y (gens w1) with
            | (Raise e, g) => (Raise e, mk_Process (self w1) g (in_worker w1), t)
            | (Ok fitted, g) =>
                (Ok tt,
                 mk_Process (with_model_best (self w1) fitted) g (in_worker w1), t)
            end
        end
    end.
Proof.
  unfold fit_run. unfold fit. unfold bind at 1. unfold of_result at 1.
  rewrite check_data_converted.
  unfold bind at 1. unfold get_self at 1. unfold bind at 1. cbv zeta.
  remember (if String.eqb (model_type (_config_ (self w))) "keras"
            then with_n_jobs w 1 else w) as w0 eqn:Hw0.
  assert (Hwhen : when E (String.eqb (model_type (_config_ (self w))) "keras")
                    (set_n_jobs E 1) w = (Ok tt, w0, [])).
  { subst w0. unfold when, with_n_jobs.
    destruct (String.eqb (model_type (_config_ (self w))) "keras"); reflexivity. }
  rewrite Hwhen. unfold bind at 1. unfold get_self at 1. unfold bind at 1.
  cbv beta. clear Hwhen Hw0.
  remember (if n_jobs (_config_ (self w0)) =? 1
            then _run_one_job E (converted X) y w0
            else _run_multiple_jobs E (converted X) y w0) as run eqn:Hr.
  assert (Hrun : (if n_jobs (_config_ (self w0)) =? 1
                  then _run_one_job E (converted X) y
                  else _run_multiple_jobs E (converted X) y) w0 = run).
  { subst run. destruct (n_jobs (_config_ (self w0)) =? 1); reflexivity. }
  rewrite Hrun. clear Hrun Hr. destruct run as [[r1 w1] t1].
  destruct r1 as [[]|e]; [|reflexivity].
  run_m. unfold set_model_best. run_m.
  destruct (model_best (self w1)) as [m|]; [|rewrite app_nil_r; reflexivity].
  destruct (model_fit E m (converted X) y (gens w1)) as [[fitted|e] g]; simpl;
    rewrite ?app_nil_r; reflexivity.
Qed.

(** ** A search starts from its seed *)

Lemma bind_same_start (E : Externals) {A B} (m : M E A) (k : A -> M E B)
    (w1 w2 : Process E) :
  m w1 = m w2 -> bind E m k w1 = bind E m k w2.
Proof. unfold bind. intros ->. reflexivity. Qed.

Lemma init_search_from_seed (E : Externals) (nth : Z) (X y : data) (w1 w2 : Process E) :
  self w1 = self w2 -> in_worker w1 = in_worker w2 ->
  _init_search E nth X y w1 = _init_search E nth X y w2.
Proof.
  intros Hs Hw. unfold _init_search. apply bind_same_start.
  rewrite !set_random_seed_effect, Hs, Hw. reflexivity.
Qed.

Lemma search_from_seed (E : Externals) (nth : Z) (X y : data) (w1 w2 : Process E) :
  self w1 = self w2 -> in_worker w1 = in_worker w2 ->
  search E nth X y w1 = search E nth X y w2.
Proof.
  intros Hs Hw. rewrite !search_unfold.
  rewrite (init_search_from_seed E nth X y w1 w2 Hs Hw), Hw. reflexivity.
Qed.




(** ** Which jobs share a seed *)

Lemma seedings_search (E : Externals) (nth : Z) (X y : data) (w : Process E) :
  seedings (events (search E nth X y w))
  = [(PyRandom, base_seed (self w) + nth); (NumpyRandom, base_seed (self w) + nth);
     (ScipyRandom, base_seed (self w) + nth)].
Proof.
  destruct (search E nth X y w) as [[r w'] t] eqn:Hs.
  apply search_effect in Hs. destruct Hs as (j & _ & -> & _).
  unfold events. cbn [snd].
  change (SearchStarted (in_worker w) nth
            :: seed_events (base_seed (self w) + nth)
            ++ report_events (self w) nth
            ++ map (Iterated nth) (firstn j (py_range (n_iter (self w)))))
    with ([SearchStarted (in_worker w) nth]
            ++ seed_events (base_seed (self w) + nth)
            ++ report_events (self w) nth
            ++ map (Iterated nth) (firstn j (py_range (n_iter (self w))))).
  rewrite !seedings_app, seedings_report, seedings_iterated. reflexivity.
Qed.

(** X5: Two searches are seeded alike exactly when random state plus job id is
    the same for both. So the jobs of one optimizer all have different seeds,
    while job [k + 1] of an optimizer with random state [r] has the seed of
    job [k] of an optimizer with random state [r + 1]. *)
Theorem jobs_share_a_seed_iff_the_sums_agree (E : Externals) (X y X' y' : data)
    (w1 w2 : Process E) (j k : Z) :
  (seedings (events (search E j X y w1)) = seedings (events (search E k X' y' w2))
   <-> base_seed (self w1) + j = base_seed (self w2) + k) /\
  (seedings (events (search E j X y w1)) = seedings (events (search E k X y w1))
   <-> j = k) /\
  (base_seed (self w2) = base_seed (self w1) + 1 ->
   seedings (events (search E (k + 1) X y w1)) = seedings (events (search E k X y w2))).
Proof.
  rewrite !seedings_search. split; [|split].
  - split; intros H; [injection H as H _ _; exact H | rewrite H; reflexivity].
  - split; intros H; [injection H as H _ _; lia | subst; reflexivity].
  - intros H. rewrite H. replace (base_seed (self w1) + 1 + k)
      with (base_seed (self w1) + (k + 1)) by lia. reflexivity.
Qed.

Lemma jobs_share_a_seed_iff_the_sums_agree_witness :
  let E := toy sum_score [] in
  let r1 := caller (__init__ (model E) four_models 2 "accuracy" 1 (Some 1)
                      (mk_Config "sklearn" 3)) 0 in
  let r2 := caller (__init__ (model E) four_models 2 "accuracy" 1 (Some 2)
                      (mk_Config "sklearn" 3)) 0 in
  seedings (events (search E (0 + 1) no_data no_data r1))
  = seedings (events (search E 0 no_data no_data r2)).
Proof.
  intros E r1 r2.
  apply (jobs_share_a_seed_iff_the_sums_agree E no_data no_data no_data no_data r1 r2 0 0).
  reflexivity.
Defined.

(** ** What a run assigns *)

Lemma run_multiple_jobs_unfold (E : Externals) (X y : data) (w : Process E) :
  _run_multiple_jobs E X y w
  = match _search_multiprocessing E X y w with
    | (Raise e, w1, t1) => (Raise e, w1, t1)
    | (Ok cands, w1, t1) =>
        match reduce_jobs E cands w1 with
        | (r, w', t2) => (r, w', t1 ++ t2)
        end
    end.
Proof. reflexivity. Qed.

Lemma pool_keeps_the_caller (E : Externals) (X y : data) (w : Process E) r w' t :
  _search_multiprocessing E X y w = (r, w', t) -> w' = w.
Proof.
  rewrite search_multiprocessing_unfold.
  destruct (n_jobs (_config_ (self w)) <? 1); [intros H; inversion H; reflexivity|].
  cbv zeta. intros H; inversion H; reflexivity.
Qed.

Lemma pool_from_seed (E : Externals) (X y : data) (w1 w2 : Process E) :
  self w1 = self w2 ->
  outcome (_search_multiprocessing E X y w1) = outcome (_search_multiprocessing E X y w2) /\
  events (_search_multiprocessing E X y w1) = events (_search_multiprocessing E X y w2).
Proof.
  intros Hs. rewrite !search_multiprocessing_unfold, Hs.
  destruct (n_jobs (_config_ (self w2)) <? 1); [split; reflexivity|].
  cbv zeta.
  assert (Hruns : map (fun nth => search E nth X y (worker_of w1)) (_n_process_range (self w2))
                  = map (fun nth => search E nth X y (worker_of w2)) (_n_process_range (self w2))).
  { apply map_ext. intros nth. apply search_from_seed; [exact Hs|reflexivity]. }
  rewrite Hruns. split; reflexivity.
Qed.

Lemma take_length {A} (a : list A) (idx : list nat) xs :
  take a idx = Ok xs -> length xs = length idx.
Proof.
  revert xs. induction idx as [|i idx IH]; intros xs; simpl.
  - intros H; inversion H; reflexivity.
  - destruct (nth_error a i); [|discriminate].
    destruct (take a idx) as [xs'|]; [|discriminate].
    intros H; inversion H; subst. simpl. f_equal. apply IH. reflexivity.
Qed.

Lemma sort_for_best_lengths {A} (sort : list A) (sort_by : list Z) xs ys :
  _sort_for_best sort sort_by = Ok (xs, ys) -> length xs = length ys.
Proof.
  unfold _sort_for_best.
  destruct (take sort (rev (argsort sort_by))) as [xs'|] eqn:H1; [|discriminate].
  destruct (take sort_by (rev (argsort sort_by))) as [ys'|] eqn:H2; [|discriminate].
  intros H; inversion H; subst.
  rewrite (take_length _ _ _ H1), (take_length _ _ _ H2). reflexivity.
Qed.

Lemma getitem_0_nonempty {A} (l : list A) :
  match getitem l 0 with
  | Ok _ => l <> []
  | Raise _ => l = []
  end.
Proof. destruct l; [reflexivity|discriminate]. Qed.

(** What [reduce_jobs] leaves in the process. *)
Lemma reduce_jobs_final (E : Externals) cands (w : Process E) r w' t :
  reduce_jobs E cands w = (r, w', t) ->
  match r with
  | Ok _ =>
      exists sc m,
        w' = mk_Process (with_model_best (with_score_best (self w) sc) m)
               (gens w) (in_worker w)
  | Raise _ => w' = w
  end.
Proof.
  rewrite reduce_jobs_unfold.
  destruct (outcome (for_each E cands (collect_job E) ([], [], []) w))
    as [[[sps scs] ms]|e]; [|intros H; inversion H; reflexivity].
  destruct (_sort_for_best sps scs) as [s1|]; [|intros H; inversion H; reflexivity].
  destruct (_sort_for_best ms scs) as [[xs ys]|] eqn:H2; [|intros H; inversion H; reflexivity].
  cbv zeta. cbn [fst snd].
  pose proof (sort_for_best_lengths _ _ _ _ H2) as Hlen.
  pose proof (getitem_0_nonempty ys) as Hy. pose proof (getitem_0_nonempty xs) as Hx.
  destruct (getitem ys 0) as [bs|]; [|intros H; inversion H; reflexivity].
  destruct (getitem xs 0) as [bm|].
  - intros H; inversion H. eauto.
  - subst xs. destruct ys; [congruence|discriminate].
Qed.

Lemma pool_run_gens_and_result (E : Externals) (X y : data) (w : Process E) :
  match outcome (_run_multiple_jobs E X y w) with
  | Ok _ =>
      exists sc m,
        final (_run_multiple_jobs E X y w)
        = mk_Process (with_model_best (with_score_best (self w) sc) m)
            (gens w) (in_worker w)
  | Raise _ => final (_run_multiple_jobs E X y w) = w
  end.
Proof.
  rewrite run_multiple_jobs_unfold.
  destruct (_search_multiprocessing E X y w) as [[[cands|e] w1] t1] eqn:Hp;
    pose proof (pool_keeps_the_caller _ _ _ _ _ _ _ Hp) as ->; [|reflexivity].
  destruct (reduce_jobs E cands w) as [[r w'] t2] eqn:Hr.
  apply reduce_jobs_final in Hr. unfold outcome, final. cbn [fst snd].
  destruct r as [[]|e]; [|exact Hr].
  destruct Hr as (sc & m & ->). eauto.
Qed.

(** X6: [_run_multiple_jobs] assigns the best score and the best model both or
    not at all: when it returns, the caller's object has the two of them and
    is otherwise as before; when it raises, from the pool or from building a
    job's model, the caller's process is exactly as it was. The generators of
    the caller are never touched. *)
Theorem pool_run_assigns_both_or_neither (E : Externals) (X y : data) (w : Process E) :
  gens (final (_run_multiple_jobs E X y w)) = gens w /\
  match outcome (_run_multiple_jobs E X y w) with
  | Ok _ =>
      exists sc m,
        final (_run_multiple_jobs E X y w)
        = mk_Process (with_model_best (with_score_best (self w) sc) m)
            (gens w) (in_worker w)
  | Raise _ => final (_run_multiple_jobs E X y w) = w
  end.
Proof.
  pose proof (pool_run_gens_and_result E X y w) as H.
  destruct (outcome (_run_multiple_jobs E X y w)) as [[]|e].
  - destruct H as (sc & m & H). rewrite H. split; [reflexivity|eauto].
  - rewrite H. split; reflexivity.
Qed.

(** X7: In [_run_one_job] the best score is assigned before the best model is
    built: when the parameters or the model of the search's best position
    cannot be made, the call raises with the new [score_best] next to the old
    [model_best]. *)
Theorem failed_model_build_keeps_the_new_score (E : Externals) (X y : data)
    (w : Process E) c w1 t1 sp e :
  search E 0 X y w = (Ok c, w1, t1) ->
  _get_warm_start E c = Ok sp ->
  (pos2para E (cand_rest c) (pos_best c) = Raise e \/
   exists pa, pos2para E (cand_rest c) (pos_best c) = Ok pa /\
              _create_model E (cand_rest c) pa = Raise e) ->
  outcome (_run_one_job E X y w) = Raise e /\
  score_best_ (self (final (_run_one_job E X y w))) = Some (score_best c) /\
  model_best (self (final (_run_one_job E X y w))) = model_best (self w).
Proof.
  intros Hs Hsp Hfail. rewrite run_one_job_unfold, Hs, Hsp. cbv zeta.
  apply search_effect in Hs. destruct Hs as (j & _ & _ & _ & _ & b & Hself).
  destruct Hfail as [Hpa|(pa & Hpa & Hm)]; rewrite Hpa; [|rewrite Hm];
    unfold outcome, final; cbn [fst snd self]; rewrite Hself; auto.
Qed.

Lemma reduce_jobs_from (E : Externals) cands (w1 w2 : Process E) :
  self w1 = self w2 ->
  outcome (reduce_jobs E cands w1) = outcome (reduce_jobs E cands w2) /\
  events (reduce_jobs E cands w1) = events (reduce_jobs E cands w2) /\
  self (final (reduce_jobs E cands w1)) = self (final (reduce_jobs E cands w2)).
Proof.
  intros Hs. rewrite !reduce_jobs_unfold.
  assert (Hc : outcome (for_each E cands (collect_job E) ([], [], []) w1)
               = outcome (for_each E cands (collect_job E) ([], [], []) w2))
    by (rewrite (collect_jobs_pure E cands _ w1 w2); reflexivity).
  rewrite Hc, Hs.
  assert (Hdone : forall A (r : result A) (o : BaseOptimizer (model E)) t,
            outcome (r, w1, t) = outcome (r, w2, t) /\
            events (r, w1, t) = events (r, w2, t) /\
            self (final (r, w1, t)) = self (final (r, w2, t)))
    by (intros; unfold outcome, events, final; cbn [fst snd]; auto).
  destruct (outcome (for_each E cands (collect_job E) ([], [], []) w2))
    as [[[sps scs] ms]|e]; [|apply Hdone; exact (self w1)].
  destruct (_sort_for_best sps scs) as [s1|]; [|apply Hdone; exact (self w1)].
  destruct (_sort_for_best ms scs) as [s2|]; [|apply Hdone; exact (self w1)].
  cbv zeta.
  destruct (getitem (snd s2) 0) as [bs|]; [|apply Hdone; exact (self w1)].
  destruct (getitem (fst s2) 0) as [bm|]; unfold outcome, events, final; cbn [fst snd self];
    rewrite ?Hs; auto.
Qed.

(** X8: A pool run does not depend on the caller's generators and does not
    change them: every job seeds the generators of its own worker, so the
    outcome, the effects and what is assigned to the caller's object are the
    same from any state of the generators, and that state is what the caller
    has afterwards. *)
Theorem pool_run_forgets_earlier_draws (E : Externals) (X y : data)
    (o : BaseOptimizer (model E)) (b : bool) (g1 g2 : generators (G E)) :
  outcome (_run_multiple_jobs E X y (mk_Process o g1 b))
  = outcome (_run_multiple_jobs E X y (mk_Process o g2 b)) /\
  events (_run_multiple_jobs E X y (mk_Process o g1 b))
  = events (_run_multiple_jobs E X y (mk_Process o g2 b)) /\
  self (final (_run_multiple_jobs E X y (mk_Process o g1 b)))
  = self (final (_run_multiple_jobs E X y (mk_Process o g2 b))) /\
  gens (final (_run_multiple_jobs E X y (mk_Process o g1 b))) = g1.
Proof.
  set (w1 := mk_Process o g1 b). set (w2 := mk_Process o g2 b).
  assert (Hs : self w1 = self w2) by reflexivity.
  rewrite !run_multiple_jobs_unfold.
  destruct (pool_from_seed E X y w1 w2 Hs) as (Ho & He).
  destruct (_search_multiprocessing E X y w1) as [[r1 w1'] t1] eqn:H1.
  destruct (_search_multiprocessing E X y w2) as [[r2 w2'] t2] eqn:H2.
  apply pool_keeps_the_caller in H1, H2. subst w1' w2'.
  unfold outcome, events in Ho, He. cbn [fst snd] in Ho, He. subst r2 t2.
  destruct r1 as [cands|e]; [|repeat split; reflexivity].
  destruct (reduce_jobs_from E cands w1 w2 Hs) as (Ro & Re & Rs).
  destruct (reduce_jobs E cands w1) as [[r w1'] t] eqn:R1.
  destruct (reduce_jobs E cands w2) as [[r' w2'] t'] eqn:R2.
  unfold outcome, events, final in *. cbn [fst snd] in *. subst r' t'.
  split; [reflexivity|]. split; [reflexivity|]. split; [exact Rs|].
  apply reduce_jobs_final in R1. destruct r as [[]|e].
  - destruct R1 as (sc & m & ->). reflexivity.
  - subst w1'. reflexivity.
Qed.

(** X9: What a successful [fit] with one job slot leaves: the best score of
    the search of job 0, and the model made for that search's best position,
    fitted on the converted data with the generators as the search left them.
    *)
Theorem single_job_fit_result (E : Externals) (X y : data) (w w' : Process E) t :
  String.eqb (model_type (_config_ (self w))) "keras" = true \/
  n_jobs (_config_ (self w)) = 1 ->
  fit E X y w = (Ok tt, w', t) ->
  let w0 := if String.eqb (model_type (_config_ (self w))) "keras"
            then with_n_jobs w 1 else w in
  exists c w1 t1 sp m fitted,
    search E 0 (converted X) y w0 = (Ok c, w1, t1) /\
    job_result E c = Ok (sp, score_best c, m) /\
    model_fit E m (converted X) y (gens w1) = (Ok fitted, gens w') /\
    score_best_ (self w') = Some (score_best c) /\
    model_best (self w') = Some fitted /\
    t = t1 ++ result_of E (self w1) sp (score_best c).
Proof.
  intros Hone. rewrite fit_unfold. unfold fit_run. cbv zeta.
  set (w0 := if String.eqb (model_type (_config_ (self w))) "keras"
             then with_n_jobs w 1 else w).
  assert (H1 : (n_jobs (_config_ (self w0)) =? 1) = true).
  { unfold w0. destruct (String.eqb (model_type (_config_ (self w))) "keras").
    - reflexivity.
    - destruct Hone as [Hone|Hone]; [discriminate|]. rewrite Hone. reflexivity. }
  rewrite H1, run_one_job_unfold.
  destruct (search E 0 (converted X) y w0) as [[[c|e] w1] t1]; [|discriminate].
  destruct (_get_warm_start E c) as [sp|] eqn:Hsp; [|discriminate]. cbv zeta.
  destruct (pos2para E (cand_rest c) (pos_best c)) as [pa|] eqn:Hpa; [|discriminate].
  destruct (_create_model E (cand_rest c) pa) as [m|] eqn:Hm; [|discriminate].
  cbn [self model_best with_model_best gens in_worker].
  destruct (model_fit E m (converted X) y (gens w1)) as [[fitted|e] g] eqn:Hfit;
    [|discriminate].
  intros H. inversion H; subst. exists c, w1, t1, sp, m, fitted.
  split; [reflexivity|]. split; [unfold job_result; rewrite Hsp, Hpa, Hm; reflexivity|].
  split; [exact Hfit|]. repeat split; reflexivity.
Qed.

(** X10: What a successful [fit] with several job slots leaves: the score and
    the model that the reduction chose, the model fitted on the converted data
    with the generators of the caller as they were before the call: the jobs
    seeded the generators of their workers, not these. *)
Theorem pool_fit_result (E : Externals) (X y : data) (w w' : Process E) t :
  String.eqb (model_type (_config_ (self w))) "keras" = false ->
  n_jobs (_config_ (self w)) <> 1 ->
  fit E X y w = (Ok tt, w', t) ->
  exists sc m fitted,
    final (_run_multiple_jobs E (converted X) y w)
    = mk_Process (with_model_best (with_score_best (self w) sc) m)
        (gens w) (in_worker w) /\
    events (_run_multiple_jobs E (converted X) y w) = t /\
    model_fit E m (converted X) y (gens w) = (Ok fitted, gens w') /\
    score_best_ (self w') = Some sc /\
    model_best (self w') = Some fitted.
Proof.
  intros Hk Hn. rewrite fit_unfold. unfold fit_run. rewrite Hk. cbv zeta.
  replace (n_jobs (_config_ (self w)) =? 1) with false
    by (symmetry; apply Z.eqb_neq; exact Hn).
  pose proof (pool_run_gens_and_result E (converted X) y w) as Hrun.
  destruct (_run_multiple_jobs E (converted X) y w) as [[[[]|e] w1] t1]; [|discriminate].
  unfold outcome, final, events in *. cbn [fst snd] in *.
  destruct Hrun as (sc & m & ->).
  cbn [self model_best with_model_best gens in_worker].
  destruct (model_fit E m (converted X) y (gens w)) as [[fitted|e] g] eqn:Hfit;
    [|discriminate].
  intros H. inversion H; subst. exists sc, m, fitted.
  split; [reflexivity|]. split; [reflexivity|]. split; [exact Hfit|].
  split; reflexivity.
Qed.

(** ** Model types without a candidate *)

Lemma init_search_other_type (E : Externals) (nth : Z) (X y : data) (w : Process E) :
  is_ml (self w) = false ->
  String.eqb (model_type (_config_ (self w))) "keras" = false ->
  _init_search E nth X y w
  = (Raise UnboundLocalError, seeded w (base_seed (self w) + nth),
     seed_events (base_seed (self w) + nth)).
Proof.
  unfold is_ml. intros Hml Hk. unfold _init_search. unfold bind at 1.
  rewrite set_random_seed_effect. unfold bind at 1. unfold bind_candidate.
  unfold bind at 1. unfold get_self at 1. cbn [self]. rewrite Hml, Hk.
  unfold ret, raise, seeded. rewrite app_nil_r. reflexivity.
Qed.

Lemma search_other_type (E : Externals) (nth : Z) (X y : data) (w : Process E) :
  is_ml (self w) = false ->
  String.eqb (model_type (_config_ (self w))) "keras" = false ->
  search E nth X y w
  = (Raise UnboundLocalError, seeded w (base_seed (self w) + nth),
     SearchStarted (in_worker w) nth :: seed_events (base_seed (self w) + nth)).
Proof.
  intros Hml Hk. rewrite search_unfold, init_search_other_type by assumption.
  reflexivity.
Qed.

Lemma first_raised_all (A : Type) (e : exn) (order : list nat) (rs : list (result A)) :
  rs <> [] -> (forall r, In r rs -> r = Raise e) ->
  first_raised (order ++ seq 0 (length rs)) rs = Some e.
Proof.
  intros Hne Hall.
  destruct (pool_reports_a_failure order rs) as (j & e' & Hf & Hj).
  - destruct rs as [|r rs]; [congruence|]. exists r. split; [left; reflexivity|].
    rewrite (Hall r (or_introl eq_refl)). reflexivity.
  - rewrite Hf. apply nth_error_In in Hj. apply Hall in Hj. congruence.
Qed.

Lemma iterations_total_app {E} (t1 t2 : list (event E)) :
  iterations_total (t1 ++ t2) = iterations_total t1 + iterations_total t2.
Proof.
  unfold iterations_total, len. rewrite flat_map_app, length_app. lia.
Qed.

Lemma iterations_total_concat {E} (ts : list (list (event E))) :
  (forall t, In t ts -> iterations_total t = 0) ->
  iterations_total (concat ts) = 0.
Proof.
  induction ts as [|t ts IH]; intros H; [reflexivity|].
  simpl. rewrite iterations_total_app, (H t (or_introl eq_refl)), IH; [reflexivity|].
  intros t' Ht'. apply H. right. exact Ht'.
Qed.

(** X11: An optimizer whose model type is none of sklearn, xgboost and keras
    cannot be fitted: [_init_search] binds no candidate, so every search
    raises [UnboundLocalError] right after seeding, and [fit] raises it, from
    the single job or through the pool, without an iteration and without a
    change to the optimizer. *)
Theorem fit_needs_a_known_model_type (E : Externals) (X y : data) (w : Process E) :
  is_ml (self w) = false ->
  String.eqb (model_type (_config_ (self w))) "keras" = false ->
  1 <= n_jobs (_config_ (self w)) ->
  _n_process_range (self w) = py_range (n_jobs (_config_ (self w))) ->
  outcome (fit E X y w) = Raise UnboundLocalError /\
  iterations_total (events (fit E X y w)) = 0 /\
  self (final (fit E X y w)) = self w.
Proof.
  intros Hml Hk HN Hrange. rewrite fit_unfold. unfold fit_run. rewrite Hk. cbv zeta.
  destruct (n_jobs (_config_ (self w)) =? 1) eqn:H1.
  - rewrite run_one_job_unfold, search_other_type by assumption.
    unfold outcome, events, final. cbn [fst snd]. repeat split; reflexivity.
  - rewrite run_multiple_jobs_unfold, search_multiprocessing_unfold.
    replace (n_jobs (_config_ (self w)) <? 1) with false by (symmetry; apply Z.ltb_ge; lia).
    cbv zeta.
    set (ids := _n_process_range (self w)).
    assert (Hruns : map (fun nth => search E nth (converted X) y (worker_of w)) ids
                    = map (fun nth =>
                             (Raise UnboundLocalError,
                              seeded (worker_of w) (base_seed (self w) + nth),
                              SearchStarted true nth
                                :: seed_events (base_seed (self w) + nth))) ids).
    { apply map_ext. intros nth. apply search_other_type; assumption. }
    rewrite Hruns.
    set (runs := map _ ids).
    assert (Hlen : length ids = length (map outcome runs))
      by (unfold runs; rewrite !length_map; reflexivity).
    rewrite Hlen, (first_raised_all _ UnboundLocalError).
    + unfold outcome, events, final. cbn [fst snd].
      split; [reflexivity|]. split; [|reflexivity].
      change (iterations_total (concat (map events runs)) = 0).
      apply iterations_total_concat. intros t Ht. unfold runs in Ht.
      rewrite map_map in Ht. apply in_map_iff in Ht. destruct Ht as (nth & <- & _).
      reflexivity.
    + unfold runs, ids. rewrite Hrange, !map_map.
      unfold py_range. destruct (Z.to_nat (n_jobs (_config_ (self w)))) eqn:Hn; [lia|].
      discriminate.
    + intros r Hr. unfold runs in Hr. rewrite map_map in Hr.
      apply in_map_iff in Hr. destruct Hr as (nth & <- & _). reflexivity.
Qed.

Lemma fit_needs_a_known_model_type_witness :
  let E := toy sum_score [] in
  let w := caller (__init__ (model E) ["torch.net"%string] 5 "accuracy" 1 (Some 3)
                     (mk_Config "torch" 2)) 0 in
  outcome (fit E no_data no_data w) = Raise UnboundLocalError /\
  iterations_total (events (fit E no_data no_data w)) = 0 /\
  self (final (fit E no_data no_data w)) = self w.
Proof.
  intros E w. apply (fit_needs_a_known_model_type E no_data no_data w).
  - reflexivity.
  - reflexivity.
  - simpl. lia.
  - reflexivity.
Defined.

(** ** A budget of no iterations *)

Lemma py_range_nonpositive (n : Z) : n <= 0 -> py_range n = [].
Proof.
  intros H. unfold py_range. replace (Z.to_nat n) with 0%nat by lia. reflexivity.
Qed.

(** X12: With [n_iter] zero or negative the loop of [search] has no iteration:
    the search is its initialisation, which still seeds the generators and
    scores the start position, and the candidate it returns is the initialised
    one. *)
Theorem search_without_budget (E : Externals) (nth : Z) (X y : data) (w : Process E) :
  n_iter (self w) <= 0 ->
  iterations_total (events (search E nth X y w)) = 0 /\
  outcome (search E nth X y w)
  = match outcome (_init_search E nth X y w) with
    | Ok cp => Ok (fst cp)
    | Raise e => Raise e
    end /\
  final (search E nth X y w) = final (_init_search E nth X y w) /\
  events (search E nth X y w)
  = SearchStarted (in_worker w) nth :: events (_init_search E nth X y w).
Proof.
  intros Hn. rewrite search_unfold.
  destruct (_init_search E nth X y w) as [[[cp|e] w1] t1] eqn:Hinit.
  - pose proof (init_search_effect E nth X y w _ _ _ Hinit) as (Ht & _ & b & Hself).
    rewrite Hself, n_iter_with_p_bar, py_range_nonpositive by exact Hn.
    cbn [for_each]. unfold ret, outcome, events, final. cbn [fst snd].
    rewrite app_nil_r. split; [|auto]. subst t1.
    destruct (report_unread (self w) nth) as (_ & _ & R & _).
    change (SearchStarted (in_worker w) nth
              :: seed_events (base_seed (self w) + nth) ++ report_events (self w) nth)
      with ((SearchStarted (in_worker w) nth :: seed_events (base_seed (self w) + nth))
              ++ report_events (self w) nth).
    rewrite iterations_total_app, R. reflexivity.
  - pose proof (init_search_effect E nth X y w _ _ _ Hinit) as (Ht & _).
    unfold outcome, events, final. cbn [fst snd]. split; [|auto]. subst t1.
    destruct (report_unread (self w) nth) as (_ & _ & R & _).
    change (SearchStarted (in_worker w) nth
              :: seed_events (base_seed (self w) + nth) ++ report_events (self w) nth)
      with ((SearchStarted (in_worker w) nth :: seed_events (base_seed (self w) + nth))
              ++ report_events (self w) nth).
    rewrite iterations_total_app, R. reflexivity.
Qed.

Lemma search_without_budget_witness :
  let E := toy sum_score [] in
  let w := caller (three_jobs E (-2)) 0 in
  iterations_total (events (search E 1 no_data no_data w)) = 0 /\
  outcome (search E 1 no_data no_data w)
  = match outcome (_init_search E 1 no_data no_data w) with
    | Ok cp => Ok (fst cp)
    | Raise e => Raise e
    end /\
  final (search E 1 no_data no_data w) = final (_init_search E 1 no_data no_data w) /\
  events (search E 1 no_data no_data w)
  = SearchStarted (in_worker w) 1 :: events (_init_search E 1 no_data no_data w).
Proof.
  intros E w. apply (search_without_budget E 1 no_data no_data w). simpl. lia.
Defined.

(** ** An empty model list *)

Lemma search_without_models (E : Externals) (nth : Z) (X y : data) (w : Process E) :
  is_ml (self w) = true -> model_list (self w) = [] -> n_models (self w) = 0 ->
  0 <= n_jobs (_config_ (self w)) -> 0 <= nth ->
  search E nth X y w
  = (Raise IndexError, seeded w (base_seed (self w) + nth),
     SearchStarted (in_worker w) nth :: seed_events (base_seed (self w) + nth)).
Proof.
  unfold is_ml. intros Hml Hlist Hn Hjobs Hnth.
  rewrite search_unfold. unfold _init_search. unfold bind at 1.
  rewrite set_random_seed_effect. unfold bind at 1. unfold bind_candidate.
  unfold bind at 1. unfold get_self at 1. cbn [self]. rewrite Hml.
  unfold bind at 1. unfold _get_sklearn_model. unfold bind at 1. unfold get_self at 1.
  cbn [self]. rewrite Hn, Hlist.
  replace (0 >? n_jobs (_config_ (self w))) with false
    by (symmetry; rewrite Z.gtb_ltb; apply Z.ltb_ge; lia).
  replace (nth <? 0) with false by (symmetry; apply Z.ltb_ge; lia).
  unfold random_choice. cbn [len length Z.of_nat Z.eqb].
  unfold seeded. rewrite !app_nil_r. reflexivity.
Qed.

(** X13: An optimizer for sklearn or xgboost with an empty search
    configuration cannot be fitted: no job has a model to draw,
    [random.choice] raises [IndexError] on the empty list, and [fit] raises
    it, from the single job or through the pool, without an iteration. *)
Theorem fit_needs_a_model (E : Externals) (n_iter : Z) (metric : string)
    (verbosity : Z) (random_state : option Z) (config : Config) (X y : data)
    (w : Process E) :
  self w = __init__ (model E) [] n_iter metric verbosity random_state config ->
  model_type config = "sklearn"%string \/ model_type config = "xgboost"%string ->
  1 <= n_jobs config ->
  outcome (fit E X y w) = Raise IndexError /\
  iterations_total (events (fit E X y w)) = 0 /\
  self (final (fit E X y w)) = self w.
Proof.
  intros Hself Htype HN.
  assert (Hml : is_ml (self w) = true).
  { rewrite Hself. unfold is_ml. cbn [_config_ __init__].
    destruct Htype as [-> | ->]; reflexivity. }
  assert (Hk : String.eqb (model_type (_config_ (self w))) "keras" = false).
  { rewrite Hself. cbn [_config_ __init__]. destruct Htype as [-> | ->]; reflexivity. }
  assert (Hlist : model_list (self w) = []) by (rewrite Hself; reflexivity).
  assert (Hn : n_models (self w) = 0) by (rewrite Hself; reflexivity).
  assert (Hjobs : n_jobs (_config_ (self w)) = n_jobs config) by (rewrite Hself; reflexivity).
  assert (Hrange : _n_process_range (self w) = py_range (n_jobs config))
    by (rewrite Hself; reflexivity).
  rewrite fit_unfold. unfold fit_run. rewrite Hk. cbv zeta.
  destruct (n_jobs (_config_ (self w)) =? 1) eqn:H1.
  - rewrite run_one_job_unfold, search_without_models by (try assumption; lia).
    unfold outcome, events, final. cbn [fst snd]. repeat split; reflexivity.
  - rewrite run_multiple_jobs_unfold, search_multiprocessing_unfold.
    replace (n_jobs (_config_ (self w)) <? 1) with false by (symmetry; apply Z.ltb_ge; lia).
    cbv zeta. rewrite Hrange.
    set (ids := py_range (n_jobs config)).
    assert (Hruns : map (fun nth => search E nth (converted X) y (worker_of w)) ids
                    = map (fun nth =>
                             (Raise IndexError,
                              seeded (worker_of w) (base_seed (self w) + nth),
                              SearchStarted true nth
                                :: seed_events (base_seed (self w) + nth))) ids).
    { apply map_ext_in. intros nth Hin. apply In_py_range in Hin.
      apply search_without_models; try assumption; cbn [self worker_of]; lia. }
    rewrite Hruns.
    set (runs := map _ ids).
    assert (Hlen : length ids = length (map outcome runs))
      by (unfold runs; rewrite !length_map; reflexivity).
    rewrite Hlen, (first_raised_all _ IndexError).
    + unfold outcome, events, final. cbn [fst snd].
      split; [reflexivity|]. split; [|reflexivity].
      change (iterations_total (concat (map events runs)) = 0).
      apply iterations_total_concat. intros t Ht. unfold runs in Ht.
      rewrite map_map in Ht. apply in_map_iff in Ht. destruct Ht as (nth & <- & _).
      reflexivity.
    + unfold runs, ids. rewrite !map_map.
      unfold py_range. destruct (Z.to_nat (n_jobs config)) eqn:Hz; [lia|].
      discriminate.
    + intros r Hr. unfold runs in Hr. rewrite map_map in Hr.
      apply in_map_iff in Hr. destruct Hr as (nth & <- & _). reflexivity.
Qed.

Lemma fit_needs_a_model_witness :
  let E := toy sum_score [] in
  let w := caller (__init__ (model E) [] 5 "accuracy" 1 None (mk_Config "sklearn" 2)) 0 in
  outcome (fit E no_data no_data w) = Raise IndexError /\
  iterations_total (events (fit E no_data no_data w)) = 0 /\
  self (final (fit E no_data no_data w)) = self w.
Proof.
  intros E w.
  apply (fit_needs_a_model E 5 "accuracy" 1 None (mk_Config "sklearn" 2)
           no_data no_data w).
  - reflexivity.
  - left. reflexivity.
  - simpl. lia.
Defined.

(** ** A failure of the final fit *)



(** ** What a run prints *)

Lemma only_reports_app {E} (t1 t2 : list (event E)) :
  only_reports t1 -> only_reports t2 -> only_reports (t1 ++ t2).
Proof.
  unfold only_reports, printed, dropped_reports. intros H1 H2.
  rewrite !flat_map_app, map_app, H1, H2. reflexivity.
Qed.

Lemma only_reports_concat {E} (ts : list (list (event E))) :
  (forall t, In t ts -> only_reports t) -> only_reports (concat ts).
Proof.
  induction ts as [|t ts IH]; intros H; [reflexivity|].
  simpl. apply only_reports_app; [apply H; left; reflexivity|].
  apply IH. intros t' Ht'. apply H. right. exact Ht'.
Qed.

Lemma only_reports_iterated {E} nth (l : list Z) :
  only_reports (map (@Iterated E nth) l).
Proof. induction l as [|i l IH]; [reflexivity|exact IH]. Qed.

Lemma only_reports_report {E} (o : BaseOptimizer (model E)) nth :
  only_reports (report_events o nth).
Proof. unfold report_events. destruct (_ && _ && _)%bool; reflexivity. Qed.

Lemma only_reports_search (E : Externals) (nth : Z) (X y : data) (w : Process E) :
  only_reports (events (search E nth X y w)).
Proof.
  destruct (search E nth X y w) as [[r w'] t] eqn:Hs.
  apply search_effect in Hs. destruct Hs as (j & _ & -> & _). unfold events. cbn [snd].
  change (only_reports ([SearchStarted (in_worker w) nth]
            ++ seed_events (base_seed (self w) + nth)
            ++ report_events (self w) nth
            ++ map (Iterated nth) (firstn j (py_range (n_iter (self w)))))).
  repeat apply only_reports_app;
    [reflexivity | reflexivity | apply only_reports_report | apply only_reports_iterated].
Qed.

Lemma verbosity_after_search (E : Externals) (nth : Z) (X y : data) (w : Process E) :
  verbosity (self (final (search E nth X y w))) = verbosity (self w).
Proof.
  destruct (search E nth X y w) as [[r w'] t] eqn:Hs.
  apply search_effect in Hs. destruct Hs as (j & _ & _ & _ & _ & b & Hself).
  unfold final. cbn [fst snd]. rewrite Hself. reflexivity.
Qed.

Lemma silent_run (E : Externals) (X y : data) (w : Process E) :
  verbosity (self w) = 0 ->
  only_reports (events (_run_one_job E X y w)) /\
  only_reports (events (_run_multiple_jobs E X y w)).
Proof.
  intros Hv. split.
  - rewrite run_one_job_unfold.
    pose proof (only_reports_search E 0 X y w) as Hs.
    pose proof (verbosity_after_search E 0 X y w) as Hv1.
    destruct (search E 0 X y w) as [[[c|e] w1] t1]; [|exact Hs].
    unfold events, final in *. cbn [fst snd] in *.
    destruct (_get_warm_start E c) as [sp|]; [|exact Hs]. cbv zeta.
    destruct (pos2para E (cand_rest c) (pos_best c)) as [pa|]; [|exact Hs].
    destruct (_create_model E (cand_rest c) pa) as [m|]; [|exact Hs].
    cbn [snd]. unfold result_of. rewrite Hv1, Hv. rewrite app_nil_r. exact Hs.
  - rewrite run_multiple_jobs_unfold, search_multiprocessing_unfold.
    destruct (n_jobs (_config_ (self w)) <? 1); [reflexivity|]. cbv zeta.
    set (runs := map _ (_n_process_range (self w))).
    assert (Hpool : only_reports
                      (PoolCreated (n_jobs (_config_ (self w)))
                         :: PoolMapped (_n_process_range (self w))
                         :: concat (map events runs))).
    { change (only_reports ([PoolCreated (n_jobs (_config_ (self w)));
                             PoolMapped (_n_process_range (self w))]
                              ++ concat (map events runs))).
      apply only_reports_app; [reflexivity|]. apply only_reports_concat.
      intros t Ht. unfold runs in Ht. rewrite map_map in Ht.
      apply in_map_iff in Ht. destruct Ht as (nth & <- & _).
      apply only_reports_search. }
    destruct (first_raised _ _) as [e|]; [exact Hpool|].
    rewrite reduce_jobs_unfold.
    set (t0 := PoolCreated _ :: _) in *.
    assert (Hsilent : forall lines, report_of E (self w) lines = [])
      by (intros; unfold report_of; rewrite Hv; reflexivity).
    destruct (outcome (for_each E _ (collect_job E) ([], [], []) w))
      as [[[sps scs] ms]|e];
      [|unfold events; cbn [snd]; rewrite app_nil_r; exact Hpool].
    destruct (_sort_for_best sps scs) as [s1|];
      [|unfold events; cbn [snd]; rewrite app_nil_r; exact Hpool].
    destruct (_sort_for_best ms scs) as [s2|];
      [|unfold events; cbn [snd]; rewrite app_nil_r; exact Hpool].
    cbv zeta. rewrite Hsilent.
    destruct (getitem (snd s2) 0) as [bs|];
      [|unfold events; cbn [snd]; rewrite app_nil_r; exact Hpool].
    destruct (getitem (fst s2) 0) as [bm|];
      unfold events; cbn [snd]; rewrite app_nil_r; exact Hpool.
Qed.

Lemma events_fit (E : Externals) (X y : data) (w : Process E) :
  events (fit E X y w) = events (fit_run E X y w).
Proof.
  rewrite fit_unfold.
  destruct (fit_run E X y w) as [[[[]|e] w1] t]; [|reflexivity].
  destruct (model_best (self w1)) as [m|]; [|reflexivity].
  destruct (model_fit E m (converted X) y (gens w1)) as [[fitted|e] g]; reflexivity.
Qed.

(** X15: Verbosity 0 silences the result and the progress bar, not the report
    of dropped models: whatever [fit] prints then is such a report. *)
Theorem silent_fit_still_reports_dropped_models (E : Externals) (X y : data)
    (w : Process E) :
  verbosity (self w) = 0 ->
  printed (events (fit E X y w))
  = map NotEnoughJobs (dropped_reports (events (fit E X y w))).
Proof.
  intros Hv. rewrite events_fit. unfold fit_run. cbv zeta.
  set (w0 := if String.eqb (model_type (_config_ (self w))) "keras"
             then with_n_jobs w 1 else w).
  assert (Hv0 : verbosity (self w0) = 0).
  { unfold w0. destruct (String.eqb (model_type (_config_ (self w))) "keras");
      [|exact Hv]. exact Hv. }
  destruct (silent_run E (converted X) y w0 Hv0) as (H1 & Hn).
  destruct (n_jobs (_config_ (self w0)) =? 1); assumption.
Qed.

Lemma silent_fit_still_reports_dropped_models_witness :
  let E := toy sum_score [] in
  let w := caller (__init__ (model E) four_models 2 "accuracy" 0 None
                     (mk_Config "sklearn" 3)) 0 in
  printed (events (fit E no_data no_data w))
  = map NotEnoughJobs (dropped_reports (events (fit E no_data no_data w))).
Proof.
  intros E w. apply (silent_fit_still_reports_dropped_models E no_data no_data w).
  reflexivity.
Defined.

Example silent_fit_report :
  let E := toy sum_score [] in
  let w := caller (__init__ (model E) four_models 2 "accuracy" 0 None
                     (mk_Config "sklearn" 3)) 0 in
  printed (events (fit E no_data no_data w)) = [NotEnoughJobs 1].
Proof. vm_compute. reflexivity. Qed.

(** ** Enough jobs for the models *)

(** X16: With at least as many job slots as models, every model of the list is
    the model of the job with its index: that job is among the job ids, gets
    the key without a print and without a draw from the generators. *)
Theorem enough_jobs_give_every_model_a_job (E : Externals) (keys : list string)
    (n_iter : Z) (metric : string) (verbosity : Z) (random_state : option Z)
    (config : Config) (w : Process E) (k : nat) (key : string) :
  self w = __init__ (model E) keys n_iter metric verbosity random_state config ->
  len keys <= n_jobs config ->
  nth_error keys k = Some key ->
  In (Z.of_nat k) (_n_process_range (self w)) /\
  _get_sklearn_model E (Z.of_nat k) w = (Ok key, w, []).
Proof.
  intros Hself Hlen Hk.
  assert (Hlt : (k < length keys)%nat) by (apply nth_error_Some; congruence).
  unfold len in Hlen. split.
  - rewrite Hself. cbn [_n_process_range __init__]. apply In_py_range. lia.
  - unfold _get_sklearn_model. unfold bind at 1. unfold get_self at 1.
    rewrite Hself. cbn [n_models _config_ model_list __init__]. unfold len.
    replace (Z.of_nat (length keys) >? n_jobs config) with false
      by (symmetry; rewrite Z.gtb_ltb; apply Z.ltb_ge; lia).
    replace (Z.of_nat k <? Z.of_nat (length keys)) with true
      by (symmetry; apply Z.ltb_lt; lia).
    destruct (getitem_in_range keys (Z.of_nat k)) as (a & Hget & Ha);
      [unfold len; lia|].
    rewrite Nat2Z.id, Hk in Ha. injection Ha as <-.
    unfold of_result. rewrite Hget. reflexivity.
Qed.

Lemma enough_jobs_give_every_model_a_job_witness :
  let E := toy sum_score [] in
  let w := caller (__init__ (model E) ["sklearn.a"; "sklearn.b"]%string 10 "accuracy" 1
                     None (mk_Config "sklearn" 4)) 5 in
  In (Z.of_nat 1) (_n_process_range (self w)) /\
  _get_sklearn_model E (Z.of_nat 1) w = (Ok "sklearn.b"%string, w, []).
Proof.
  intros E w.
  apply (enough_jobs_give_every_model_a_job E ["sklearn.a"; "sklearn.b"]%string 10
           "accuracy" 1 None (mk_Config "sklearn" 4) w 1 "sklearn.b"%string).
  - reflexivity.
  - simpl. vm_compute. discriminate.
  - reflexivity.
Defined.

(** ** The progress bar *)

Lemma show_with_p_bar (E : Externals) (o : BaseOptimizer (model E)) b :
  _show_progress_bar E (with_p_bar o b) = _show_progress_bar E o.
Proof. reflexivity. Qed.

Lemma init_search_bar (E : Externals) (nth : Z) (X y : data) (w : Process E)
    cp w1 t :
  _init_search E nth X y w = (Ok cp, w1, t) ->
  self w1 = if _show_progress_bar E (self w)
            then with_p_bar (self w)
                   (Some (mk_progress_bar (_tqdm_dict E (self w) (fst cp)) 0))
            else self w.
Proof.
  unfold _init_search. unfold bind at 1. rewrite set_random_seed_effect.
  unfold bind at 1.
  set (w0 := mk_Process _ _ _).
  destruct (bind_candidate E nth w0) as [[r1 w2] t1] eqn:Hbc.
  apply bind_candidate_effect in Hbc. destruct Hbc as (-> & Hself & Hwk).
  replace (self w0) with (self w) in * by reflexivity.
  destruct r1 as [[c|]|e]; [|run_m; discriminate|discriminate].
  run_m. unfold set_p_bar. run_m.
  repeat (split_match; simpl); intros H; inversion H; subst; cbn [fst];
    rewrite ?Hself in *; try congruence; reflexivity.
Qed.

Lemma search_step_bar (E : Externals) (nth : Z) (X y : data) (i : Z) cp
    (w : Process E) cp' w' t :
  search_step E nth X y i cp w = (Ok cp', w', t) ->
  if _show_progress_bar E (self w)
  then exists b, p_bar (self w) = Some b /\
                 self w' = with_p_bar (self w)
                             (Some (mk_progress_bar (bar_args b) (bar_n b + 1)))
  else self w' = self w.
Proof.
  unfold search_step. run_m. unfold p_bar_update, set_p_bar. run_m.
  destruct (_iterate E i (fst cp) (snd cp) X y (gens w)) as [[cp1|e] g]; [|discriminate].
  simpl. destruct (_show_progress_bar E (self w)); simpl.
  - destruct (p_bar (self w)) as [b|]; simpl; [|discriminate].
    intros H; inversion H; subst. exists b. split; reflexivity.
  - intros H; inversion H; subst. reflexivity.
Qed.

Lemma search_loop_bar (E : Externals) (nth : Z) (X y : data) (l : list Z) :
  forall cp (w : Process E) cp' w' t,
    for_each E l (search_step E nth X y) cp w = (Ok cp', w', t) ->
    (_show_progress_bar E (self w) = false -> self w' = self w) /\
    (_show_progress_bar E (self w) = true ->
     forall b, p_bar (self w) = Some b ->
       self w' = with_p_bar (self w)
                   (Some (mk_progress_bar (bar_args b) (bar_n b + len l)))).
Proof.
  induction l as [|i l IH]; intros cp w cp' w' t.
  - simpl. unfold ret. intros H; inversion H; subst. split; [reflexivity|].
    intros _ [args n] Hb. unfold len. simpl. rewrite Z.add_0_r, <- Hb.
    symmetry. apply with_p_bar_same.
  - rewrite for_each_cons.
    destruct (search_step E nth X y i cp w) as [[[cp1|e] w1] t1] eqn:Hstep; [|discriminate].
    apply search_step_bar in Hstep.
    destruct (for_each E l (search_step E nth X y) cp1 w1) as [[r2 w2] t2] eqn:Hloop.
    intros H; inversion H; subst.
    apply IH in Hloop. destruct Hloop as (Hoff & Hon).
    destruct (_show_progress_bar E (self w)) eqn:Hshow.
    + destruct Hstep as (b & Hb & Hself). split; [discriminate|].
      intros _ b' Hb'. rewrite Hb in Hb'. injection Hb' as <-.
      rewrite (Hon (eq_trans (f_equal _ Hself) (eq_trans (show_with_p_bar E _ _) Hshow))
                 (mk_progress_bar (bar_args b) (bar_n b + 1)))
        by (rewrite Hself; reflexivity).
      rewrite Hself, with_p_bar_twice. cbn [bar_args bar_n]. do 3 f_equal.
      unfold len. simpl length. lia.
    + split; [|discriminate]. intros _. rewrite Hoff; [exact Hstep|].
      rewrite Hstep. exact Hshow.
Qed.

(** X17: The progress bar of a finished search is exactly full. When
    [_show_progress_bar] holds, [self.p_bar] is the bar made for
    [range(n_iter)], updated once per iteration, so that its count is the
    length of its iterable; otherwise the search leaves the optimizer as it
    was, without a bar. *)
Theorem progress_bar_ends_full (E : Externals) (nth : Z) (X y : data)
    (w : Process E) c w' t :
  search E nth X y w = (Ok c, w', t) ->
  if _show_progress_bar E (self w)
  then exists args,
         self w' = with_p_bar (self w)
                     (Some (mk_progress_bar args (len (iterable args)))) /\
         iterable args = py_range (n_iter (self w)) /\
         leave args = false
  else self w' = self w.
Proof.
  rewrite search_unfold.
  destruct (_init_search E nth X y w) as [[[cp0|e] w1] t1] eqn:Hinit; [|discriminate].
  apply init_search_bar in Hinit.
  destruct (for_each E (py_range (n_iter (self w1))) (search_step E nth X y) cp0 w1)
    as [[[cp|e] w2] t2] eqn:Hloop; [|discriminate].
  intros H; inversion H; subst. apply search_loop_bar in Hloop.
  destruct Hloop as (Hoff & Hon).
  destruct (_show_progress_bar E (self w)) eqn:Hshow.
  - exists (_tqdm_dict E (self w) (fst cp0)).
    rewrite (Hon (eq_trans (f_equal _ Hinit) (eq_trans (show_with_p_bar E _ _) Hshow))
               (mk_progress_bar (_tqdm_dict E (self w) (fst cp0)) 0))
      by (rewrite Hinit; reflexivity).
    rewrite Hinit, with_p_bar_twice. cbn [bar_args bar_n n_iter with_p_bar iterable _tqdm_dict leave].
    rewrite Z.add_0_l. repeat split; reflexivity.
  - rewrite Hoff; [exact Hinit|]. rewrite Hinit. exact Hshow.
Qed.

Lemma progress_bar_ends_full_witness :
  let E := toy sum_score [] in
  let w := caller (three_jobs E 5) 0 in
  if _show_progress_bar E (self w)
  then exists args,
         self (final (search E 1 no_data no_data w))
         = with_p_bar (self w) (Some (mk_progress_bar args (len (iterable args)))) /\
         iterable args = py_range (n_iter (self w)) /\
         leave args = false
  else self (final (search E 1 no_data no_data w)) = self w.
Proof.
  intros E w.
  eapply (progress_bar_ends_full E 1 no_data no_data w).
  vm_compute. reflexivity.
Defined.

Example progress_bar_after_five :
  let E := toy sum_score [] in
  option_map (fun b => (bar_n b, position_ (bar_args b), desc (bar_args b)))
    (p_bar (self (final (search E 1 no_data no_data (caller (three_jobs E 5) 0)))))
  = Some (5, 1, ("Search "%string, 1)).
Proof. vm_compute. reflexivity. Qed.

(** ** The report of [_run_multiple_jobs] *)







Example report_of_three_jobs :
  let E := toy sum_score [] in
  printed (events (reduce_jobs E [job2_worse; job0_tied; job1_tied]
                     (caller (three_jobs E 10) 0)))
  = [StartPointsHeader;
     MetricScore "accuracy" 5; StartPointLine (E:=E) [1; 4];
     MetricScore "accuracy" 5; StartPointLine (E:=E) [0; 5];
     MetricScore "accuracy" 3; StartPointLine (E:=E) [2; 1]].
Proof. vm_compute. reflexivity. Qed.

(** ** [_get_model] *)






Example get_model_example :
  _get_model unit nat toy_import toy_getattr "sklearn.ensemble.RandomForestClassifier"
  = Ok 7%nat /\
  _get_model unit nat toy_import toy_getattr "sklearn.RandomForestClassifier"
  = Raise (External "ModuleNotFoundError") /\
  _get_model unit nat toy_import toy_getattr "sklearn.ensemble.Missing"
  = Raise AttributeError.
Proof. repeat split. Qed.

(** ** [_set_n_steps] without jobs *)

(** X20: [_set_n_steps] raises [ZeroDivisionError] exactly when the number of
    jobs is 0, whatever the budget and the job. *)
Theorem set_n_steps_divides_by_the_jobs (model : Type) (o : BaseOptimizer model) (k : Z) :
  _set_n_steps o k = Raise ZeroDivisionError <-> n_jobs (_config_ o) = 0.
Proof.
  unfold _set_n_steps, truediv, py_mod. split.
  - intros H. destruct (n_jobs (_config_ o)) as [|b|b] eqn:Hb; [reflexivity| |]; exfalso.
    + destruct (n_iter o) as [|a|a]; cbn [Z.eqb] in H.
      * unfold int_of_float in H. discriminate.
      * destruct (SFdiv _ _ _ _) as [s| s | | s m e]; try discriminate;
          unfold int_of_float in H; discriminate.
      * destruct (SFdiv _ _ _ _) as [s| s | | s m e]; try discriminate;
          unfold int_of_float in H; discriminate.
    + destruct (n_iter o) as [|a|a]; cbn [Z.eqb] in H.
      * unfold int_of_float in H. discriminate.
      * destruct (SFdiv _ _ _ _) as [s| s | | s m e]; try discriminate;
          unfold int_of_float in H; discriminate.
      * destruct (SFdiv _ _ _ _) as [s| s | | s m e]; try discriminate;
          unfold int_of_float in H; discriminate.
  - intros ->. destruct (n_iter o); reflexivity.
Qed.

Lemma set_n_steps_divides_by_the_jobs_witness :
  _set_n_steps (__init__ unit [] 10 "accuracy" 1 None (mk_Config "sklearn" 0)) 0
  = Raise ZeroDivisionError
  <-> n_jobs (_config_ (__init__ unit [] 10 "accuracy" 1 None (mk_Config "sklearn" 0))) = 0.
Proof. apply set_n_steps_divides_by_the_jobs. Defined.

(** ** [_initialize] and [_update_pos] *)


(** ** [_set_n_steps] with more jobs than iterations *)

(** The division proper for any two positive integers below [2^53]: the
    quotient of [a * 2^s] by [b] has 53 or 54 digits, with [s] between 1 and
    105. *)
Lemma div_core_any pa pb :
  Zpos pa < 2 ^ 53 -> Zpos pb < 2 ^ 53 ->
  exists s q r,
    SFdiv_core_binary 53 1024 (Zpos pa) 0 (Zpos pb) 0 = (q, - s, new_location (Zpos pb) r) /\
    1 <= s <= 105 /\ Zpos pa * 2 ^ s = q * Zpos pb + r /\ 0 <= r < Zpos pb /\
    2 ^ 52 <= q < 2 ^ 54.
Proof.
  intros H53a H53b. set (a := Zpos pa) in *. set (b := Zpos pb) in *.
  assert (Ha : 0 < a) by (unfold a; lia). assert (Hb : 0 < b) by (unfold b; lia).
  unfold SFdiv_core_binary.
  rewrite !Zdigits2_log2 by lia.
  pose proof (Z.log2_spec a Ha) as La. pose proof (Z.log2_spec b Hb) as Lb.
  pose proof (Z.log2_nonneg a) as Na. pose proof (Z.log2_nonneg b) as Nb.
  assert (La53 : Z.log2 a < 53) by (apply Z.log2_lt_pow2; lia).
  assert (Lb53 : Z.log2 b < 53) by (apply Z.log2_lt_pow2; lia).
  set (da := Z.log2 a) in *. set (db := Z.log2 b) in *.
  rewrite fexp_normal by lia.
  replace (Z.min (da + 1 + 0 - (db + 1 + 0) - 53) (0 - 0)) with (da - db - 53) by lia.
  set (s := 53 + db - da).
  replace (0 - 0 - (da - db - 53)) with s by (unfold s; lia).
  assert (Hs : 1 <= s <= 105) by (unfold s; lia).
  destruct s as [|ps|ps] eqn:Es; try lia. rewrite <- Es in *.
  rewrite Z.shiftl_mul_pow2 by lia.
  pose proof (Z_div_mod (a * 2 ^ s) b ltac:(lia)) as Hdm.
  destruct (Z.div_eucl (a * 2 ^ s) b) as [q r].
  exists s, q, r. replace (da - db - 53) with (- s) by (unfold s; lia).
  split; [reflexivity|]. split; [lia|]. destruct Hdm as [Hdm Hr].
  split; [lia|]. split; [lia|].
  assert (P1 : 2 ^ (da + s) = 2 ^ 52 * 2 ^ (db + 1)).
  { rewrite <- Z.pow_add_r by lia. f_equal. unfold s. lia. }
  assert (P2 : 2 ^ (da + s) = 2 ^ da * 2 ^ s) by (apply Z.pow_add_r; lia).
  assert (P3 : 2 ^ Z.succ da = 2 * 2 ^ da) by (apply Z.pow_succ_r; lia).
  assert (P4 : 2 ^ Z.succ db = 2 * 2 ^ db) by (apply Z.pow_succ_r; lia).
  replace (db + 1) with (Z.succ db) in P1 by lia.
  assert (P5 : 0 < 2 ^ s) by (apply Z.pow_pos_nonneg; lia).
  assert (P6 : 0 < 2 ^ db) by (apply Z.pow_pos_nonneg; lia).
  change (2 ^ 54) with (4 * 2 ^ 52).
  split.
  - assert (2 ^ 52 * b <= a * 2 ^ s) by nia.
    destruct (Z_lt_le_dec q (2 ^ 52)); [|lia]. exfalso.
    assert ((q + 1) * b <= 2 ^ 52 * b) by nia. lia.
  - assert (a * 2 ^ s < 4 * 2 ^ 52 * 2 ^ db) by nia.
    destruct (Z_lt_le_dec q (4 * 2 ^ 52)); [lia|]. exfalso.
    assert (4 * 2 ^ 52 * b <= q * b) by nia. nia.
Qed.

(** The integer part of the rounded quotient of two positive integers below
    [2^53] is their floor quotient, whichever is the greater. *)
Lemma SFdiv_int_exact_any pa pb :
  Zpos pa < 2 ^ 53 -> Zpos pb < 2 ^ 53 ->
  exists m e,
    SFdiv 53 1024 (S754_finite false pa 0) (S754_finite false pb 0) = S754_finite false m e /\
    truncate_scaled (Zpos m) e = Zpos pa / Zpos pb.
Proof.
  intros H53a H53b.
  destruct (div_core_any pa pb H53a H53b) as (s & q & r & Hcore & Hs & Heq & Hr & Hq).
  unfold SFdiv. rewrite Hcore. simpl xorb. unfold binary_round_aux.
  assert (Hb : 0 < Zpos pb) by lia.
  assert (Hquo : q = Zpos pa * 2 ^ s / Zpos pb).
  { apply Z.div_unique with r; lia. }
  destruct (Z_lt_le_dec q (2 ^ 53)) as [Hlt|Hge].
  - rewrite shr_fexp_53 by lia.
    rewrite shr_m_record_of_loc, loc_of_record_of_loc.
    set (m2 := round_nearest_even q (new_location (Zpos pb) r)).
    pose proof (rne_range q (new_location (Zpos pb) r)) as Hm2. fold m2 in Hm2.
    destruct (finish_round m2 (- s) ltac:(lia) ltac:(lia)) as (m3 & e3 & Hfin & Htr).
    exists m3, e3. split; [exact Hfin|]. rewrite Htr.
    unfold truncate_scaled. replace (0 <=? - s) with false by (symmetry; apply Z.leb_gt; lia).
    replace (- - s) with s by lia.
    assert (Hgoal : q / 2 ^ s = Zpos pa / Zpos pb) by (rewrite Hquo; apply div_div_pow; lia).
    destruct (round_up_cases q (new_location (Zpos pb) r)) as [E|[E Hl]]; fold m2 in E; rewrite E.
    + exact Hgoal.
    + rewrite <- Hgoal.
      assert (Hhalf : Zpos pb <= 2 * r).
      { rewrite new_location_spec in Hl by lia.
        destruct (r =? 0) eqn:Er; [destruct Hl; discriminate|].
        destruct Hl as [Hl|Hl].
        - assert (Hc : (2 * r ?= Zpos pb) = Eq) by congruence.
          apply Z.compare_eq_iff in Hc. lia.
        - assert (Hc : (2 * r ?= Zpos pb) = Gt) by congruence.
          apply Z.compare_gt_iff in Hc. lia. }
      apply (no_carry (Zpos pa) (Zpos pb) s q (2 * r)); lia.
  - rewrite shr_fexp_54 by lia.
    set (l := new_location (Zpos pb) r).
    assert (Hrec : shr_1 (shr_record_of_loc q l) =
                   Build_shr_record (q / 2) (Z.odd q) (negb (r =? 0))).
    { unfold l. rewrite new_location_spec by lia.
      destruct (r =? 0); [simpl shr_record_of_loc; rewrite shr_1_spec by lia; reflexivity|].
      destruct (2 * r ?= Zpos pb); simpl shr_record_of_loc; rewrite shr_1_spec by lia;
        simpl; reflexivity. }
    rewrite Hrec. simpl shr_m.
    set (l' := loc_of_shr_record _).
    set (m1 := q / 2).
    set (m2 := round_nearest_even m1 l').
    pose proof (rne_range m1 l') as Hm2. fold m2 in Hm2.
    pose proof (Z.div_mod q 2 ltac:(lia)) as Hq2. fold m1 in Hq2.
    pose proof (Z.mod_pos_bound q 2 ltac:(lia)) as Hq2b.
    assert (Hm1 : 2 ^ 52 <= m1 < 2 ^ 53).
    { change (2 ^ 53) with (2 * 2 ^ 52) in *. change (2 ^ 54) with (4 * 2 ^ 52) in Hq. lia. }
    destruct (finish_round m2 (- s + 1) ltac:(lia) ltac:(lia)) as (m3 & e3 & Hfin & Htr).
    exists m3, e3. split; [exact Hfin|]. rewrite Htr.
    set (E := s - 1).
    assert (HE : 0 <= E) by (unfold E; lia).
    assert (Hpow : 2 ^ s = 2 ^ E * 2).
    { replace s with (E + 1) by (unfold E; lia). rewrite Z.pow_add_r by lia. reflexivity. }
    assert (PE : 0 < 2 ^ E) by (apply Z.pow_pos_nonneg; lia).
    assert (Htrunc : truncate_scaled m2 (- s + 1) = m2 / 2 ^ E).
    { unfold truncate_scaled. destruct (0 <=? - s + 1) eqn:E0.
      - apply Z.leb_le in E0. assert (E = 0) by (unfold E; lia).
        replace (- s + 1) with 0 by lia. rewrite H. simpl. rewrite Z.div_1_r. lia.
      - f_equal. f_equal. unfold E. lia. }
    rewrite Htrunc.
    assert (Hm1q : m1 = Zpos pa * 2 ^ E / Zpos pb).
    { unfold m1. rewrite Hquo, Hpow. rewrite Z.mul_assoc.
      rewrite Z.div_div by lia. rewrite Z.div_mul_cancel_r by lia. reflexivity. }
    assert (Hgoal : m1 / 2 ^ E = Zpos pa / Zpos pb) by (rewrite Hm1q; apply div_div_pow; lia).
    destruct (round_up_cases m1 l') as [E1|[E1 Hl]]; fold m2 in E1; rewrite E1.
    + exact Hgoal.
    + rewrite <- Hgoal.
      assert (Hodd : Z.odd q = true).
      { unfold l' in Hl. destruct (Z.odd q); [reflexivity|].
        destruct (negb (r =? 0)); simpl in Hl; destruct Hl; discriminate. }
      assert (q mod 2 = 1).
      { rewrite Zmod_odd, Hodd. reflexivity. }
      apply (no_carry (Zpos pa) (Zpos pb) E m1 (Zpos pb + r)); try lia.
Qed.

(** [int(a / b)] is the floor of the quotient for [0 <= a < 2^53] and
    [1 <= b < 2^53]. *)
Lemma int_truediv_floor_any (a b : Z) :
  0 <= a < 2 ^ 53 -> 1 <= b < 2 ^ 53 ->
  exists q, truediv a b = Ok q /\ int_of_float q = Ok (a / b).
Proof.
  intros Ha Hb.
  destruct b as [|pb|pb]; try lia.
  destruct a as [|pa|pa]; try lia.
  - exists (S754_zero false). split; reflexivity.
  - destruct (SFdiv_int_exact_any pa pb ltac:(lia) ltac:(lia)) as (m & e & Hdiv & Htr).
    change (truediv (Zpos pa) (Zpos pb))
      with (match SFdiv 53 1024 (S754_finite false pa 0) (S754_finite false pb 0) with
            | S754_infinity _ => Raise OverflowError
            | q => Ok q
            end).
    rewrite Hdiv. eexists. split; [reflexivity|].
    simpl. rewrite Htr. reflexivity.
Qed.

(** X22: The arithmetic of [_set_n_steps] holds for every budget and every
    number of jobs below [2^53], also with more jobs than iterations: job [k]
    gets [floor(n_iter/N)] plus one when [k < n_iter mod N]; with [n_iter < N]
    that is one step for the jobs below [n_iter] and none for the others; and
    the shares of the jobs [0 .. N-1] add up to [n_iter]. *)
Theorem set_n_steps_any_jobs (model : Type) (o : BaseOptimizer model) :
  0 <= n_iter o < 2 ^ 53 -> 1 <= n_jobs (_config_ o) < 2 ^ 53 ->
  (forall k, _set_n_steps o k
             = Ok (apportioned (n_iter o) (n_jobs (_config_ o)) k)) /\
  (n_iter o < n_jobs (_config_ o) ->
   forall k, _set_n_steps o k = Ok (if k <? n_iter o then 1 else 0)) /\
  sumZ (map (apportioned (n_iter o) (n_jobs (_config_ o)))
          (py_range (n_jobs (_config_ o)))) = n_iter o.
Proof.
  intros Hn HN.
  destruct (int_truediv_floor_any _ _ Hn HN) as (q & Hq & Hint).
  assert (Hk : forall k, _set_n_steps o k
                         = Ok (apportioned (n_iter o) (n_jobs (_config_ o)) k)).
  { intros k. unfold _set_n_steps. rewrite Hq, Hint. unfold py_mod.
    replace (n_jobs (_config_ o) =? 0) with false by (symmetry; apply Z.eqb_neq; lia).
    unfold apportioned. destruct (k <? _); f_equal; lia. }
  split; [exact Hk|]. split; [|apply sum_apportioned; lia].
  intros Hlt k. rewrite Hk. unfold apportioned.
  rewrite Z.div_small, Z.mod_small by lia. reflexivity.
Qed.

Lemma set_n_steps_any_jobs_witness :
  let o := __init__ unit [] 2 "accuracy" 1 None (mk_Config "sklearn" 5) in
  (forall k, _set_n_steps o k = Ok (apportioned (n_iter o) (n_jobs (_config_ o)) k)) /\
  (n_iter o < n_jobs (_config_ o) ->
   forall k, _set_n_steps o k = Ok (if k <? n_iter o then 1 else 0)) /\
  sumZ (map (apportioned (n_iter o) (n_jobs (_config_ o)))
          (py_range (n_jobs (_config_ o)))) = n_iter o.
Proof.
  intros o. apply (set_n_steps_any_jobs unit o).
  - simpl. lia.
  - simpl. lia.
Defined.

Example set_n_steps_2_5 :
  map (_set_n_steps (__init__ unit [] 2 "accuracy" 1 None (mk_Config "sklearn" 5)))
      (py_range 5) = [Ok 1; Ok 1; Ok 0; Ok 0; Ok 0].
Proof. vm_compute. reflexivity. Qed.

(** ** What the random search raises *)




(** ** No report without excess models *)

Lemma dropped_reports_none {E} (o : BaseOptimizer (model E)) (nth : Z) :
  is_ml o = false \/ n_models o <= n_jobs (_config_ o) ->
  dropped_reports (report_events o nth) = [].
Proof.
  intros H. unfold report_events.
  destruct H as [-> | H]; [reflexivity|].
  replace (n_models o >? n_jobs (_config_ o)) with false
    by (symmetry; rewrite Z.gtb_ltb; apply Z.ltb_ge; lia).
  rewrite andb_false_r. reflexivity.
Qed.

(** X24: [fit] reports dropped models only when there are some: for keras, or
    with at least as many job slots as models, nothing of the kind is printed.
    *)
Theorem no_report_without_excess_models (E : Externals) (X y : data) (w : Process E) :
  is_ml (self w) = false \/ n_models (self w) <= n_jobs (_config_ (self w)) ->
  dropped_reports (events (fit E X y w)) = [].
Proof.
  intros H. rewrite events_fit. unfold fit_run. cbv zeta.
  set (w0 := if String.eqb (model_type (_config_ (self w))) "keras"
             then with_n_jobs w 1 else w).
  assert (H0 : is_ml (self w0) = false \/ n_models (self w0) <= n_jobs (_config_ (self w0))).
  { unfold w0. destruct (String.eqb (model_type (_config_ (self w))) "keras") eqn:Hk;
      [|exact H].
    left. unfold is_ml, with_n_jobs, set_n_jobs. run_m. unfold final. cbn.
    apply String.eqb_eq in Hk. rewrite Hk. reflexivity. }
  clearbody w0. clear H.
  destruct (n_jobs (_config_ (self w0)) =? 1).
  - destruct (_run_one_job E (converted X) y w0) as [[r w'] t] eqn:Hrun.
    apply run_one_job_reads in Hrun. unfold events. cbn [snd].
    destruct Hrun as (_ & _ & -> & _).
    apply dropped_reports_none. exact H0.
  - destruct (Z.ltb_spec (n_jobs (_config_ (self w0))) 1) as [Hlt|Hge].
    + rewrite run_multiple_jobs_unfold, search_multiprocessing_unfold.
      replace (n_jobs (_config_ (self w0)) <? 1) with true
        by (symmetry; apply Z.ltb_lt; exact Hlt).
      reflexivity.
    + destruct (_run_multiple_jobs E (converted X) y w0) as [[r w'] t] eqn:Hrun.
      apply run_multiple_jobs_reads in Hrun; [|exact Hge].
      unfold events. cbn [snd]. destruct Hrun as (_ & _ & -> & _).
      induction (_n_process_range (self w0)) as [|nth ids IH]; [reflexivity|].
      simpl. rewrite (dropped_reports_none (self w0) nth H0). exact IH.
Qed.

Lemma no_report_without_excess_models_witness :
  let E := toy sum_score [] in
  let w := caller (__init__ (model E) ["sklearn.a"; "sklearn.b"]%string 3 "accuracy" 1
                     None (mk_Config "sklearn" 3)) 0 in
  dropped_reports (events (fit E no_data no_data w)) = [].
Proof.
  intros E w. apply (no_report_without_excess_models E no_data no_data w).
  right. vm_compute. discriminate.
Defined.

(** ** [predict] and [score] after [fit] *)

Lemma first_raised_nothing {A} (order : list nat) :
  first_raised order (@nil (result A)) = None.
Proof.
  induction order as [|k order IH]; [reflexivity|].
  simpl. destruct k; exact IH.
Qed.

Lemma fit_other_type_fails (E : Externals) (X y : data) (w : Process E) :
  is_ml (self w) = false ->
  String.eqb (model_type (_config_ (self w))) "keras" = false ->
  is_Ok (outcome (fit E X y w)) = false.
Proof.
  intros Hml Hk. rewrite fit_unfold. unfold fit_run. rewrite Hk. cbv zeta.
  destruct (n_jobs (_config_ (self w)) =? 1).
  - rewrite run_one_job_unfold, search_other_type by assumption. reflexivity.
  - rewrite run_multiple_jobs_unfold, search_multiprocessing_unfold.
    destruct (n_jobs (_config_ (self w)) <? 1); [reflexivity|]. cbv zeta.
    set (ids := _n_process_range (self w)).
    assert (Hruns : map (fun nth => search E nth (converted X) y (worker_of w)) ids
                    = map (fun nth =>
                             (Raise UnboundLocalError,
                              seeded (worker_of w) (base_seed (self w) + nth),
                              SearchStarted true nth
                                :: seed_events (base_seed (self w) + nth))) ids).
    { apply map_ext. intros nth. apply search_other_type; assumption. }
    rewrite Hruns. set (runs := map _ ids).
    destruct ids as [|id ids'] eqn:Hids.
    + unfold runs. cbn [map length seq]. rewrite first_raised_nothing.
      cbn [values]. rewrite reduce_jobs_unfold. reflexivity.
    + assert (Hlen : length (id :: ids') = length (map outcome runs))
        by (unfold runs; rewrite !length_map; reflexivity).
      rewrite Hlen, (first_raised_all _ UnboundLocalError); [reflexivity| |].
      * unfold runs. discriminate.
      * intros r Hr. unfold runs in Hr. rewrite map_map in Hr.
        apply in_map_iff in Hr. destruct Hr as (nth & <- & _). reflexivity.
Qed.

Lemma fit_keeps_the_model_type (E : Externals) (X y : data) (w : Process E) :
  model_type (_config_ (self (final (fit E X y w)))) = model_type (_config_ (self w)).
Proof.
  destruct (fit E X y w) as [[r w'] t] eqn:Hfit. unfold final. cbn [fst snd].
  apply fit_effect in Hfit. destruct Hfit as (r1 & w1 & Hrun & Hset & _).
  apply settings_config in Hset. rewrite Hset. clear Hset. cbv zeta in Hrun.
  set (w0 := if String.eqb (model_type (_config_ (self w))) "keras"
             then with_n_jobs w 1 else w) in *.
  assert (H0 : model_type (_config_ (self w0)) = model_type (_config_ (self w)))
    by (unfold w0; destruct (String.eqb _ _); reflexivity).
  rewrite <- H0. clearbody w0.
  destruct (n_jobs (_config_ (self w0)) =? 1).
  - apply run_one_job_reads in Hrun. destruct Hrun as (_ & _ & _ & Hset).
    apply settings_config in Hset. rewrite Hset. reflexivity.
  - pose proof (pool_run_gens_and_result E (converted X) y w0) as Hres.
    rewrite Hrun in Hres. unfold outcome, final in Hres. cbn [fst snd] in Hres.
    destruct r1 as [[]|e]; [destruct Hres as (sc & m & ->)|subst w1]; reflexivity.
Qed.

(** X25: After a successful [fit] the optimizer can be used: [self.model_best]
    is there, [predict] is the library's [predict] on it, and [score] returns
    a score or raises what the library raises, never [None], because [fit]
    succeeds for the three known model types only. Before any run [predict]
    raises [AttributeError]. *)
Theorem fitted_optimizer_predicts_and_scores (E : Externals)
    (prediction score_value evaluation : Type)
    (model_predict : model E -> data -> result prediction)
    (model_score : model E -> data -> data -> result score_value)
    (model_evaluate : model E -> data -> data -> result evaluation)
    (evaluation_item : evaluation -> Z -> result score_value)
    (X y X_test y_test : data) (w w' : Process E) t :
  fit E X y w = (Ok tt, w', t) ->
  (exists fitted,
     model_best (self w') = Some fitted /\
     predict model_predict (self w') X_test = model_predict fitted X_test) /\
  BaseOptimizer_score model_score model_evaluate evaluation_item (self w') X_test y_test
  <> Ok None /\
  (forall keys n metric v rs config,
     predict model_predict (__init__ (model E) keys n metric v rs config) X_test
     = Raise AttributeError).
Proof.
  intros Hfit.
  pose proof (fit_keeps_the_model_type E X y w) as Htype.
  rewrite Hfit in Htype. unfold final in Htype. cbn [fst snd] in Htype.
  assert (Hknown : is_ml (self w) = true \/
                   String.eqb (model_type (_config_ (self w))) "keras" = true).
  { destruct (is_ml (self w)) eqn:Hml; [left; reflexivity|].
    destruct (String.eqb (model_type (_config_ (self w))) "keras") eqn:Hk;
      [right; reflexivity|].
    pose proof (fit_other_type_fails E X y w Hml Hk) as Hfail.
    rewrite Hfit in Hfail. discriminate. }
  assert (Hmodel : exists fitted, model_best (self w') = Some fitted).
  { rewrite fit_unfold in Hfit.
    destruct (fit_run E X y w) as [[[[]|e] w1] t1]; [|discriminate].
    destruct (model_best (self w1)) as [m|]; [|discriminate].
    destruct (model_fit E m (converted X) y (gens w1)) as [[fitted|e] g]; [|discriminate].
    inversion Hfit; subst. exists fitted. reflexivity. }
  destruct Hmodel as (fitted & Hmodel).
  split; [|split].
  - exists fitted. split; [exact Hmodel|]. unfold predict. rewrite Hmodel. reflexivity.
  - unfold BaseOptimizer_score. rewrite Htype, Hmodel.
    unfold is_ml in Hknown.
    destruct (String.eqb (model_type (_config_ (self w))) "sklearn"
              || String.eqb (model_type (_config_ (self w))) "xgboost")%bool.
    + destruct (model_score fitted X_test y_test); discriminate.
    + destruct Hknown as [Hml|Hk]; [discriminate|]. rewrite Hk.
      destruct (model_evaluate fitted X_test y_test) as [ev|]; [|discriminate].
      destruct (evaluation_item ev 1); discriminate.
  - reflexivity.
Qed.

(** ** Verbosity concerns the display only *)

Lemma undisplayed_fields {model} (o1 o2 : BaseOptimizer model) :
  undisplayed o1 = undisplayed o2 ->
  n_iter o1 = n_iter o2 /\ metric o1 = metric o2 /\ random_state o1 = random_state o2 /\
  model_list o1 = model_list o2 /\ n_models o1 = n_models o2 /\
  _config_ o1 = _config_ o2 /\ _n_process_range o1 = _n_process_range o2 /\
  score_best_ o1 = score_best_ o2 /\ model_best o1 = model_best o2.
Proof. intros H. inversion H. repeat split; assumption. Qed.

Lemma undisplayed_with_p_bar {model} (o : BaseOptimizer model) b :
  undisplayed (with_p_bar o b) = undisplayed o.
Proof. reflexivity. Qed.

Lemma init_search_sim (E : Externals) (nth : Z) (X y : data) (w1 w2 : Process E) :
  undisplayed (self w1) = undisplayed (self w2) -> in_worker w1 = in_worker w2 ->
  outcome (_init_search E nth X y w1) = outcome (_init_search E nth X y w2) /\
  gens (final (_init_search E nth X y w1)) = gens (final (_init_search E nth X y w2)).
Proof.
  intros Hu Hw. destruct w1 as [o1 g1 b1], w2 as [o2 g2 b2]. cbn [self in_worker] in *.
  subst b2. destruct o1, o2. inversion Hu; subst. clear Hu.
  unfold _init_search, _set_random_seed, bind_candidate, _get_sklearn_model,
    random_choice, seed_generator, int_of, set_p_bar, outcome, final.
  run_m.
  repeat (split_match; simpl); auto;
    match goal with H : truthy None = true |- _ => discriminate H end.
Qed.

Lemma search_step_sim (E : Externals) (nth : Z) (X y : data) (i : Z) cp
    (w1 w2 : Process E) :
  undisplayed (self w1) = undisplayed (self w2) -> gens w1 = gens w2 ->
  bar_ok w1 -> bar_ok w2 ->
  outcome (search_step E nth X y i cp w1) = outcome (search_step E nth X y i cp w2) /\
  gens (final (search_step E nth X y i cp w1))
  = gens (final (search_step E nth X y i cp w2)) /\
  (is_Ok (outcome (search_step E nth X y i cp w1)) = true ->
   undisplayed (self (final (search_step E nth X y i cp w1)))
   = undisplayed (self (final (search_step E nth X y i cp w2))) /\
   bar_ok (final (search_step E nth X y i cp w1)) /\
   bar_ok (final (search_step E nth X y i cp w2))).
Proof.
  intros Hu Hg Hb1 Hb2. unfold bar_ok in *.
  unfold search_step, p_bar_update, set_p_bar, outcome, final. run_m. rewrite Hg.
  destruct (_iterate E i (fst cp) (snd cp) X y (gens w2)) as [[cp'|e] g]; simpl; [|auto].
  destruct (_show_progress_bar E (self w1)) eqn:S1;
    destruct (_show_progress_bar E (self w2)) eqn:S2; simpl.
  - destruct (Hb1 eq_refl) as (b1 & ->). destruct (Hb2 eq_refl) as (b2 & ->). simpl.
    repeat split; auto; try (intros _; eexists; reflexivity);
      try (inversion Hu; reflexivity).
  - destruct (Hb1 eq_refl) as (b1 & ->). simpl.
    repeat split; auto; try (intros _; eexists; reflexivity);
      try (inversion Hu; reflexivity); try (intros; congruence).
  - destruct (Hb2 eq_refl) as (b2 & ->). simpl.
    repeat split; auto; try (intros _; eexists; reflexivity);
      try (inversion Hu; reflexivity); try (intros; congruence).
  - repeat split; auto; intros; congruence.
Qed.

Lemma search_loop_sim (E : Externals) (nth : Z) (X y : data) (l : list Z) :
  forall cp (w1 w2 : Process E),
    undisplayed (self w1) = undisplayed (self w2) -> gens w1 = gens w2 ->
    bar_ok w1 -> bar_ok w2 ->
    outcome (for_each E l (search_step E nth X y) cp w1)
    = outcome (for_each E l (search_step E nth X y) cp w2) /\
    events (for_each E l (search_step E nth X y) cp w1)
    = events (for_each E l (search_step E nth X y) cp w2) /\
    gens (final (for_each E l (search_step E nth X y) cp w1))
    = gens (final (for_each E l (search_step E nth X y) cp w2)).
Proof.
  induction l as [|i l IH]; intros cp w1 w2 Hu Hg Hb1 Hb2.
  - simpl. unfold ret, outcome, events, final. simpl. auto.
  - rewrite !for_each_cons.
    destruct (search_step_sim E nth X y i cp w1 w2 Hu Hg Hb1 Hb2) as (Ho & Hg' & Hok).
    destruct (search_step E nth X y i cp w1) as [[r1 w1'] t1] eqn:H1.
    destruct (search_step E nth X y i cp w2) as [[r2 w2'] t2] eqn:H2.
    apply search_step_effect in H1, H2. destruct H1 as (-> & _). destruct H2 as (-> & _).
    unfold outcome, final in Ho, Hg', Hok. cbn [fst snd] in Ho, Hg', Hok. subst r2.
    destruct r1 as [cp1|e]; [|unfold outcome, events, final; cbn [fst snd]; auto].
    destruct (Hok eq_refl) as (Hu' & Hb1' & Hb2').
    destruct (IH cp1 w1' w2' Hu' Hg' Hb1' Hb2') as (Ho2 & He2 & Hg2).
    destruct (for_each E l (search_step E nth X y) cp1 w1') as [[r3 w3] t3].
    destruct (for_each E l (search_step E nth X y) cp1 w2') as [[r4 w4] t4].
    unfold outcome, events, final in *. cbn [fst snd] in *. subst. auto.
Qed.

Lemma init_search_bar_ok (E : Externals) (nth : Z) (X y : data) (w : Process E)
    cp w1 t :
  _init_search E nth X y w = (Ok cp, w1, t) -> bar_ok w1.
Proof.
  intros H. apply init_search_bar in H. unfold bar_ok. rewrite H.
  destruct (_show_progress_bar E (self w)) eqn:Hs.
  - intros _. eexists. reflexivity.
  - rewrite Hs. discriminate.
Qed.

Lemma report_events_undisplayed {E} (o1 o2 : BaseOptimizer (model E)) nth :
  undisplayed o1 = undisplayed o2 -> report_events o1 nth = report_events o2 nth.
Proof.
  intros H. apply undisplayed_fields in H.
  destruct H as (_ & _ & _ & _ & Hm & Hc & _).
  unfold report_events, is_ml. rewrite Hm, Hc. reflexivity.
Qed.

Lemma base_seed_undisplayed {model} (o1 o2 : BaseOptimizer model) :
  undisplayed o1 = undisplayed o2 -> base_seed o1 = base_seed o2.
Proof.
  intros H. apply undisplayed_fields in H. destruct H as (_ & _ & Hr & _).
  unfold base_seed. rewrite Hr. reflexivity.
Qed.

(** Two searches whose optimizers differ in verbosity and progress bar only
    find the same. *)
Lemma search_sim (E : Externals) (nth : Z) (X y : data) (w1 w2 : Process E) :
  undisplayed (self w1) = undisplayed (self w2) -> in_worker w1 = in_worker w2 ->
  outcome (search E nth X y w1) = outcome (search E nth X y w2) /\
  events (search E nth X y w1) = events (search E nth X y w2) /\
  gens (final (search E nth X y w1)) = gens (final (search E nth X y w2)) /\
  undisplayed (self (final (search E nth X y w1)))
  = undisplayed (self (final (search E nth X y w2))) /\
  in_worker (final (search E nth X y w1)) = in_worker (final (search E nth X y w2)).
Proof.
  intros Hu Hw.
  assert (Hfin : forall w : Process E,
            undisplayed (self (final (search E nth X y w))) = undisplayed (self w) /\
            in_worker (final (search E nth X y w)) = in_worker w).
  { intros w. destruct (search E nth X y w) as [[r w'] t] eqn:Hs.
    apply search_effect in Hs. destruct Hs as (j & _ & _ & _ & Hwk & b & Hself).
    unfold final. cbn [fst snd]. rewrite Hself. auto. }
  destruct (Hfin w1) as (F1 & K1). destruct (Hfin w2) as (F2 & K2).
  rewrite F1, F2, K1, K2. clear Hfin F1 F2 K1 K2.
  rewrite !search_unfold, Hw.
  destruct (init_search_sim E nth X y w1 w2 Hu Hw) as (Ho & Hg).
  destruct (_init_search E nth X y w1) as [[r1 w1'] t1] eqn:H1.
  destruct (_init_search E nth X y w2) as [[r2 w2'] t2] eqn:H2.
  unfold outcome, final in Ho, Hg. cbn [fst snd] in Ho, Hg. subst r2.
  pose proof (init_search_effect E nth X y w1 _ _ _ H1) as (-> & _ & b1 & Hs1).
  pose proof (init_search_effect E nth X y w2 _ _ _ H2) as (-> & _ & b2 & Hs2).
  rewrite (base_seed_undisplayed _ _ Hu), (report_events_undisplayed _ _ nth Hu).
  destruct r1 as [cp|e]; [|unfold outcome, events, final; cbn [fst snd]; auto].
  assert (Hu' : undisplayed (self w1') = undisplayed (self w2'))
    by (rewrite Hs1, Hs2; exact Hu).
  assert (Hn : n_iter (self w1') = n_iter (self w2'))
    by (apply undisplayed_fields in Hu'; tauto).
  rewrite Hn.
  destruct (search_loop_sim E nth X y (py_range (n_iter (self w2'))) cp w1' w2' Hu' Hg
              (init_search_bar_ok _ _ _ _ _ _ _ _ H1)
              (init_search_bar_ok _ _ _ _ _ _ _ _ H2)) as (Lo & Le & Lg).
  destruct (for_each E _ (search_step E nth X y) cp w1') as [[r3 w3] t3].
  destruct (for_each E _ (search_step E nth X y) cp w2') as [[r4 w4] t4].
  unfold outcome, events, final in *. cbn [fst snd] in *. subst r4 t4.
  destruct r3; cbn [fst snd]; auto.
Qed.

Lemma without_results_app {E} (t1 t2 : list (event E)) :
  without_results (t1 ++ t2) = without_results t1 ++ without_results t2.
Proof. apply filter_app. Qed.

Lemma without_results_prints {E} (t : list (event E)) :
  forallb is_result_print t = true -> without_results t = [].
Proof.
  induction t as [|ev t IH]; [reflexivity|]. simpl. intros H.
  apply andb_true_iff in H. destruct H as [Hev Ht]. rewrite Hev. simpl. auto.
Qed.

Lemma result_of_prints (E : Externals) (o : BaseOptimizer (model E)) sp sc :
  forallb is_result_print (result_of E o sp sc) = true.
Proof. unfold result_of. destruct (verbosity o =? 0); reflexivity. Qed.

Lemma report_of_prints (E : Externals) (o : BaseOptimizer (model E)) lines :
  forallb is_result_print (report_of E o lines) = true.
Proof.
  unfold report_of. destruct (verbosity o =? 0); [reflexivity|]. simpl.
  induction lines as [|line lines IH]; [reflexivity|exact IH].
Qed.

Lemma run_one_job_sim (E : Externals) (X y : data) (w1 w2 : Process E) :
  undisplayed (self w1) = undisplayed (self w2) -> in_worker w1 = in_worker w2 ->
  same_found (_run_one_job E X y w1) (_run_one_job E X y w2).
Proof.
  intros Hu Hw. rewrite !run_one_job_unfold.
  destruct (search_sim E 0 X y w1 w2 Hu Hw) as (Ho & He & Hg & Hu' & Hw').
  destruct (search E 0 X y w1) as [[r1 w1'] t1].
  destruct (search E 0 X y w2) as [[r2 w2'] t2].
  unfold outcome, events, final in Ho, He, Hg, Hu', Hw'. cbn [fst snd] in *. subst r2 t2.
  unfold same_found, outcome, events, final.
  destruct r1 as [c|e]; [|cbn [fst snd]; auto].
  destruct (_get_warm_start E c) as [sp|]; [|cbn [fst snd]; auto]. cbv zeta.
  assert (Hsc : forall sc, undisplayed (with_score_best (self w1') sc)
                           = undisplayed (with_score_best (self w2') sc)).
  { intros sc. change (with_score_best (undisplayed (self w1')) sc
                       = with_score_best (undisplayed (self w2')) sc).
    rewrite Hu'. reflexivity. }
  destruct (pos2para E (cand_rest c) (pos_best c)) as [pa|];
    [|cbn [fst snd self gens in_worker]; auto].
  destruct (_create_model E (cand_rest c) pa) as [m|];
    [|cbn [fst snd self gens in_worker]; auto].
  cbn [fst snd self gens in_worker].
  rewrite !without_results_app, !(without_results_prints _ (result_of_prints _ _ _ _)).
  repeat split; auto.
  change (with_model_best (undisplayed (with_score_best (self w1') (score_best c))) m
          = with_model_best (undisplayed (with_score_best (self w2') (score_best c))) m).
  rewrite Hsc. reflexivity.
Qed.

Lemma pool_sim (E : Externals) (X y : data) (w1 w2 : Process E) :
  undisplayed (self w1) = undisplayed (self w2) ->
  outcome (_search_multiprocessing E X y w1) = outcome (_search_multiprocessing E X y w2) /\
  events (_search_multiprocessing E X y w1) = events (_search_multiprocessing E X y w2).
Proof.
  intros Hu. rewrite !search_multiprocessing_unfold.
  pose proof (undisplayed_fields _ _ Hu) as (_ & _ & _ & _ & _ & Hc & Hr & _).
  rewrite Hc, Hr.
  destruct (n_jobs (_config_ (self w2)) <? 1); [split; reflexivity|]. cbv zeta.
  set (ids := _n_process_range (self w2)).
  assert (Hruns : map outcome (map (fun nth => search E nth X y (worker_of w1)) ids)
                  = map outcome (map (fun nth => search E nth X y (worker_of w2)) ids) /\
                  map events (map (fun nth => search E nth X y (worker_of w1)) ids)
                  = map events (map (fun nth => search E nth X y (worker_of w2)) ids)).
  { rewrite !map_map. split; apply map_ext; intros nth;
      apply (search_sim E nth X y (worker_of w1) (worker_of w2)); auto. }
  destruct Hruns as (-> & ->).
  destruct (first_raised _ _); split; reflexivity.
Qed.

Lemma reduce_jobs_sim (E : Externals) cands (w1 w2 : Process E) :
  undisplayed (self w1) = undisplayed (self w2) -> gens w1 = gens w2 ->
  in_worker w1 = in_worker w2 ->
  same_found (reduce_jobs E cands w1) (reduce_jobs E cands w2).
Proof.
  intros Hu Hg Hw. rewrite !reduce_jobs_unfold.
  assert (Hc : outcome (for_each E cands (collect_job E) ([], [], []) w1)
               = outcome (for_each E cands (collect_job E) ([], [], []) w2))
    by (rewrite (collect_jobs_pure E cands _ w1 w2); reflexivity).
  rewrite Hc. unfold same_found, outcome, events, final.
  destruct (fst (fst (for_each E cands (collect_job E) ([], [], []) w2)))
    as [[[sps scs] ms]|e]; [|cbn [fst snd]; auto].
  destruct (_sort_for_best sps scs) as [s1|]; [|cbn [fst snd]; auto].
  destruct (_sort_for_best ms scs) as [s2|]; [|cbn [fst snd]; auto].
  cbv zeta.
  assert (Hsc : forall sc, undisplayed (with_score_best (self w1) sc)
                           = undisplayed (with_score_best (self w2) sc)).
  { intros sc. change (with_score_best (undisplayed (self w1)) sc
                       = with_score_best (undisplayed (self w2)) sc).
    rewrite Hu. reflexivity. }
  destruct (getitem (snd s2) 0) as [bs|];
    [|cbn [fst snd]; rewrite !(without_results_prints _ (report_of_prints _ _ _)); auto].
  destruct (getitem (fst s2) 0) as [bm|]; cbn [fst snd self gens in_worker];
    rewrite !(without_results_prints _ (report_of_prints _ _ _)); repeat split; auto.
  change (with_model_best (undisplayed (with_score_best (self w1) bs)) bm
          = with_model_best (undisplayed (with_score_best (self w2) bs)) bm).
  rewrite Hsc. reflexivity.
Qed.

Lemma run_multiple_jobs_sim (E : Externals) (X y : data) (w1 w2 : Process E) :
  undisplayed (self w1) = undisplayed (self w2) -> gens w1 = gens w2 ->
  in_worker w1 = in_worker w2 ->
  same_found (_run_multiple_jobs E X y w1) (_run_multiple_jobs E X y w2).
Proof.
  intros Hu Hg Hw. rewrite !run_multiple_jobs_unfold.
  destruct (pool_sim E X y w1 w2 Hu) as (Ho & He).
  destruct (_search_multiprocessing E X y w1) as [[r1 w1'] t1] eqn:H1.
  destruct (_search_multiprocessing E X y w2) as [[r2 w2'] t2] eqn:H2.
  apply pool_keeps_the_caller in H1, H2. subst w1' w2'.
  unfold outcome, events in Ho, He. cbn [fst snd] in Ho, He. subst r2 t2.
  destruct r1 as [cands|e].
  - destruct (reduce_jobs_sim E cands w1 w2 Hu Hg Hw) as (Ro & Re & Rg & Ru & Rw).
    destruct (reduce_jobs E cands w1) as [[r w1'] t].
    destruct (reduce_jobs E cands w2) as [[r' w2'] t'].
    unfold same_found, outcome, events, final in *. cbn [fst snd] in *.
    rewrite !without_results_app, Re. auto.
  - unfold same_found, outcome, events, final. cbn [fst snd]. auto.
Qed.

Lemma fit_sim (E : Externals) (X y : data) (w1 w2 : Process E) :
  undisplayed (self w1) = undisplayed (self w2) -> gens w1 = gens w2 ->
  in_worker w1 = in_worker w2 ->
  same_found (fit E X y w1) (fit E X y w2).
Proof.
  intros Hu Hg Hw. rewrite !fit_unfold.
  assert (Hrun : same_found (fit_run E X y w1) (fit_run E X y w2)).
  { unfold fit_run. cbv zeta.
    pose proof (undisplayed_fields _ _ Hu) as (_ & _ & _ & _ & _ & Hc & _).
    rewrite Hc.
    set (w1' := if String.eqb (model_type (_config_ (self w2))) "keras"
                then with_n_jobs w1 1 else w1).
    set (w2' := if String.eqb (model_type (_config_ (self w2))) "keras"
                then with_n_jobs w2 1 else w2).
    assert (H' : undisplayed (self w1') = undisplayed (self w2') /\
                 gens w1' = gens w2' /\ in_worker w1' = in_worker w2').
    { unfold w1', w2'. destruct (String.eqb _ _); [|auto].
      unfold with_n_jobs, set_n_jobs, final. run_m.
      pose proof (undisplayed_fields _ _ Hu) as (-> & -> & -> & -> & -> & _ & -> & -> & ->).
      rewrite Hc. auto. }
    destruct H' as (Hu' & Hg' & Hw').
    pose proof (undisplayed_fields _ _ Hu') as (_ & _ & _ & _ & _ & Hc' & _).
    rewrite Hc'. destruct (n_jobs (_config_ (self w2')) =? 1).
    - apply run_one_job_sim; assumption.
    - apply run_multiple_jobs_sim; assumption. }
  destruct Hrun as (Ho & He & Hg' & Hu' & Hw').
  destruct (fit_run E X y w1) as [[r1 w1'] t1].
  destruct (fit_run E X y w2) as [[r2 w2'] t2].
  unfold same_found, outcome, events, final in *. cbn [fst snd] in *. subst r2.
  destruct r1 as [[]|e]; [|cbn [fst snd]; auto].
  pose proof (undisplayed_fields _ _ Hu') as (_ & _ & _ & _ & _ & _ & _ & _ & Hm).
  rewrite Hm, Hg'.
  destruct (model_best (self w2')) as [m|]; [|cbn [fst snd]; auto].
  destruct (model_fit E m (converted X) y (gens w2')) as [[fitted|e] g];
    cbn [fst snd self gens in_worker]; repeat split; auto.
  change (with_model_best (undisplayed (self w1')) fitted
          = with_model_best (undisplayed (self w2')) fitted).
  rewrite Hu'. reflexivity.
Qed.

(** X26: Verbosity concerns the display only. Run with any other verbosity,
    [fit] returns or raises the same, leaves the same [score_best] and the
    same [model_best] and the generators in the same state, and has the same
    effects apart from the prints of results: the same seeds, searches,
    iterations and reports of dropped models. *)
Theorem verbosity_changes_the_display_only (E : Externals) (X y : data)
    (w : Process E) (v : Z) :
  let w' := mk_Process (with_verbosity (self w) v) (gens w) (in_worker w) in
  outcome (fit E X y w') = outcome (fit E X y w) /\
  score_best_ (self (final (fit E X y w'))) = score_best_ (self (final (fit E X y w))) /\
  model_best (self (final (fit E X y w'))) = model_best (self (final (fit E X y w))) /\
  gens (final (fit E X y w')) = gens (final (fit E X y w)) /\
  without_results (events (fit E X y w')) = without_results (events (fit E X y w)).
Proof.
  intros w'.
  destruct (fit_sim E X y w' w) as (Ho & He & Hg & Hu & _); try reflexivity.
  pose proof (undisplayed_fields _ _ Hu) as (_ & _ & _ & _ & _ & _ & _ & Hs & Hm).
  auto.
Qed.

Example verbosity_changes_the_prints :
  let E := toy sum_score [] in
  let w := caller (three_jobs E 2) 0 in
  let quiet := mk_Process (with_verbosity (self w) 0) (gens w) (in_worker w) in
  printed (events (fit E no_data no_data quiet)) = [NotEnoughJobs 1] /\
  length (printed (events (fit E no_data no_data w))) = 8%nat /\
  model_best (self (final (fit E no_data no_data quiet)))
  = model_best (self (final (fit E no_data no_data w))).
Proof. vm_compute. repeat split; reflexivity. Qed.

(** ** The data and the job slots of [fit] *)

(** X27: [fit] takes a DataFrame [X] as its values: fitting on the frame is
    fitting on [X.values], in outcome, effects and final state. *)
Theorem fit_takes_a_frame_as_its_values (E : Externals) (id : nat) (v : ndarray)
    (y : data) (w : Process E) :
  fit E (DataFrame id v) y w = fit E (Array v) y w.
Proof. rewrite !fit_unfold. reflexivity. Qed.

(** X28: Without a job slot nothing runs: for a model type other than keras
    and [n_jobs] below 1, [fit] raises the [ValueError] of the pool's
    constructor, before any search, and leaves the process as it was. *)
Theorem fit_without_job_slots (E : Externals) (X y : data) (w : Process E) :
  String.eqb (model_type (_config_ (self w))) "keras" = false ->
  n_jobs (_config_ (self w)) < 1 ->
  fit E X y w = (Raise ValueError, w, []).
Proof.
  intros Hk Hn. rewrite fit_unfold. unfold fit_run. rewrite Hk. cbv zeta.
  replace (n_jobs (_config_ (self w)) =? 1) with false by (symmetry; apply Z.eqb_neq; lia).
  rewrite run_multiple_jobs_unfold, search_multiprocessing_unfold.
  replace (n_jobs (_config_ (self w)) <? 1) with true by (symmetry; apply Z.ltb_lt; lia).
  reflexivity.
Qed.

Lemma fit_without_job_slots_witness :
  let E := toy sum_score [] in
  let w := caller (__init__ (model E) four_models 5 "accuracy" 1 None
                     (mk_Config "sklearn" 0)) 0 in
  fit E no_data no_data w = (Raise ValueError, w, []).
Proof.
  intros E w. apply (fit_without_job_slots E no_data no_data w).
  - reflexivity.
  - simpl. lia.
Defined.

(** ** Examples of what a run leaves *)

Lemma failed_model_build_keeps_the_new_score_witness :
  let E := unbuildable in
  let w := caller (one_job E 3) 0 in
  outcome (_run_one_job E no_data no_data w)
  = Raise (External "cannot build the model") /\
  score_best_ (self (final (_run_one_job E no_data no_data w))) = Some 3 /\
  model_best (self (final (_run_one_job E no_data no_data w))) = model_best (self w).
Proof.
  intros E w.
  eapply (failed_model_build_keeps_the_new_score E no_data no_data w
            (mk_Candidate 0 [] 0 [0; 3] 3 tt)).
  - vm_compute. reflexivity.
  - reflexivity.
  - right. eexists. split; reflexivity.
Defined.

Lemma single_job_fit_result_witness :
  let E := toy sum_score [] in
  let w := caller (one_job E 3) 0 in
  let w' := final (fit E no_data no_data w) in
  let w0 := if String.eqb (model_type (_config_ (self w))) "keras"
            then with_n_jobs w 1 else w in
  exists c w1 t1 sp m fitted,
    search E 0 (converted no_data) no_data w0 = (Ok c, w1, t1) /\
    job_result E c = Ok (sp, score_best c, m) /\
    model_fit E m (converted no_data) no_data (gens w1) = (Ok fitted, gens w') /\
    score_best_ (self w') = Some (score_best c) /\
    model_best (self w') = Some fitted /\
    events (fit E no_data no_data w) = t1 ++ result_of E (self w1) sp (score_best c).
Proof.
  intros E w w'.
  apply (single_job_fit_result E no_data no_data w w' (events (fit E no_data no_data w))).
  - right. reflexivity.
  - vm_compute. reflexivity.
Defined.

Example single_job_fit_leaves :
  let E := toy sum_score [] in
  let w' := final (fit E no_data no_data (caller (one_job E 3) 0)) in
  score_best_ (self w') = Some 3 /\ model_best (self w') = Some ([0; 3], true).
Proof. vm_compute. split; reflexivity. Qed.

Lemma pool_fit_result_witness :
  let E := drawing_fit in
  let w := caller (three_jobs E 3) 11 in
  let w' := final (fit E no_data no_data w) in
  exists sc m fitted,
    final (_run_multiple_jobs E (converted no_data) no_data w)
    = mk_Process (with_model_best (with_score_best (self w) sc) m)
        (gens w) (in_worker w) /\
    events (_run_multiple_jobs E (converted no_data) no_data w)
    = events (fit E no_data no_data w) /\
    model_fit E m (converted no_data) no_data (gens w) = (Ok fitted, gens w') /\
    score_best_ (self w') = Some sc /\
    model_best (self w') = Some fitted.
Proof.
  intros E w w'.
  apply (pool_fit_result E no_data no_data w w' (events (fit E no_data no_data w))).
  - reflexivity.
  - vm_compute. discriminate.
  - vm_compute. reflexivity.
Defined.

(** With several job slots the fitted model depends on what was drawn before
    the call, with or without a [random_state]; with one job slot it does
    not. *)
Example pool_fit_depends_on_earlier_draws :
  let E := drawing_fit in
  let seeded_three := __init__ (model E) four_models 3 "accuracy" 1 (Some 7)
                        (mk_Config "sklearn" 3) in
  let seeded_one := __init__ (model E) four_models 3 "accuracy" 1 (Some 7)
                      (mk_Config "sklearn" 1) in
  model_best (self (final (fit E no_data no_data (caller seeded_three 11))))
  = Some ([11; 2; 3], true) /\
  model_best (self (final (fit E no_data no_data (caller seeded_three 12))))
  = Some ([12; 2; 3], true) /\
  model_best (self (final (fit E no_data no_data (caller seeded_one 11))))
  = Some ([7; 0; 3], true) /\
  model_best (self (final (fit E no_data no_data (caller seeded_one 12))))
  = Some ([7; 0; 3], true).
Proof. vm_compute. repeat split; reflexivity. Qed.

Lemma fitted_optimizer_predicts_and_scores_witness :
  let E := toy sum_score [] in
  let w := caller (three_jobs E 3) 0 in
  let w' := final (fit E no_data no_data w) in
  (exists fitted,
     model_best (self w') = Some fitted /\
     predict toy_predict (self w') no_data = toy_predict fitted no_data) /\
  BaseOptimizer_score toy_score toy_evaluate getitem (self w') no_data no_data
  <> Ok None /\
  (forall keys n metric v rs config,
     predict toy_predict (__init__ (model E) keys n metric v rs config) no_data
     = Raise AttributeError).
Proof.
  intros E w w'.
  apply (fitted_optimizer_predicts_and_scores E position Z (list Z) toy_predict
           toy_score toy_evaluate getitem no_data no_data no_data no_data w w'
           (events (fit E no_data no_data w))).
  vm_compute. reflexivity.
Defined.

Example fitted_optimizer_example :
  let E := toy sum_score [] in
  let w' := final (fit E no_data no_data (caller (three_jobs E 3) 0)) in
  predict toy_predict (self w') no_data = Ok [2; 3] /\
  BaseOptimizer_score toy_score toy_evaluate getitem (self w') no_data no_data
  = Ok (Some 5).
Proof. vm_compute. split; reflexivity. Qed.
